(** * Static site builder: a shallow embedding of [scripts/build.py]

    The development follows the class [SiteBuilder]: the content loaders
    ([load_products], [load_posts]), the template renderer
    ([render_template]), the page generator and the two feed generators
    ([generate_sitemap], [generate_rss]).

    Modelling conventions.
    - A Python [str] is a [string]: the UTF-8 bytes of the text.  Substring
      search, replacement and the code point order of Python strings agree
      with the byte-wise operations on UTF-8, and every byte of a non-ASCII
      character lies outside [[a-z0-9]].  [str.lower] is exact on ASCII
      and on which ASCII characters the lower-cased text has, and the
      digits of [strptime] are ASCII: a statement that depends on what
      they do to other characters says in a hypothesis which texts it is
      about.
    - A [dict] is an association list in insertion order with unique keys.
    - Exceptions are values of [exn]; a method of the builder is a function
      from the builder's state to an outcome and a new state.
    - The files that a build reads are given by a [World]: the mapping
      that [site.yml] holds, the rows that [csv.DictReader] yields for the
      two CSV files, the template bodies and the date of the day.  A cell
      of a row is a [str], or [None] where the line is shorter than the
      header; the cells of a line beyond the header are kept under the key
      [None]. *)

From Stdlib Require Import Strings.String Strings.Ascii.
From Stdlib Require Import Lists.List Bool.Bool Arith.PeanoNat NArith.NArith ZArith.ZArith.
From Stdlib Require Import Sorting.Permutation Sorting.Sorted.
From Stdlib Require Import Lia.

Import ListNotations.
Local Open Scope list_scope.
Local Open Scope string_scope.

(* ================================================================= *)
(** ** Python strings *)

Module PyStr.

Definition code (c : ascii) : N := N_of_ascii c.

Definition in_range (lo hi c : ascii) : bool :=
  (code lo <=? code c)%N && (code c <=? code hi)%N.

Definition is_upper (c : ascii) : bool := in_range "A" "Z" c.
Definition is_lower (c : ascii) : bool := in_range "a" "z" c.
Definition is_digit (c : ascii) : bool := in_range "0" "9" c.

(** The small letter of an ASCII capital; any other byte is left as it
    is. *)
Definition lower_char (c : ascii) : ascii :=
  if is_upper c then ascii_of_N (code c + 32) else c.

Fixpoint lower_ascii (s : string) : string :=
  match s with
  | EmptyString => EmptyString
  | String c r => String (lower_char c) (lower_ascii r)
  end.

(** [s.lstrip(c)], [s.rstrip(c)] and [s.strip(c)] for a one-character set. *)
Fixpoint lstrip (c : ascii) (s : string) : string :=
  match s with
  | EmptyString => EmptyString
  | String d r => if Ascii.eqb d c then lstrip c r else s
  end.

Fixpoint rstrip (c : ascii) (s : string) : string :=
  match s with
  | EmptyString => EmptyString
  | String d r =>
      match rstrip c r with
      | EmptyString => if Ascii.eqb d c then EmptyString else String d EmptyString
      | r' => String d r'
      end
  end.

Definition strip (c : ascii) (s : string) : string := rstrip c (lstrip c s).

(** [n] copies of one character. *)
Fixpoint replicate (n : nat) (c : ascii) : string :=
  match n with
  | O => EmptyString
  | S m => String c (replicate m c)
  end.

(** [old in s]: [old] occurs in [s] as a substring. *)
Fixpoint occurs (old s : string) : bool :=
  String.prefix old s ||
  match s with
  | EmptyString => false
  | String _ r => occurs old r
  end.

(** [s.replace(old, new)] for a non-empty [old]: the occurrences of [old]
    are found from left to right and do not overlap.  [skip] counts the
    characters of a match that are still to be passed over. *)
Fixpoint replace_from (skip : nat) (old new s : string) : string :=
  match s with
  | EmptyString => EmptyString
  | String c r =>
      match skip with
      | S k => replace_from k old new r
      | O =>
          if String.prefix old s
          then new ++ replace_from (String.length old - 1) old new r
          else String c (replace_from 0 old new r)
      end
  end.

Definition replace (s old new : string) : string := replace_from 0 old new s.

(** The last character of a string, if any. *)
Fixpoint last_char (s : string) : option ascii :=
  match s with
  | EmptyString => None
  | String c EmptyString => Some c
  | String _ r => last_char r
  end.

(** All the characters of a string satisfy [p]. *)
Fixpoint all_chars (p : ascii -> bool) (s : string) : bool :=
  match s with
  | EmptyString => true
  | String c r => p c && all_chars p r
  end.

(** The text is ASCII: every byte is below 128. *)
Definition is_ascii (s : string) : bool :=
  all_chars (fun c => (code c <? 128)%N) s.

(** The UTF-8 bytes of U+212A (Kelvin sign) and of U+0130 (capital I with
    a dot above): the two code points beyond ASCII whose [str.lower()]
    has an ASCII letter, [k] for the first and [i] with U+0307 (the
    combining dot above) for the second. *)
Definition kelvin_sign : string :=
  String "226" (String "132" (String "170" EmptyString)).
Definition dotted_capital_i : string :=
  String "196" (String "176" EmptyString).
Definition dotted_small_i : string :=
  String "i" (String "204" (String "135" EmptyString)).

(** [s.lower()], as far as ASCII can tell.  The ASCII capitals become
    their small letters, the Kelvin sign becomes [k] and the capital I
    with a dot becomes [i] with the combining dot; every other character
    beyond ASCII is left as it is, where [str.lower()] gives one or more
    characters beyond ASCII again.  So the two texts have the same ASCII
    characters at the same places between their characters beyond ASCII,
    and they are equal when [s] is ASCII. *)
Definition lower (s : string) : string :=
  lower_ascii
    (replace (replace s kelvin_sign "k") dotted_capital_i dotted_small_i).

End PyStr.

(* ================================================================= *)
(** ** Slugs

    The expression
    [re.sub(r'[^a-z0-9]+', '-', title.lower()).strip('-')]
    occurs verbatim in [generate_pages], [generate_sitemap] and
    [generate_rss]; [slugify] is that expression. *)

Module Slug.
Import PyStr.

(** The character class [[a-z0-9]]. *)
Definition slug_char (c : ascii) : bool := is_lower c || is_digit c.

(** [re.sub(r'[^a-z0-9]+', '-', s)]: the scanner looks for a match at each
    position; a match is greedy, so it swallows the characters outside the
    class up to the next character of the class.  [in_match] tells that
    the previous character was swallowed by the current match. *)
Fixpoint re_sub_from (in_match : bool) (s : string) : string :=
  match s with
  | EmptyString => EmptyString
  | String c r =>
      if slug_char c then String c (re_sub_from false r)
      else if in_match then re_sub_from true r
      else String "-" (re_sub_from true r)
  end.

Definition re_sub (s : string) : string := re_sub_from false s.

Definition slugify (title : string) : string :=
  strip "-" (re_sub (lower title)).

(** *** The algorithm in the words of the specification *)

(** The maximal runs of a string: each run is tagged with whether its
    characters are in the class. *)
Fixpoint runs (s : string) : list (bool * string) :=
  match s with
  | EmptyString => []
  | String c r =>
      let b := slug_char c in
      match runs r with
      | (b', run) :: rs =>
          if Bool.eqb b b' then (b, String c run) :: rs
          else (b, String c EmptyString) :: (b', run) :: rs
      | [] => [(b, String c EmptyString)]
      end
  end.

Definition replace_run (r : bool * string) : string :=
  if fst r then snd r else "-".

Definition join_runs (l : list (bool * string)) : string :=
  String.concat "" (map replace_run l).

Definition slugify_spec (title : string) : string :=
  strip "-" (join_runs (runs (lower title))).

(** A run is not empty and all its characters are on the side of the
    class that its tag tells. *)
Definition run_ok (r : bool * string) : Prop :=
  snd r <> "" /\ all_chars (fun c => Bool.eqb (slug_char c) (fst r)) (snd r) = true.

(** Runs are maximal: two neighbours are on different sides of the class. *)
Fixpoint alternate (l : list (bool * string)) : Prop :=
  match l with
  | r1 :: ((r2 :: _) as t) => fst r1 <> fst r2 /\ alternate t
  | _ => True
  end.

End Slug.

(* ================================================================= *)
(** ** Dictionaries

    A Python [dict] keeps its keys in insertion order; assigning to a key
    that is present keeps the key's position. *)

Module Dict.

Definition dict (V : Type) : Type := list (string * V).

Section Ops.
Context {V : Type}.

(** [d.get(k)], with [None] for an absent key. *)
Fixpoint get (d : dict V) (k : string) : option V :=
  match d with
  | [] => None
  | (k', v) :: r => if String.eqb k' k then Some v else get r k
  end.

(** [d.get(k, default)]. *)
Definition get_default (d : dict V) (k : string) (default : V) : V :=
  match get d k with
  | Some v => v
  | None => default
  end.

(** [d[k] = v]. *)
Fixpoint set (d : dict V) (k : string) (v : V) : dict V :=
  match d with
  | [] => [(k, v)]
  | (k', v') :: r =>
      if String.eqb k' k then (k', v) :: r else (k', v') :: set r k v
  end.

(** [d.update(other)]: the items of [other] are assigned in order. *)
Definition update (d other : dict V) : dict V :=
  fold_left (fun acc kv => set acc (fst kv) (snd kv)) other d.

Definition keys (d : dict V) : list string := map fst d.

(** The keys of a dictionary are pairwise distinct. *)
Definition wf (d : dict V) : Prop := NoDup (keys d).

End Ops.

End Dict.

(** A cell of a row as [csv.DictReader] yields it: the text of the cell,
    or [None] for a column of the header that a shorter line does not
    reach. *)
Inductive cell : Type :=
| CNone
| CStr (s : string).

(** A row: column name to cell and, under the key [None], the cells that
    a line longer than the header has beyond it (there is no such key
    when [rest] is empty). *)
Record row : Type := mkrow {
  fields :> Dict.dict cell;
  rest : list string
}.

(** The row of a line that has as many cells as the header. *)
Definition full (l : Dict.dict string) : row :=
  mkrow (map (fun kv => (fst kv, CStr (snd kv))) l) [].

(** Every cell of the row is a [str]. *)
Definition full_row (r : row) : Prop :=
  forall k, Dict.get r k <> Some CNone.

(** [csv.DictReader] on a file whose first line gives the [header] and
    whose other lines are [lines], each one the list of its cells. *)
Module Csv.

(** [dict(zip(fieldnames, line))], then [None] for the names that the
    line does not reach; what the line has beyond the header is
    returned beside. *)
Fixpoint zip_row (header line : list string) (d : Dict.dict cell)
  : Dict.dict cell * list string :=
  match header, line with
  | k :: names, v :: cells => zip_row names cells (Dict.set d k (CStr v))
  | k :: names, [] => zip_row names [] (Dict.set d k CNone)
  | [], cells => (d, cells)
  end.

Definition read_line (header line : list string) : row :=
  mkrow (fst (zip_row header line [])) (snd (zip_row header line [])).

(** Blank lines are skipped. *)
Definition DictReader (header : list string) (lines : list (list string))
  : list row :=
  map (read_line header)
      (filter (fun line => match line with [] => false | _ :: _ => true end)
              lines).

End Csv.

(* ================================================================= *)
(** ** Exceptions and outcomes *)

Inductive exn : Type :=
| FileNotFoundError (path : string)
| KeyError (key : string)
| ValueError (msg : string)
| TypeError (msg : string)
| AttributeError (msg : string).

Inductive outcome (A : Type) : Type :=
| Return (a : A)
| Raise (e : exn).

Arguments Return {A} a.
Arguments Raise {A} e.

Definition bind_outcome {A B : Type} (m : outcome A) (k : A -> outcome B)
  : outcome B :=
  match m with
  | Return a => k a
  | Raise e => Raise e
  end.

(** [try: body / except ValueError: handler]. *)
Definition except_ValueError {A : Type} (body : outcome A) (handler : outcome A)
  : outcome A :=
  match body with
  | Raise (ValueError _) => handler
  | other => other
  end.

(** [d[k]], which raises [KeyError] for an absent key. *)
Definition getitem {V : Type} (d : Dict.dict V) (k : string) : outcome V :=
  match Dict.get d k with
  | Some v => Return v
  | None => Raise (KeyError k)
  end.

(** The receiver of a [str] method such as [c.lower()] or [c.split(',')]:
    [None] has no such attribute. *)
Definition str_of (method : string) (c : cell) : outcome string :=
  match c with
  | CStr s => Return s
  | CNone =>
      Raise (AttributeError
               ("'NoneType' object has no attribute '" ++ method ++ "'"))
  end.

(* ================================================================= *)
(** ** Calendar dates

    [datetime.strptime(s, '%Y-%m-%d').date()], [date] comparison and
    [strftime("%Y-%m-%d")].  The parser follows the regular expression
    that [_strptime] builds for the format, with the ASCII digits for
    [\d], and the range check of the [date] constructor. *)

Module PyDate.
Import PyStr.
Local Open Scope Z_scope.

Record date : Type := mkdate { year : Z; month : Z; day : Z }.

Definition is_leap (y : Z) : bool :=
  (y mod 4 =? 0) && (negb (y mod 100 =? 0) || (y mod 400 =? 0)).

Definition days_in_month (y m : Z) : Z :=
  if m =? 2 then (if is_leap y then 29 else 28)
  else if (m =? 4) || (m =? 6) || (m =? 9) || (m =? 11) then 30
  else 31.

(** The check of the [date] constructor ([MINYEAR = 1], [MAXYEAR = 9999]). *)
Definition valid (y m d : Z) : bool :=
  (1 <=? y) && (y <=? 9999) && (1 <=? m) && (m <=? 12)
  && (1 <=? d) && (d <=? days_in_month y m).

(** [a < b] on dates: years, then months, then days. *)
Definition ltb (a b : date) : bool :=
  (year a <? year b)
  || ((year a =? year b)
      && ((month a <? month b)
          || ((month a =? month b) && (day a <? day b)))).

Definition leb (a b : date) : bool := negb (ltb b a).

Definition digit (c : ascii) : option Z :=
  if is_digit c then Some (Z.of_N (code c) - 48) else None.

(** The directive [%m] is the regular expression [1[0-2]|0[1-9]|[1-9]].
    The alternatives that match a prefix of [s] are listed in the order in
    which the matcher tries them, each with the text left over. *)
Definition month_matches (s : string) : list (Z * string) :=
  match s with
  | String a r =>
      (match r with
       | String b r' =>
           (if Ascii.eqb a "1" && in_range "0" "2" b
            then [(10 + Z.of_N (code b) - 48, r')] else [])
           ++ (if Ascii.eqb a "0" && in_range "1" "9" b
               then [(Z.of_N (code b) - 48, r')] else [])
       | EmptyString => []
       end)
      ++ (if in_range "1" "9" a then [(Z.of_N (code a) - 48, r)] else [])
  | EmptyString => []
  end.

(** The directive [%d] is [3[0-1]|[1-2]\d|0[1-9]|[1-9]| [1-9]]. *)
Definition day_matches (s : string) : list (Z * string) :=
  match s with
  | String a r =>
      (match r with
       | String b r' =>
           (if Ascii.eqb a "3" && in_range "0" "1" b
            then [(30 + Z.of_N (code b) - 48, r')] else [])
           ++ (if in_range "1" "2" a && is_digit b
               then [(10 * (Z.of_N (code a) - 48) + Z.of_N (code b) - 48, r')]
               else [])
           ++ (if Ascii.eqb a "0" && in_range "1" "9" b
               then [(Z.of_N (code b) - 48, r')] else [])
       | EmptyString => []
       end)
      ++ (if in_range "1" "9" a then [(Z.of_N (code a) - 48, r)] else [])
      ++ (match r with
          | String b r' =>
              if Ascii.eqb a " " && in_range "1" "9" b
              then [(Z.of_N (code b) - 48, r')] else []
          | EmptyString => []
          end)
  | EmptyString => []
  end.

(** The directive [%Y] is [\d\d\d\d]. *)
Definition year_matches (s : string) : list (Z * string) :=
  match s with
  | String a (String b (String c (String d r))) =>
      match digit a, digit b, digit c, digit d with
      | Some x1, Some x2, Some x3, Some x4 =>
          [(1000 * x1 + 100 * x2 + 10 * x3 + x4, r)]
      | _, _, _, _ => []
      end
  | _ => []
  end.

Definition literal (c : ascii) (s : string) : list string :=
  match s with
  | String a r => if Ascii.eqb a c then [r] else []
  | EmptyString => []
  end.

(** The first match of the regular expression of ['%Y-%m-%d'] at the start
    of [s]: the three fields and the text after the match. *)
Definition match_Ymd (s : string) : option (Z * Z * Z * string) :=
  hd_error
    (flat_map (fun yr =>
       flat_map (fun r1 =>
         flat_map (fun mr =>
           flat_map (fun r2 =>
             map (fun dr => (fst yr, fst mr, fst dr, snd dr))
                 (day_matches r2))
             (literal "-" (snd mr)))
           (month_matches r1))
         (literal "-" (snd yr)))
       (year_matches s)).

(** [datetime.strptime(s, '%Y-%m-%d').date()]. *)
Definition strptime (s : string) : outcome date :=
  match match_Ymd s with
  | None => Raise (ValueError "time data does not match format")
  | Some (y, m, d, rest) =>
      if negb (String.eqb rest "") then Raise (ValueError "unconverted data remains")
      else if valid y m d then Return (mkdate y m d)
      else Raise (ValueError "day is out of range for month")
  end.

Definition digit_char (n : Z) : ascii := ascii_of_N (Z.to_N (48 + n mod 10)).

Definition two_digits (n : Z) : string :=
  String (digit_char (n / 10)) (String (digit_char n) EmptyString).

(** [d.strftime("%Y-%m-%d")] for a year of four digits. *)
Definition strftime (d : date) : string :=
  two_digits (year d / 100) ++ two_digits (year d) ++ "-"
  ++ two_digits (month d) ++ "-" ++ two_digits (day d).

End PyDate.

(* ================================================================= *)
(** ** Values, element trees and files *)

(** The objects that occur as values of the site configuration and of a
    rendering context: a [str], a row, a list of rows, or any other object
    (a number, a boolean, [None], ...), which the model knows by its
    [str()] and by its truth value. *)
Inductive value : Type :=
| VStr (s : string)
| VRow (r : row)
| VRows (rs : list row)
| VObj (shown : string) (truth : bool).

(** [bool(v)]. *)
Definition truthy (v : value) : bool :=
  match v with
  | VStr s => negb (String.eqb s "")
  | VRow r =>
      match fields r, rest r with
      | [], [] => false
      | _, _ => true
      end
  | VRows rs => match rs with [] => false | _ :: _ => true end
  | VObj _ truth => truth
  end.

(** A cell as a value: [None] shows as [None] and is false. *)
Definition cell_value (c : cell) : value :=
  match c with
  | CStr s => VStr s
  | CNone => VObj "None" false
  end.

(** An [xml.etree.ElementTree.Element]. *)
#[warnings="-register-all"]
Inductive Element : Type :=
| Elem (tag : string) (attrib : list (string * string))
       (text : option value) (children : list Element).

Definition tag_of (e : Element) : string :=
  match e with Elem t _ _ _ => t end.
Definition text_of (e : Element) : option value :=
  match e with Elem _ _ x _ => x end.
Definition children_of (e : Element) : list Element :=
  match e with Elem _ _ _ cs => cs end.

(** [ET.SubElement(parent, ...)] appends the new element to the children
    of [parent]; the parent with its new child is returned. *)
Definition SubElement (parent child : Element) : Element :=
  match parent with
  | Elem t a x cs => Elem t a x (cs ++ [child])
  end.

(** [ET.SubElement(parent, tag).text = text]. *)
Definition leaf (tag : string) (text : value) : Element :=
  Elem tag [] (Some text) [].

(** The serialiser of [ElementTree.write] skips a text that is false in a
    Boolean context, and raises [TypeError] on any other text that is not
    a [str]. *)
Definition text_ok (text : option value) : bool :=
  match text with
  | None => true
  | Some (VStr _) => true
  | Some v => negb (truthy v)
  end.

Fixpoint serializable (e : Element) : bool :=
  match e with
  | Elem _ _ text children => text_ok text && forallb serializable children
  end.

(** What is written to a path of the output directory: the text of a page,
    the element tree of an XML document handed to [ElementTree.write]
    (the bytes of its serialisation are not modelled), or what is left of
    an XML document whose serialisation raised: the file has been opened
    for writing and holds the beginning of the document at most. *)
Inductive file : Type :=
| Text (content : string)
| Xml (root : Element)
| Unfinished.

(* ================================================================= *)
(** ** The builder *)

Module Site.
Import PyStr.

(** What a build reads from outside: the data files (absent when they
    cannot be opened), the templates, the assets and the date of the day
    (the build is taken not to run across midnight). *)
Record World : Type := {
  site_yml : option (Dict.dict value);
  products_csv : option (list row);
  posts_csv : option (list row);
  templates : string -> option string;
  assets : option (list (string * string));
  today : PyDate.date
}.

(** The attributes of [self], the dictionaries that are shared by
    reference, and the output directory as the list of writes, the latest
    first. *)
Record SiteBuilder : Type := {
  site_config : nat;
  products : list row;
  posts : list row;
  heap : nat -> Dict.dict value;
  next_ref : nat;
  output : list (string * file)
}.

Definition M (A : Type) : Type := SiteBuilder -> outcome A * SiteBuilder.

Definition ret {A : Type} (a : A) : M A := fun st => (Return a, st).

Definition raise {A : Type} (e : exn) : M A := fun st => (Raise e, st).

Definition bind {A B : Type} (m : M A) (k : A -> M B) : M B :=
  fun st =>
    match m st with
    | (Return a, st') => k a st'
    | (Raise e, st') => (Raise e, st')
    end.

Definition lift {A : Type} (o : outcome A) : M A := fun st => (o, st).

Notation "x <- m ;; k" := (bind m (fun x => k))
  (at level 61, m at next level, right associativity).
Notation "m ;;; k" := (bind m (fun _ => k))
  (at level 61, right associativity).

(** [for x in l: body x]. *)
Fixpoint for_each {A : Type} (l : list A) (body : A -> M unit) : M unit :=
  match l with
  | [] => ret tt
  | x :: r => body x ;;; for_each r body
  end.

Definition get_state : M SiteBuilder := fun st => (Return st, st).

(** The state with one component replaced. *)
Definition with_site_config (r : nat) (st : SiteBuilder) : SiteBuilder :=
  {| site_config := r; products := products st; posts := posts st;
     heap := heap st; next_ref := next_ref st; output := output st |}.

Definition with_products (l : list row) (st : SiteBuilder) : SiteBuilder :=
  {| site_config := site_config st; products := l; posts := posts st;
     heap := heap st; next_ref := next_ref st; output := output st |}.

Definition with_posts (l : list row) (st : SiteBuilder) : SiteBuilder :=
  {| site_config := site_config st; products := products st; posts := l;
     heap := heap st; next_ref := next_ref st; output := output st |}.

Definition with_heap (h : nat -> Dict.dict value) (n : nat) (st : SiteBuilder)
  : SiteBuilder :=
  {| site_config := site_config st; products := products st;
     posts := posts st; heap := h; next_ref := n; output := output st |}.

Definition with_output (o : list (string * file)) (st : SiteBuilder)
  : SiteBuilder :=
  {| site_config := site_config st; products := products st;
     posts := posts st; heap := heap st; next_ref := next_ref st;
     output := o |}.

(** The heap with the dictionary at [r] replaced. *)
Definition heap_set (h : nat -> Dict.dict value) (r : nat) (d : Dict.dict value)
  : nat -> Dict.dict value :=
  fun r' => if Nat.eqb r' r then d else h r'.

(** A fresh dictionary object. *)
Definition alloc (d : Dict.dict value) : M nat :=
  fun st =>
    (Return (next_ref st),
     with_heap (heap_set (heap st) (next_ref st) d) (S (next_ref st)) st).

Definition deref (r : nat) : M (Dict.dict value) :=
  fun st => (Return (heap st r), st).

(** The dictionary at [r] is changed in place. *)
Definition store (r : nat) (d : Dict.dict value) : M unit :=
  fun st => (Return tt, with_heap (heap_set (heap st) r d) (next_ref st) st).

Definition set_site_config (r : nat) : M unit :=
  fun st => (Return tt, with_site_config r st).

Definition set_products (l : list row) : M unit :=
  fun st => (Return tt, with_products l st).

Definition set_posts (l : list row) : M unit :=
  fun st => (Return tt, with_posts l st).

(** [with open(output_dir / path, "w") as f: f.write(...)], and
    [tree.write(output_dir / path, ...)]. *)
Definition write_file (path : string) (f : file) : M unit :=
  fun st => (Return tt, with_output ((path, f) :: output st) st).

(** [ET.ElementTree(root).write(output_dir / path, ...)]: the file is
    opened for writing before the tree is serialised, so a serialiser that
    raises leaves an unfinished file at the path. *)
Definition write_xml (path : string) (root : Element) : M unit :=
  if serializable root then write_file path (Xml root)
  else write_file path Unfinished ;;; raise (TypeError "cannot serialize").

(** [shutil.rmtree(output_dir)] followed by [output_dir.mkdir()]. *)
Definition clean_output : M unit :=
  fun st => (Return tt, with_output [] st).

(** [open(path, "r")] on a file of the outside world. *)
Definition open_file {A : Type} (path : string) (content : option A) : M A :=
  match content with
  | Some a => ret a
  | None => raise (FileNotFoundError path)
  end.

(** [SiteBuilder()]: [site_config] is a fresh empty dictionary, the two
    collections are empty. *)
Definition init : SiteBuilder :=
  {| site_config := 0; products := []; posts := [];
     heap := fun _ => []; next_ref := 1; output := [] |}.

(** *** Sorting

    [l.sort(key=lambda x: x.get('publish_date', ''), reverse=True)]: the
    key of a record is a cell.  Two [str] keys are compared as strings,
    and the sort is stable also when it is reversed.  A comparison with
    [None] raises [TypeError], and the sort of a list of two or more
    compares every key at least once; a list of less than two is not
    compared at all. *)

Definition sort_key (x : row) : cell :=
  Dict.get_default x "publish_date" (CStr "").

(** The text of a key that is a [str]. *)
Definition key_text (c : cell) : string :=
  match c with
  | CStr s => s
  | CNone => ""
  end.

Fixpoint insert_desc (x : row) (l : list row) : list row :=
  match l with
  | [] => [x]
  | y :: r =>
      if String.ltb (key_text (sort_key x)) (key_text (sort_key y))
      then y :: insert_desc x r
      else x :: y :: r
  end.

Fixpoint sort_desc (l : list row) : list row :=
  match l with
  | [] => []
  | x :: r => insert_desc x (sort_desc r)
  end.

(** The list can be sorted: it has less than two records, or every key is
    a [str]. *)
Definition comparable (l : list row) : bool :=
  (List.length l <? 2)%nat
  || forallb (fun r => match sort_key r with
                       | CStr _ => true
                       | CNone => false
                       end) l.

(** The sorted list, or the [TypeError] of the comparison (in what order
    a sort that raises leaves the list is not modelled: the list is taken
    as it was; the message names the types of the two keys that met). *)
Definition list_sort (l : list row) : outcome (list row) :=
  if comparable l then Return (sort_desc l)
  else Raise (TypeError "'<' not supported between instances of 'NoneType' and 'str'").

Section Methods.

Variable w : World.

(** [str()] of a [str] quotes nothing; inside the [str()] of a dictionary
    or of a list each string appears as its [repr()], which is taken as
    given. *)
Variable repr_str : string -> string.

Definition repr_cell (c : cell) : string :=
  match c with
  | CStr s => repr_str s
  | CNone => "None"
  end.

Definition repr_row (r : row) : string :=
  "{" ++ String.concat ", "
           (map (fun kv : string * cell =>
                   (repr_str (fst kv) ++ ": " ++ repr_cell (snd kv))%string)
                (fields r)
            ++ match rest r with
               | [] => []
               | _ :: _ =>
                   [("None: [" ++ String.concat ", " (map repr_str (rest r))
                     ++ "]")%string]
               end)%list
      ++ "}".

Definition py_str (v : value) : string :=
  match v with
  | VStr s => s
  | VRow r => repr_row r
  | VRows rs => "[" ++ String.concat ", " (map repr_row rs) ++ "]"
  | VObj shown _ => shown
  end.

(** *** Loading *)

Definition load_config : M unit :=
  cfg <- open_file "data/site.yml" (site_yml w) ;;
  r <- alloc cfg ;;
  set_site_config r.

(** The body of the loop over the rows, which is the same in both loaders:
    [false] stands for [continue], [true] for reaching the [append]. *)
Definition published (today : PyDate.date) (row : row) : outcome bool :=
  bind_outcome (str_of "lower" (Dict.get_default row "status" (CStr "")))
    (fun status =>
  if negb (String.eqb (lower status) "published")
  then Return false
  else
    match Dict.get row "publish_date" with
    | Some (CStr (String c s)) =>
        except_ValueError
          (bind_outcome (PyDate.strptime (String c s)) (fun publish_date =>
             if PyDate.ltb today publish_date then Return false
             else Return true))
          (Return true)
    | _ => Return true
    end).

Definition load_products : M unit :=
  reader <- open_file "data/products.csv" (products_csv w) ;;
  let today := today w in
  for_each reader (fun row =>
    keep <- lift (published today row) ;;
    if keep then
      st <- get_state ;;
      set_products ((products st ++ [row])%list)
    else ret tt) ;;;
  st <- get_state ;;
  sorted <- lift (list_sort (products st)) ;;
  set_products sorted.

Definition load_posts : M unit :=
  reader <- open_file "data/posts.csv" (posts_csv w) ;;
  let today := today w in
  for_each reader (fun row =>
    keep <- lift (published today row) ;;
    if keep then
      st <- get_state ;;
      set_posts ((posts st ++ [row])%list)
    else ret tt) ;;;
  st <- get_state ;;
  sorted <- lift (list_sort (posts st)) ;;
  set_posts sorted.

(** *** Rendering *)

Definition placeholder (key : string) : string := "{{ " ++ key ++ " }}".

(** The loop over [context.items()]. *)
Definition substitute (content : string) (items : Dict.dict value) : string :=
  fold_left
    (fun content kv => replace content (placeholder (fst kv)) (py_str (snd kv)))
    items content.

(** [context] is the reference of the caller's dictionary. *)
Definition render_template (template_name : string) (context : nat) : M string :=
  content <- open_file ("site/templates/" ++ template_name)
                       (templates w template_name) ;;
  st <- get_state ;;
  config <- deref (site_config st) ;;
  ctx <- deref context ;;
  store context (Dict.update ctx config) ;;;
  items <- deref context ;;
  ret (substitute content items).

(** *** Pages *)

(** [re.sub(r'[^a-z0-9]+', '-', record['title'].lower()).strip('-')]. *)
Definition title_slug (record : row) : outcome string :=
  bind_outcome (getitem record "title") (fun title =>
  bind_outcome (str_of "lower" title) (fun title =>
  Return (Slug.slugify title))).

(** The three [mkdir] calls create directories and write no file. *)
Definition generate_pages : M unit :=
  st <- get_state ;;
  context <- alloc [("featured_products", VRows (firstn 4 (products st)));
                    ("recent_posts", VRows (firstn 3 (posts st)))] ;;
  home_html <- render_template "index.html" context ;;
  write_file "index.html" (Text home_html) ;;;
  st <- get_state ;;
  context <- alloc [("products", VRows (products st))] ;;
  products_html <- render_template "products_index.html" context ;;
  write_file "products/index.html" (Text products_html) ;;;
  st <- get_state ;;
  for_each (products st) (fun product =>
    context <- alloc [("product", VRow product)] ;;
    product_html <- render_template "product.html" context ;;
    product_slug <- lift (title_slug product) ;;
    write_file ("products/" ++ product_slug ++ ".html") (Text product_html)) ;;;
  st <- get_state ;;
  context <- alloc [("posts", VRows (posts st))] ;;
  blog_html <- render_template "blog_index.html" context ;;
  write_file "blog/index.html" (Text blog_html) ;;;
  st <- get_state ;;
  for_each (posts st) (fun post =>
    context <- alloc [("post", VRow post)] ;;
    post_html <- render_template "post.html" context ;;
    post_slug <- lift (title_slug post) ;;
    write_file ("blog/" ++ post_slug ++ ".html") (Text post_html)).

(** *** Sitemap and feed *)

(** [for x in l: ...] around a local object that the body changes. *)
Fixpoint for_fold {A S : Type} (l : list A) (acc : S) (body : S -> A -> M S)
  : M S :=
  match l with
  | [] => ret acc
  | x :: r => acc' <- body acc x ;; for_fold r acc' body
  end.

Definition add_sitemap_url (urlset : Element) (loc : value)
    (priority changefreq : string) : Element :=
  let url_elem := Elem "url" [] None [] in
  let url_elem := SubElement url_elem (leaf "loc" loc) in
  let url_elem := SubElement url_elem (leaf "priority" (VStr priority)) in
  let url_elem := SubElement url_elem (leaf "changefreq" (VStr changefreq)) in
  let url_elem :=
    SubElement url_elem (leaf "lastmod" (VStr (PyDate.strftime (today w)))) in
  SubElement urlset url_elem.

Definition generate_sitemap : M unit :=
  let urlset :=
    Elem "urlset" [("xmlns", "http://www.sitemaps.org/schemas/sitemap/0.9")]
         None [] in
  st <- get_state ;;
  config <- deref (site_config st) ;;
  base_url <- lift (getitem config "base_url") ;;
  let urlset := add_sitemap_url urlset base_url "1.0" "daily" in
  st <- get_state ;;
  urlset <- for_fold (products st) urlset (fun urlset product =>
    product_slug <- lift (title_slug product) ;;
    st <- get_state ;;
    config <- deref (site_config st) ;;
    base_url <- lift (getitem config "base_url") ;;
    let product_url :=
      py_str base_url ++ "/products/" ++ product_slug ++ ".html" in
    ret (add_sitemap_url urlset (VStr product_url) "0.8" "weekly")) ;;
  st <- get_state ;;
  urlset <- for_fold (posts st) urlset (fun urlset post =>
    post_slug <- lift (title_slug post) ;;
    st <- get_state ;;
    config <- deref (site_config st) ;;
    base_url <- lift (getitem config "base_url") ;;
    let post_url := py_str base_url ++ "/blog/" ++ post_slug ++ ".html" in
    ret (add_sitemap_url urlset (VStr post_url) "0.7" "monthly")) ;;
  write_xml "sitemap.xml" urlset.

Definition generate_rss : M unit :=
  let rss := Elem "rss" [("version", "2.0")] None [] in
  let channel := Elem "channel" [] None [] in
  st <- get_state ;;
  config <- deref (site_config st) ;;
  let channel :=
    SubElement channel (leaf "title" (Dict.get_default config "title" (VStr ""))) in
  let channel :=
    SubElement channel
      (leaf "description" (Dict.get_default config "description" (VStr ""))) in
  base_url <- lift (getitem config "base_url") ;;
  let channel := SubElement channel (leaf "link" base_url) in
  st <- get_state ;;
  channel <- for_fold (firstn 10 (posts st)) channel (fun channel post =>
    let item := Elem "item" [] None [] in
    title <- lift (getitem post "title") ;;
    let item := SubElement item (leaf "title" (cell_value title)) in
    let item :=
      SubElement item
        (leaf "description"
           (cell_value (Dict.get_default post "excerpt" (CStr "")))) in
    post_slug <- lift (title_slug post) ;;
    st <- get_state ;;
    config <- deref (site_config st) ;;
    base_url <- lift (getitem config "base_url") ;;
    let item :=
      SubElement item
        (leaf "link"
           (VStr (py_str base_url ++ "/blog/" ++ post_slug ++ ".html"))) in
    let item :=
      SubElement item
        (leaf "pubDate"
           (cell_value (Dict.get_default post "publish_date" (CStr "")))) in
    ret (SubElement channel item)) ;;
  write_xml "rss.xml" (SubElement rss channel).

(** [shutil.copytree(assets_dir, output_dir / "assets")] when the assets
    directory exists. *)
Definition copy_assets : M unit :=
  match assets w with
  | Some tree =>
      for_each tree (fun a => write_file ("assets/" ++ fst a) (Text (snd a)))
  | None => ret tt
  end.

Definition build : M unit :=
  clean_output ;;;
  load_config ;;;
  load_products ;;;
  load_posts ;;;
  generate_pages ;;;
  generate_sitemap ;;;
  generate_rss ;;;
  copy_assets.

End Methods.

(** The specification's [render(templateBody, context)]: the renderer on a
    template body, a page context and a site configuration; the second
    component is the caller's context after the call. *)
Definition render (repr_str : string -> string) (body : string)
    (context config : Dict.dict value) : outcome string * Dict.dict value :=
  let w := {| site_yml := None; products_csv := None; posts_csv := None;
              templates := fun _ => Some body; assets := None;
              today := PyDate.mkdate 1 1 1 |} in
  let st := {| site_config := 0; products := []; posts := [];
               heap := fun r => if Nat.eqb r 0 then config else context;
               next_ref := 2; output := [] |} in
  let res := render_template w repr_str "page.html" 1 st in
  (fst res, heap (snd res) 1).

(** *** The feeds in the words of the specification *)

(** The record has a title, and the title is a [str]. *)
Definition has_title (r : row) : Prop :=
  exists t, Dict.get r "title" = Some (CStr t).

Definition title_of (r : row) : string :=
  match Dict.get r "title" with
  | Some (CStr t) => t
  | _ => ""
  end.

(** The slug of a record: the slug of its title. *)
Definition slug_of (r : row) : string := Slug.slugify (title_of r).

(** One [<url>] entry of the sitemap. *)
Definition url_entry (today : PyDate.date) (loc : value)
    (priority changefreq : string) : Element :=
  Elem "url" [] None
    [leaf "loc" loc; leaf "priority" (VStr priority);
     leaf "changefreq" (VStr changefreq);
     leaf "lastmod" (VStr (PyDate.strftime today))].

(** One [<item>] of the feed. *)
Definition rss_item (link : string) (post : row) : Element :=
  Elem "item" [] None
    [leaf "title" (VStr (title_of post));
     leaf "description"
       (cell_value (Dict.get_default post "excerpt" (CStr "")));
     leaf "link" (VStr link);
     leaf "pubDate"
       (cell_value (Dict.get_default post "publish_date" (CStr "")))].

(** The sitemap: the entry of the root, the entries of the products, the
    entries of the posts. *)
Definition sitemap_doc (today : PyDate.date) (base : value)
    (product_url post_url : row -> string) (products posts : list row)
  : Element :=
  Elem "urlset" [("xmlns", "http://www.sitemaps.org/schemas/sitemap/0.9")] None
    (url_entry today base "1.0" "daily"
     :: map (fun r => url_entry today (VStr (product_url r)) "0.8" "weekly")
          products
     ++ map (fun r => url_entry today (VStr (post_url r)) "0.7" "monthly")
          posts)%list.

(** The feed: one channel with its three fields and the items. *)
Definition rss_doc (title description link : value) (items : list Element)
  : Element :=
  Elem "rss" [("version", "2.0")] None
    [Elem "channel" [] None
       (leaf "title" title :: leaf "description" description
        :: leaf "link" link :: items)].

(** The text of the first child of [e] that has the tag [tag]. *)
Definition child_text (tag : string) (e : Element) : option value :=
  match find (fun c => String.eqb (tag_of c) tag) (children_of e) with
  | Some c => text_of c
  | None => None
  end.

(** The children of [e] that have the tag [tag]. *)
Definition children_tagged (tag : string) (e : Element) : list Element :=
  filter (fun c => String.eqb (tag_of c) tag) (children_of e).

(** What the stages after the loading keep: the two collections, the
    reference and the content of the configuration; the writes are only
    added to. *)
Definition extends (st st' : SiteBuilder) : Prop :=
  products st' = products st
  /\ posts st' = posts st
  /\ site_config st' = site_config st
  /\ heap st' (site_config st) = heap st (site_config st)
  /\ site_config st < next_ref st'
  /\ (exists added, output st' = (added ++ output st)%list).

(** *** The publish gate in the words of the specification *)

(** The status is a text that, lower-cased, is [published]; a row of a
    file without a status column has the status [''].  *)
Definition status_published (r : row) : Prop :=
  exists s, Dict.get_default r "status" (CStr "") = CStr s
            /\ lower s = "published".

(** [publish_date] is absent (no such column, or a line too short to
    reach it) or empty, or parses as a date that is not after [today], or
    fails to parse. *)
Definition date_eligible (today : PyDate.date) (r : row) : Prop :=
  Dict.get r "publish_date" = None
  \/ Dict.get r "publish_date" = Some CNone
  \/ Dict.get r "publish_date" = Some (CStr "")
  \/ exists s, Dict.get r "publish_date" = Some (CStr s)
       /\ ((exists d, PyDate.strptime s = Return d /\ PyDate.leb d today = true)
           \/ (exists msg, PyDate.strptime s = Raise (ValueError msg))).

Definition publish_gate (today : PyDate.date) (r : row) : Prop :=
  status_published r /\ date_eligible today r.

(** The gate as a test. *)
Definition eligible (today : PyDate.date) (r : row) : bool :=
  match Dict.get_default r "status" (CStr "") with
  | CStr status =>
      String.eqb (lower status) "published"
      && match Dict.get r "publish_date" with
         | Some (CStr s) =>
             String.eqb s ""
             || match PyDate.strptime s with
                | Return d => PyDate.leb d today
                | Raise _ => true
                end
         | _ => true
         end
  | CNone => false
  end.

(** The status cell of the row is not [None]: the line reaches the
    status column, or the file has no such column. *)
Definition status_given (r : row) : bool :=
  match Dict.get_default r "status" (CStr "") with
  | CStr _ => true
  | CNone => false
  end.

(** Every date of the rows is written in ASCII. *)
Definition ascii_dates (rows : list row) : Prop :=
  forall r s, In r rows -> Dict.get r "publish_date" = Some (CStr s) ->
              is_ascii s = true.

(** *** The order of a collection in the words of the specification *)

(** The raw [publish_date] of a record; a missing one counts as the
    empty string. *)
Definition raw_date (r : row) : string :=
  match Dict.get r "publish_date" with
  | Some (CStr s) => s
  | _ => ""
  end.


(** [a] may stand before [b] in a collection sorted by descending raw
    date. *)
Definition key_ge (a b : row) : Prop :=
  String.leb (raw_date b) (raw_date a) = true.


End Site.

(* ================================================================= *)
(** ** Templates in the words of the specification

    A template is a sequence of texts and of tokens [{{ key }}].  The
    specification's renderer puts the string form of the value in the
    place of each token whose key the context has, and leaves the other
    tokens. *)

Module Template.
Import PyStr Site.

Inductive segment : Type :=
| Lit (text : string)
| Tok (key : string).

Definition text_of_segment (g : segment) : string :=
  match g with
  | Lit text => text
  | Tok key => placeholder key
  end.

(** The body of the template: the texts and the tokens in a row. *)
Definition body (segments : list segment) : string :=
  String.concat "" (map text_of_segment segments).

(** A key without a brace. *)
Definition plain (key : string) : bool :=
  all_chars (fun c => negb (Ascii.eqb c "{") && negb (Ascii.eqb c "}")) key.

(** A text that opens no token: it has no [{{], and its last character is
    not [{]. *)
Fixpoint inert (text : string) : bool :=
  match text with
  | EmptyString => true
  | String c r =>
      (if Ascii.eqb c "{"
       then match r with
            | String d _ => negb (Ascii.eqb d "{")
            | EmptyString => false
            end
       else true)
      && inert r
  end.

Definition well_formed (g : segment) : bool :=
  match g with
  | Lit text => inert text
  | Tok key => plain key
  end.

(** The context does not interfere with the template: no key has a
    brace, and the string form of the value of a key whose token is in
    the template opens no token. *)
Definition tame (repr_str : string -> string) (items : Dict.dict value)
    (segments : list segment) : Prop :=
  forall k v, In (k, v) items ->
    plain k = true
    /\ (In (Tok k) segments -> inert (py_str repr_str v) = true).

(** The token of a key of the context gives way to the string form of the
    value; a text and the token of another key stay. *)
Definition fill (repr_str : string -> string) (items : Dict.dict value)
    (g : segment) : segment :=
  match g with
  | Lit text => Lit text
  | Tok key =>
      match Dict.get items key with
      | Some v => Lit (py_str repr_str v)
      | None => Tok key
      end
  end.

(** One pass: the tokens of [key] give way to [text]. *)
Definition fill_key (key text : string) (g : segment) : segment :=
  match g with
  | Lit t => Lit t
  | Tok k => if String.eqb k key then Lit text else Tok k
  end.

End Template.

(* ================================================================= *)
(** ** A sample site *)

Module Sample.
Import Site.

(** [repr()] of a string without quotes, backslashes or control
    characters. *)
Definition quote (s : string) : string := "'" ++ s ++ "'".

Definition product_rows : list row :=
  Csv.DictReader ["title"; "status"; "publish_date"]
    [ ["Old Thing"; "Published"; "2024-01-01"];
      ["New Thing!"; "published"; "2024-03-01"];
      ["Future"; "published"; "2099-03-01"];
      ["Weird"; "PUBLISHED"; "next week"];
      ["Undated"; "published"; ""];
      ["Twin"; "published"; "2024-03-01"];
      ["Draft"; "draft"; "2024-01-01"] ].

Definition post_rows : list row :=
  Csv.DictReader ["title"; "status"; "publish_date"; "excerpt"]
    ([ ["Hello, World!"; "published"; ""; "hi"];
       ["Second post"; "published"; "2024-05-05"; "more"];
       ["Not yet"; "published"; "2024-06-02"; ""] ]
     ++ map (fun n => [("Note " ++ n)%string; "published";
                       ("2024-04-" ++ n)%string; "note"])
          ["01"; "02"; "03"; "04"; "05"; "06"; "07"; "08"; "09"; "10"])%list.

Definition config : Dict.dict value :=
  [("title", VStr "Shop"); ("description", VStr "All about {{ title }}");
   ("base_url", VStr "https://shop.example")].

Definition world : World :=
  {| site_yml := Some config;
     products_csv := Some product_rows;
     posts_csv := Some post_rows;
     templates := fun _ => Some "<h1>{{ title }}</h1><p>{{ description }}</p>";
     assets := Some [("style.css", "body {}")];
     today := PyDate.mkdate 2024 6 1 |}.

(** A builder whose configuration is [config], with the context of a
    page at reference [1]. *)
Definition page_context : Dict.dict value :=
  [("title", VStr "Widget"); ("price", VObj "9.99" true)].

Definition builder : SiteBuilder :=
  {| site_config := 0; products := []; posts := [];
     heap := fun r => if Nat.eqb r 0 then config else page_context;
     next_ref := 2; output := [] |}.

(** The builder after the three loaders. *)
Definition loaded : SiteBuilder :=
  snd (bind (load_config world) (fun _ =>
       bind (load_products world) (fun _ => load_posts world)) init).

End Sample.

(* ================================================================= *)
(** ** The output directory as a file system *)

Module Written.
Import Site.

(** The file at [path] after the writes of [output]: the latest write to
    the path, since [open(path, "w")] replaces what was there. *)
Definition file_at (path : string) (output : list (string * file))
  : option file :=
  match find (fun pf => String.eqb (fst pf) path) output with
  | Some pf => Some (snd pf)
  | None => None
  end.

(** The text of a page: the template body substituted with the page's
    context merged with the site configuration. *)
Definition page_text (repr_str : string -> string) (body : string)
    (context config : Dict.dict value) : string :=
  substitute repr_str body (Dict.update context config).

(** The write of the detail page of a record. *)
Definition detail_page (repr_str : string -> string) (body key dir : string)
    (config : Dict.dict value) (r : row) : string * file :=
  (dir ++ slug_of r ++ ".html",
   Text (page_text repr_str body [(key, VRow r)] config)).

(** The writes of [generate_pages], the latest first. *)
Definition pages_written (repr_str : string -> string)
    (index products_index product blog_index post : string)
    (config : Dict.dict value) (products posts : list row)
  : list (string * file) :=
  (rev (map (detail_page repr_str post "post" "blog/" config) posts)
   ++ ("blog/index.html",
       Text (page_text repr_str blog_index [("posts", VRows posts)] config))
   :: rev (map (detail_page repr_str product "product" "products/" config)
             products)
   ++ [("products/index.html",
        Text (page_text repr_str products_index
                [("products", VRows products)] config));
       ("index.html",
        Text (page_text repr_str index
                [("featured_products", VRows (firstn 4 products));
                 ("recent_posts", VRows (firstn 3 posts))] config))])%list.

(** The state of the builder is well formed: the configuration is an
    allocated dictionary. *)
Definition allocated (st : SiteBuilder) : Prop :=
  site_config st < next_ref st.

(** The state after a page has been made: a fresh context [d] is
    allocated, updated by [render_template], and the text is written. *)
Definition after_page (repr_str : string -> string) (d : Dict.dict value)
    (body path : string) (st : SiteBuilder) : SiteBuilder :=
  let n := next_ref st in
  let heap1 := heap_set (heap st) n d in
  let merged := Dict.update (heap1 n) (heap1 (site_config st)) in
  with_output ((path, Text (substitute repr_str body merged)) :: output st)
    (with_heap (heap_set heap1 n merged) (S n) st).

(** The state after the detail pages of [records]. *)
Definition after_details (repr_str : string -> string)
    (body key dir : string) (records : list row) (st : SiteBuilder)
  : SiteBuilder :=
  fold_left
    (fun s r =>
       after_page repr_str [(key, VRow r)] body (dir ++ slug_of r ++ ".html") s)
    records st.


(** The writes of [copy_assets], the latest first. *)
Definition assets_written (tree : option (list (string * string)))
  : list (string * file) :=
  match tree with
  | Some files => rev (map (fun a => ("assets/" ++ fst a, Text (snd a))) files)
  | None => []
  end.

End Written.

(* ================================================================= *)
(** ** The social copy script

    [scripts/social_copy.py]: [generate_social_copy] reads the two CSV
    files, keeps the rows whose status is [published], and prints a message
    for each of the first three products and the first three posts.  The
    standard output is the list of the texts given to [print]. *)

Module Social.
Import PyStr Site.

(** [s.split(sep)] for a separator of one character. *)
Fixpoint split (sep : ascii) (s : string) : list string :=
  match s with
  | EmptyString => [EmptyString]
  | String c r =>
      if Ascii.eqb c sep then EmptyString :: split sep r
      else
        match split sep r with
        | piece :: pieces => String c piece :: pieces
        | [] => [String c EmptyString]
        end
  end.

Definition newline : string := String "010" EmptyString.

(** The loop [for row in reader: if ...: rows.append(row)]; [rows] are
    the rows appended so far. *)
Fixpoint read_published (reader rows : list row) : outcome (list row) :=
  match reader with
  | [] => Return rows
  | row :: more =>
      bind_outcome (str_of "lower" (Dict.get_default row "status" (CStr "")))
        (fun status =>
      read_published more
        (if String.eqb (lower status) "published" then (rows ++ [row])%list
         else rows))
  end.

Definition published_rows (reader : list row) : outcome (list row) :=
  read_published reader [].

(** The status of the row is a [str] that lower-cases to [published]. *)
Definition by_status (r : row) : bool :=
  match Dict.get_default r "status" (CStr "") with
  | CStr status => String.eqb (lower status) "published"
  | CNone => false
  end.

(** What [None.lower()] raises. *)
Definition no_lower : exn :=
  AttributeError "'NoneType' object has no attribute 'lower'".

(** [' #'.join(tags.split(','))] behind a [#]. *)
Definition hashtags (tags : string) : string :=
  "#" ++ String.concat " #" (split "," tags).

(** A cell in an f-string: [None] is formatted as [None]. *)
Definition format_cell (c : cell) : string :=
  match c with
  | CStr s => s
  | CNone => "None"
  end.

Definition product_message (product : row) : outcome string :=
  bind_outcome (getitem product "title") (fun title =>
  bind_outcome (getitem product "price") (fun price =>
  let message :=
    "🚀 NEW: " ++ format_cell title ++ " - $" ++ format_cell price
    ++ newline ++ newline in
  bind_outcome (getitem product "description") (fun description =>
  let message := message ++ format_cell description ++ newline ++ newline in
  bind_outcome (getitem product "external_url") (fun external_url =>
  let message :=
    message ++ "👉 Get it here: " ++ format_cell external_url
    ++ newline ++ newline in
  bind_outcome (getitem product "tags") (fun tags =>
  bind_outcome (str_of "split" tags) (fun tags =>
  Return (message ++ hashtags tags))))))).

(** [title.lower().replace(' ', '-')]; the link shows the characters
    beyond ASCII, so it is the one that the script prints when the title
    is ASCII. *)
Definition link_slug (title : string) : string :=
  replace (lower title) " " "-".

Definition post_message (post : row) : outcome string :=
  bind_outcome (getitem post "title") (fun title =>
  let message :=
    "📖 NEW POST: " ++ format_cell title ++ newline ++ newline in
  bind_outcome (getitem post "excerpt") (fun excerpt =>
  let message := message ++ format_cell excerpt ++ newline ++ newline in
  bind_outcome (getitem post "title") (fun title =>
  bind_outcome (str_of "lower" title) (fun title =>
  let message :=
    message ++ "👉 Read more: https://yourusername.github.io/blog/"
    ++ link_slug title ++ ".html" ++ newline ++ newline in
  match Dict.get post "tags" with
  | Some (CStr (String c s)) =>
      bind_outcome (getitem post "tags") (fun tags =>
      bind_outcome (str_of "split" tags) (fun tags =>
      Return (message ++ hashtags tags)))
  | _ => Return (message ++ "#")
  end)))).

(** [print("\n" + "-"*50 + "\n")]. *)
Definition separator : string := newline ++ replicate 50 "-" ++ newline.

(** [for record in records: message = ...; print(message); print(...)]. *)
Fixpoint print_each (message : row -> outcome string) (records : list row)
    (stdout : list string) : outcome unit * list string :=
  match records with
  | [] => (Return tt, stdout)
  | r :: rest =>
      match message r with
      | Return m => print_each message rest (stdout ++ [m; separator])%list
      | Raise e => (Raise e, stdout)
      end
  end.

Definition generate_social_copy (w : World) : outcome unit * list string :=
  match products_csv w with
  | None => (Raise (FileNotFoundError "data/products.csv"), [])
  | Some reader =>
      match published_rows reader with
      | Raise e => (Raise e, [])
      | Return products =>
          match posts_csv w with
          | None => (Raise (FileNotFoundError "data/posts.csv"), [])
          | Some reader =>
              match published_rows reader with
              | Raise e => (Raise e, [])
              | Return posts =>
                  let stdout :=
                    ["=== SOCIAL MEDIA COPY ===";
                     newline ++ "--- PRODUCT PROMOTIONS ---"] in
                  match print_each product_message (firstn 3 products) stdout
                  with
                  | (Return _, stdout) =>
                      print_each post_message (firstn 3 posts)
                        (stdout
                         ++ [(newline ++ "--- BLOG CONTENT ---")%string])%list
                  | failed => failed
                  end
              end
          end
      end
  end.

(** A title of letters, digits and single spaces between words. *)
Fixpoint plain_words (after_space : bool) (s : string) : bool :=
  match s with
  | EmptyString => negb after_space
  | String c r =>
      if Ascii.eqb c " " then negb after_space && plain_words true r
      else (is_upper c || is_lower c || is_digit c) && plain_words false r
  end.

Definition plain_title (title : string) : bool := plain_words true title.

(** The record has the four fields that a product message formats, and
    its tags are a [str]. *)
Definition promotable (r : row) : Prop :=
  (forall k, In k ["title"; "price"; "description"; "external_url"] ->
             exists c, Dict.get r k = Some c)
  /\ exists tags, Dict.get r "tags" = Some (CStr tags).

(** The record has a title that is a [str], and an excerpt. *)
Definition announceable (r : row) : Prop :=
  has_title r /\ exists c, Dict.get r "excerpt" = Some c.

(** The first of [keys] that the record lacks. *)
Definition first_missing (keys : list string) (r : row) : option string :=
  find (fun k => match Dict.get r k with Some _ => false | None => true end)
       keys.

(** The message of a record that has the fields. *)
Definition product_text (r : row) : string :=
  let field k := format_cell (Dict.get_default r k (CStr "")) in
  let message :=
    "🚀 NEW: " ++ field "title" ++ " - $" ++ field "price"
    ++ newline ++ newline in
  let message := message ++ field "description" ++ newline ++ newline in
  let message :=
    message ++ "👉 Get it here: " ++ field "external_url"
    ++ newline ++ newline in
  message ++ hashtags (match Dict.get r "tags" with
                       | Some (CStr tags) => tags
                       | _ => ""
                       end).

Definition post_text (r : row) : string :=
  let field k := format_cell (Dict.get_default r k (CStr "")) in
  let message := "📖 NEW POST: " ++ field "title" ++ newline ++ newline in
  let message := message ++ field "excerpt" ++ newline ++ newline in
  let message :=
    message ++ "👉 Read more: https://yourusername.github.io/blog/"
    ++ link_slug (title_of r) ++ ".html" ++ newline ++ newline in
  message ++ match Dict.get r "tags" with
             | Some (CStr (String c s)) => hashtags (String c s)
             | _ => "#"
             end.

(** What the loop prints for the messages: each one and the separator. *)
Definition printed (messages : list string) : list string :=
  flat_map (fun m => [m; separator]) messages.

Definition header : list string :=
  ["=== SOCIAL MEDIA COPY ==="; newline ++ "--- PRODUCT PROMOTIONS ---"].

End Social.

(** ** The shape of a slug *)

Module SlugShape.
Import PyStr Slug.

(** Every character is of the class [[a-z0-9]] or a hyphen, and a hyphen
    is followed by a character of the class; with [open_end] a hyphen may
    also be the last character. *)
Fixpoint hyphens_ok (open_end : bool) (s : string) : bool :=
  match s with
  | EmptyString => true
  | String c r =>
      if slug_char c then hyphens_ok open_end r
      else Ascii.eqb c "-"
           && match r with
              | String d _ => slug_char d
              | EmptyString => open_end
              end
           && hyphens_ok open_end r
  end.

(** Words over [[a-z0-9]] joined by single hyphens; the empty string is
    the slug of no word. *)
Definition is_slug (s : string) : bool :=
  match s with
  | EmptyString => true
  | String c _ => slug_char c && hyphens_ok false s
  end.

(** The title has no ASCII letter and no ASCII digit. *)
Definition no_slug_char (title : string) : bool :=
  all_chars (fun c => negb (slug_char (lower_char c))) title.

End SlugShape.

(** ** Further sample inputs *)

Module Cases.
Import Site.


(** A checkout without [data/posts.csv]. *)
Definition no_posts_file : World :=
  {| site_yml := Some Sample.config;
     products_csv := Some Sample.product_rows;
     posts_csv := None;
     templates := fun _ => Some "<h1>{{ title }}</h1>";
     assets := None;
     today := PyDate.mkdate 2024 6 1 |}.

(** Rows whose dates are written as [strftime("%Y-%m-%d")] writes them,
    and the date that such a row bears. *)
Definition stamped_rows : list row :=
  Csv.DictReader ["title"; "status"; "publish_date"]
    [ ["Winter"; "published"; "2023-12-31"];
      ["Today"; "published"; "2024-06-01"];
      ["Spring"; "Published"; "2024-03-09"];
      ["Tomorrow"; "published"; "2024-06-02"] ].

Definition date_of (r : row) : PyDate.date :=
  match PyDate.strptime (raw_date r) with
  | Return d => d
  | Raise _ => PyDate.mkdate 2000 1 1
  end.

Definition stamped_world : World :=
  {| site_yml := Some Sample.config;
     products_csv := Some stamped_rows;
     posts_csv := Some [];
     templates := fun _ => Some "<h1>{{ title }}</h1>";
     assets := None;
     today := PyDate.mkdate 2024 6 1 |}.

(** A checkout that has the three index templates only. *)
Definition only_index_templates : World :=
  {| site_yml := Some Sample.config;
     products_csv := Some [];
     posts_csv := Some [];
     templates := fun name =>
       if String.eqb name "index.html" then Some "<h1>{{ title }}</h1>"
       else if String.eqb name "products_index.html" then Some "{{ products }}"
       else if String.eqb name "blog_index.html" then Some "{{ posts }}"
       else None;
     assets := None;
     today := PyDate.mkdate 2024 6 1 |}.

(** Data files with the fields that the social copy reads; the second
    product is dated after the day of the build. *)
Definition social_products : list row :=
  Csv.DictReader
    ["title"; "price"; "description"; "external_url"; "tags"; "status";
     "publish_date"]
    [ ["Desk Lamp"; "19.90"; "Bright."; "https://shop.example/lamp";
       "home,light"; "published"; "2024-01-01"];
      ["Chair"; "45"; "Soft."; "https://shop.example/chair"; "";
       "Published"; "2099-01-01"];
      ["Shelf"; "30"; "Wide."; "https://shop.example/shelf"; "home";
       "draft"; ""] ].

Definition social_posts : list row :=
  Csv.DictReader ["title"; "excerpt"; "tags"; "status"]
    [ ["Second post"; "more"; "news, shop"; "published"];
      ["Hello, World!"; "hi"; ""; "published"] ].

Definition social_world : World :=
  {| site_yml := Some Sample.config;
     products_csv := Some social_products;
     posts_csv := Some social_posts;
     templates := fun _ => Some "<h1>{{ title }}</h1>";
     assets := None;
     today := PyDate.mkdate 2024 6 1 |}.

(** Files with lines shorter than the header: the second line of the
    first file stops before the status, the lines of the second file stop
    before the date. *)
Definition short_status_rows : list row :=
  Csv.DictReader ["title"; "status"; "publish_date"]
    [ ["Lamp"; "published"; "2024-01-01"];
      ["Chair"];
      ["Desk"; "published"; "2024-02-01"] ].

Definition short_date_rows : list row :=
  Csv.DictReader ["title"; "status"; "publish_date"]
    [ ["Lamp"; "published"];
      ["Chair"; "published"] ].

Definition short_status_world : World :=
  {| site_yml := Some Sample.config;
     products_csv := Some short_status_rows;
     posts_csv := Some short_date_rows;
     templates := fun _ => Some "<h1>{{ title }}</h1>";
     assets := None;
     today := PyDate.mkdate 2024 6 1 |}.

(** A builder that has built [Sample.world] once. *)
Definition built_once : SiteBuilder :=
  snd (build Sample.world Sample.quote init).

End Cases.

(* ================================================================= *)
(** * Properties *)

(** ** Strings *)

Module PyStrFacts.
Import PyStr.

Lemma append_empty_r (s : string) : s ++ "" = s.
Proof. induction s as [|c s IH]; simpl; [reflexivity | now rewrite IH]. Qed.

Lemma append_assoc (a b c : string) : (a ++ b) ++ c = a ++ (b ++ c).
Proof. induction a as [|x a IH]; simpl; [reflexivity | now rewrite IH]. Qed.

Lemma length_append (a b : string) :
  String.length (a ++ b) = String.length a + String.length b.
Proof. induction a as [|x a IH]; simpl; [reflexivity | now rewrite IH]. Qed.

Lemma concat_empty_cons (x : string) (l : list string) :
  String.concat "" (x :: l) = x ++ String.concat "" l.
Proof.
  destruct l as [|y l]; simpl.
  - now rewrite append_empty_r.
  - reflexivity.
Qed.

(** [lstrip] removes a block of [c] at the front and nothing else. *)
Lemma lstrip_spec (c : ascii) (s : string) :
  exists n, s = replicate n c ++ lstrip c s.
Proof.
  induction s as [|d s [n IH]]; simpl.
  - now exists 0.
  - destruct (Ascii.eqb_spec d c) as [->|_].
    + exists (S n). simpl. now rewrite <- IH.
    + now exists 0.
Qed.

Lemma lstrip_head (c : ascii) (s : string) :
  forall d r, lstrip c s = String d r -> d <> c.
Proof.
  induction s as [|x s IH]; simpl; intros d r H; [discriminate|].
  destruct (Ascii.eqb_spec x c) as [->|Hne].
  - now apply IH with r.
  - now injection H as <- _.
Qed.

(** [rstrip] removes a block of [c] at the end and nothing else. *)
Lemma rstrip_spec (c : ascii) (s : string) :
  exists n, s = rstrip c s ++ replicate n c.
Proof.
  induction s as [|d s [n IH]]; simpl.
  - now exists 0.
  - destruct (rstrip c s) as [|e r'] eqn:E.
    + destruct (Ascii.eqb_spec d c) as [->|_].
      * exists (S n). simpl in *. now rewrite <- IH.
      * exists n. simpl in *. now rewrite <- IH.
    + exists n. simpl in *. now rewrite <- IH.
Qed.

Lemma rstrip_last (c : ascii) (s : string) : last_char (rstrip c s) <> Some c.
Proof.
  induction s as [|d s IH]; simpl; [discriminate|].
  destruct (rstrip c s) as [|e r'] eqn:E.
  - destruct (Ascii.eqb_spec d c) as [->|Hne]; simpl; congruence.
  - exact IH.
Qed.

Lemma rstrip_head (c : ascii) (s : string) :
  forall d r, rstrip c s = String d r ->
  exists r0, s = String d r0.
Proof.
  destruct s as [|x s]; simpl; intros d r H; [discriminate|].
  destruct (rstrip c s); [destruct (Ascii.eqb x c); [discriminate|]|];
    injection H as <- _; eauto.
Qed.

(** [strip] removes the blocks of [c] at both ends: what is left neither
    starts nor ends with [c]. *)
Lemma strip_spec (c : ascii) (s : string) :
  (exists n m, s = replicate n c ++ strip c s ++ replicate m c)
  /\ (forall d r, strip c s = String d r -> d <> c)
  /\ last_char (strip c s) <> Some c.
Proof.
  unfold strip. split; [|split].
  - destruct (lstrip_spec c s) as [n Hn].
    destruct (rstrip_spec c (lstrip c s)) as [m Hm].
    exists n, m. now rewrite <- Hm.
  - intros d r H. destruct (rstrip_head _ _ _ _ H) as [r0 H0].
    now apply lstrip_head in H0.
  - apply rstrip_last.
Qed.

Lemma lstrip_all_chars (p : ascii -> bool) (c : ascii) (s : string) :
  all_chars p s = true -> all_chars p (lstrip c s) = true.
Proof.
  induction s as [|d s IH]; simpl; [trivial|].
  intros H. apply Bool.andb_true_iff in H. destruct H as [Hd Hs].
  destruct (Ascii.eqb d c); [now apply IH|].
  simpl. now rewrite Hd, Hs.
Qed.

Lemma rstrip_all_chars (p : ascii -> bool) (c : ascii) (s : string) :
  all_chars p s = true -> all_chars p (rstrip c s) = true.
Proof.
  induction s as [|d s IH]; simpl; [trivial|].
  intros H. apply Bool.andb_true_iff in H. destruct H as [Hd Hs].
  specialize (IH Hs). destruct (rstrip c s) as [|e r'].
  - destruct (Ascii.eqb d c); simpl; [reflexivity | now rewrite Hd].
  - simpl in *. now rewrite Hd, IH.
Qed.

End PyStrFacts.

(** ** Slugs *)

Module SlugFacts.
Import PyStr PyStrFacts Slug.

Lemma join_runs_cons (r : bool * string) (l : list (bool * string)) :
  join_runs (r :: l) = replace_run r ++ join_runs l.
Proof. unfold join_runs. simpl map. apply concat_empty_cons. Qed.

(** The runs of a string partition it. *)
Lemma runs_concat (s : string) : String.concat "" (map snd (runs s)) = s.
Proof.
  induction s as [|c s IH]; [reflexivity|].
  simpl runs. destruct (runs s) as [|[b' run] rs].
  - simpl in *. now rewrite <- IH.
  - simpl map in IH. rewrite concat_empty_cons in IH.
    destruct (Bool.eqb (slug_char c) b'); simpl map;
      rewrite !concat_empty_cons; simpl in *; now rewrite IH.
Qed.

Lemma runs_homogeneous (s : string) : Forall run_ok (runs s).
Proof.
  induction s as [|c s IH]; [constructor|].
  simpl runs. destruct (runs s) as [|[b' run] rs].
  - constructor; [|constructor]. split; simpl; [discriminate|].
    now rewrite Bool.eqb_reflx.
  - inversion IH as [|? ? [Hne Hall] Hrs]; subst.
    destruct (Bool.eqb (slug_char c) b') eqn:E.
    + apply Bool.eqb_prop in E. subst b'.
      constructor; [|assumption]. split; simpl; [discriminate|].
      simpl in Hall. now rewrite Bool.eqb_reflx, Hall.
    + constructor; [|assumption]. split; simpl; [discriminate|].
      now rewrite Bool.eqb_reflx.
Qed.

Lemma runs_maximal (s : string) : alternate (runs s).
Proof.
  induction s as [|c s IH]; [exact I|].
  simpl runs. destruct (runs s) as [|[b' run] rs]; [exact I|].
  destruct (Bool.eqb (slug_char c) b') eqn:E.
  - apply Bool.eqb_prop in E. subst b'.
    destruct rs; [exact I|]. exact IH.
  - split; [|exact IH]. cbn [fst]. intros Heq.
    rewrite Heq, Bool.eqb_reflx in E. discriminate.
Qed.

(** The scanner of [re.sub] against the runs: a run outside the class
    yields one hyphen, unless the scanner is already inside the match. *)
Lemma re_sub_from_runs (s : string) : forall in_match,
  re_sub_from in_match s =
  match runs s with
  | (false, _) :: rs => (if in_match then "" else "-") ++ join_runs rs
  | l => join_runs l
  end.
Proof.
  induction s as [|c s IH]; intros in_match; [reflexivity|].
  simpl. destruct (slug_char c) eqn:Hc.
  - rewrite (IH false).
    destruct (runs s) as [|[[|] run] rs]; simpl Bool.eqb; cbv iota;
      rewrite ?join_runs_cons; unfold replace_run; simpl; reflexivity.
  - destruct (runs s) as [|[[|] run] rs]; simpl Bool.eqb; cbv iota;
      rewrite (IH true); destruct in_match; reflexivity.
Qed.

Lemma re_sub_runs (s : string) : re_sub s = join_runs (runs s).
Proof.
  unfold re_sub. rewrite re_sub_from_runs.
  destruct (runs s) as [|[[|] run] rs]; try reflexivity.
  now rewrite join_runs_cons.
Qed.

(** A slug is made of the characters of the class and of hyphens: it has
    no [/] and stays inside its directory. *)
Lemma slugify_alphabet (title : string) :
  all_chars (fun c => slug_char c || Ascii.eqb c "-") (slugify title) = true.
Proof.
  unfold slugify, strip, re_sub.
  apply rstrip_all_chars, lstrip_all_chars.
  assert (H : forall s b,
            all_chars (fun c => slug_char c || Ascii.eqb c "-")
              (re_sub_from b s) = true); [|apply H].
  induction s as [|c s IH]; intros b; cbn [re_sub_from]; [reflexivity|].
  destruct (slug_char c) eqn:E.
  - cbn [all_chars]. now rewrite E, IH.
  - destruct b; [apply IH|]. cbn [all_chars]. rewrite IH.
    now rewrite Bool.orb_true_r.
Qed.

(** C3. [slugify] is a total function of the title (any [string] is
    accepted, the same title always gives the same slug) and computes what
    the specification says: the title is lower-cased, every maximal run of
    characters outside [[a-z0-9]] becomes one hyphen, and the hyphens at
    both ends are stripped.  The agreement of [re.sub] and [strip] with
    the runs holds for whatever text the lower-casing yields.  The three
    examples of the specification hold. *)
Theorem slugify_meets_spec :
  (forall title, slugify title = slugify_spec title)
  /\ (forall lowered,
        strip "-" (re_sub lowered) = strip "-" (join_runs (runs lowered)))
  /\ slugify "Hello, World!" = "hello-world"
  /\ slugify "" = ""
  /\ slugify "  A -- B  " = "a-b".
Proof.
  split; [|split; [|repeat split; reflexivity]].
  - intros title. unfold slugify, slugify_spec. now rewrite re_sub_runs.
  - intros lowered. now rewrite re_sub_runs.
Qed.

End SlugFacts.

(** ** Dictionaries *)

Module DictFacts.
Import Dict.

Section Facts.
Context {V : Type}.
Implicit Types (d o : dict V) (k : string) (v : V).

Lemma get_set_same d k v : get (set d k v) k = Some v.
Proof.
  induction d as [|[k' v'] d IH]; simpl.
  - now rewrite String.eqb_refl.
  - destruct (String.eqb k' k) eqn:E; simpl; now rewrite E.
Qed.

Lemma get_set_other d k k' v : k <> k' -> get (set d k v) k' = get d k'.
Proof.
  intros Hne. induction d as [|[k0 v0] d IH]; simpl.
  - apply String.eqb_neq in Hne. now rewrite Hne.
  - destruct (String.eqb k0 k) eqn:E; simpl.
    + apply String.eqb_eq in E. subst k0.
      apply String.eqb_neq in Hne. now rewrite Hne.
    + now rewrite IH.
Qed.

(** Assigning the value that a key already has changes nothing. *)
Lemma set_same d k v : get d k = Some v -> set d k v = d.
Proof.
  induction d as [|[k' v'] d IH]; simpl; [discriminate|].
  destruct (String.eqb k' k) eqn:E.
  - now intros [= ->].
  - intros H. now rewrite IH.
Qed.

Lemma get_In d k v : wf d -> In (k, v) d -> get d k = Some v.
Proof.
  unfold wf, keys. induction d as [|[k' v'] d IH]; simpl; [tauto|].
  intros Hnd [Heq|Hin].
  - injection Heq as -> ->. now rewrite String.eqb_refl.
  - inversion Hnd as [|? ? Hni Hnd']; subst.
    destruct (String.eqb_spec k' k) as [->|_].
    + exfalso. apply Hni. now apply (in_map fst) in Hin.
    + now apply IH.
Qed.

Lemma get_update_absent o : forall d k,
  get o k = None -> get (update d o) k = get d k.
Proof.
  unfold update. induction o as [|[k' v'] o IH]; simpl; intros d k H;
    [reflexivity|].
  destruct (String.eqb_spec k' k) as [->|Hne]; [discriminate|].
  rewrite IH by assumption. now apply get_set_other.
Qed.

Lemma get_update_present o : forall d k v,
  wf o -> get o k = Some v -> get (update d o) k = Some v.
Proof.
  unfold update, wf, keys. induction o as [|[k' v'] o IH]; simpl;
    intros d k v Hnd H; [discriminate|].
  inversion Hnd as [|? ? Hni Hnd']; subst.
  destruct (String.eqb_spec k' k) as [->|Hne].
  - injection H as ->.
    assert (Hnone : get o k = None).
    { clear -Hni. induction o as [|[k0 v0] o IH]; simpl in *; [reflexivity|].
      destruct (String.eqb_spec k0 k) as [->|_]; [tauto|]. apply IH. tauto. }
    pose proof (get_update_absent o (set d k v) k Hnone) as E.
    unfold update in E. rewrite E. apply get_set_same.
  - now apply IH.
Qed.

Lemma keys_set d k v x : In x (keys (set d k v)) -> In x (keys d) \/ x = k.
Proof.
  unfold keys. induction d as [|[k' v'] d IH]; simpl.
  - intros [<-|[]]. now right.
  - destruct (String.eqb k' k); simpl; [tauto|].
    intros [<-|H]; [tauto|]. destruct (IH H); tauto.
Qed.

(** Assignment and [update] keep the keys distinct. *)
Lemma wf_set d k v : wf d -> wf (set d k v).
Proof.
  unfold wf. induction d as [|[k' v'] d IH]; simpl; intros Hwf.
  - repeat constructor. simpl. tauto.
  - inversion Hwf as [|? ? Hni Hwf']; subst.
    destruct (String.eqb_spec k' k) as [->|Hne]; simpl.
    + now constructor.
    + constructor; [|now apply IH].
      intros Hin. apply keys_set in Hin. destruct Hin; [tauto | congruence].
Qed.

Lemma wf_update o : forall d, wf d -> wf (update d o).
Proof.
  unfold update. induction o as [|[k v] o IH]; simpl; intros d Hwf;
    [assumption|].
  apply IH. now apply wf_set.
Qed.

(** [d.update(o)] changes nothing when [o] agrees with [d] on its keys. *)
Lemma update_agree o : forall d,
  (forall k v, In (k, v) o -> get d k = Some v) -> update d o = d.
Proof.
  unfold update. induction o as [|[k v] o IH]; simpl; intros d H;
    [reflexivity|].
  rewrite set_same by (apply H; now left).
  apply IH. intros k' v' Hin. apply H. now right.
Qed.

(** [d.update(d)] leaves [d] as it is. *)
Lemma update_self d : wf d -> update d d = d.
Proof.
  intros Hwf. apply update_agree. intros k v. now apply get_In.
Qed.

End Facts.

End DictFacts.

(** ** The order of strings *)

Module StringOrder.

Lemma compare_trans (o : comparison) : forall a b c : string,
  String.compare a b = o -> String.compare b c = o -> String.compare a c = o.
Proof.
  induction a as [|x a IH]; intros [|y b] [|z c]; simpl; try congruence.
  unfold Ascii.compare.
  destruct (N.compare_spec (N_of_ascii x) (N_of_ascii y)) as [E1|L1|G1];
    destruct (N.compare_spec (N_of_ascii y) (N_of_ascii z)) as [E2|L2|G2];
    destruct (N.compare_spec (N_of_ascii x) (N_of_ascii z)) as [E3|L3|G3];
    try lia; try congruence; eauto.
Qed.

Lemma leb_refl (a : string) : String.leb a a = true.
Proof. destruct (String.leb_total a a); assumption. Qed.

Lemma leb_trans (a b c : string) :
  String.leb a b = true -> String.leb b c = true -> String.leb a c = true.
Proof.
  unfold String.leb.
  destruct (String.compare a b) eqn:E1; try discriminate;
    destruct (String.compare b c) eqn:E2; try discriminate; intros _ _.
  - apply String.compare_eq_iff in E1. subst. now rewrite E2.
  - apply String.compare_eq_iff in E1. subst. now rewrite E2.
  - apply String.compare_eq_iff in E2. subst. now rewrite E1.
  - now rewrite (compare_trans Lt a b c E1 E2).
Qed.

Lemma ltb_false_leb (a b : string) :
  String.ltb a b = false <-> String.leb b a = true.
Proof.
  unfold String.ltb, String.leb. rewrite (String.compare_antisym b a).
  destruct (String.compare a b); simpl; split; congruence.
Qed.



End StringOrder.

(** ** Sorting a collection *)

Module SortFacts.
Import Site StringOrder.

(** The raw date of the specification is the text of the key of the
    code, for a key that is a [str]. *)
Lemma raw_date_key (r : row) : raw_date r = key_text (sort_key r).
Proof.
  unfold raw_date, sort_key, Dict.get_default.
  now destruct (Dict.get r "publish_date") as [[|s]|].
Qed.

Lemma insert_desc_perm (x : row) (l : list row) :
  Permutation (insert_desc x l) (x :: l).
Proof.
  induction l as [|y l IH]; simpl; [apply Permutation_refl|].
  destruct (String.ltb (key_text (sort_key x)) (key_text (sort_key y))).
  - eapply perm_trans; [apply perm_skip, IH | apply perm_swap].
  - apply Permutation_refl.
Qed.

Lemma sort_desc_perm (l : list row) : Permutation (sort_desc l) l.
Proof.
  induction l as [|x l IH]; simpl; [constructor|].
  eapply perm_trans; [apply insert_desc_perm | now apply perm_skip].
Qed.

Lemma key_ge_trans (a b c : row) : key_ge a b -> key_ge b c -> key_ge a c.
Proof. unfold key_ge. intros H1 H2. eapply leb_trans; eassumption. Qed.

Lemma insert_desc_sorted (x : row) (l : list row) :
  StronglySorted key_ge l -> StronglySorted key_ge (insert_desc x l).
Proof.
  induction l as [|y l IH]; simpl; intros Hs.
  - repeat constructor.
  - inversion Hs as [|? ? Hl Hall]; subst.
    rewrite <- !raw_date_key.
    destruct (String.ltb (raw_date x) (raw_date y)) eqn:E.
    + constructor; [now apply IH|].
      eapply Permutation_Forall; [symmetry; apply insert_desc_perm|].
      constructor; [|assumption].
      unfold key_ge, String.leb. unfold String.ltb in E.
      destruct (String.compare (raw_date x) (raw_date y)); congruence.
    + apply ltb_false_leb in E.
      constructor; [assumption|].
      constructor; [exact E|].
      eapply Forall_impl; [|exact Hall].
      intros z Hz. eapply key_ge_trans; eassumption.
Qed.

Lemma sort_desc_sorted (l : list row) : StronglySorted key_ge (sort_desc l).
Proof.
  induction l as [|x l IH]; simpl; [constructor|].
  now apply insert_desc_sorted.
Qed.




Lemma list_sort_comparable (l : list row) :
  comparable l = true -> list_sort l = Return (sort_desc l).
Proof. unfold list_sort. now intros ->. Qed.

Lemma list_sort_raises (l : list row) :
  comparable l = false -> exists msg, list_sort l = Raise (TypeError msg).
Proof. unfold list_sort. intros ->. eauto. Qed.

End SortFacts.

(** ** Loading the collections *)

Module LoadFacts.
Import PyStr Site SortFacts.

Lemma strptime_raises (s : string) (e : exn) :
  PyDate.strptime s = Raise e -> exists msg, e = ValueError msg.
Proof.
  unfold PyDate.strptime.
  destruct (PyDate.match_Ymd s) as [[[[y m] d] rest]|].
  - destruct (negb (String.eqb rest "")); [intros [= <-]; eauto|].
    destruct (PyDate.valid y m d); [discriminate | intros [= <-]; eauto].
  - intros [= <-]; eauto.
Qed.

(** The parser accepts a month and a day of one digit, and refuses a day
    that the month does not have. *)
Example strptime_samples :
  PyDate.strptime "2024-03-09" = Return (PyDate.mkdate 2024 3 9)
  /\ PyDate.strptime "2024-3-9" = Return (PyDate.mkdate 2024 3 9)
  /\ PyDate.strptime "2023-02-29"
     = Raise (ValueError "day is out of range for month")
  /\ PyDate.strptime "2024-03-09T10:00"
     = Raise (ValueError "unconverted data remains")
  /\ PyDate.strptime "next week"
     = Raise (ValueError "time data does not match format").
Proof. repeat split. Qed.

(** On a row whose status is a [str] the loop body does not raise: the
    [ValueError] of a date that does not parse is caught, and the body
    decides exactly as the gate says. *)
Lemma published_eligible (today : PyDate.date) (r : row) :
  status_given r = true ->
  published today r = Return (eligible today r).
Proof.
  unfold published, eligible, status_given.
  destruct (Dict.get_default r "status" (CStr "")) as [|status];
    [discriminate|]. intros _. cbn [str_of bind_outcome].
  destruct (String.eqb (lower status) "published"); [|reflexivity].
  simpl negb. cbv iota. rewrite Bool.andb_true_l.
  destruct (Dict.get r "publish_date") as [[|[|c s]]|]; try reflexivity.
  simpl String.eqb. rewrite Bool.orb_false_l.
  destruct (PyDate.strptime (String c s)) as [d|e] eqn:E; simpl.
  - unfold PyDate.leb. now destruct (PyDate.ltb today d).
  - apply strptime_raises in E. destruct E as [msg ->]. reflexivity.
Qed.

(** On a row whose status is [None] the loop body raises. *)
Lemma published_status_none (today : PyDate.date) (r : row) :
  status_given r = false ->
  published today r
  = Raise (AttributeError "'NoneType' object has no attribute 'lower'").
Proof.
  unfold published, status_given.
  now destruct (Dict.get_default r "status" (CStr "")).
Qed.

Lemma eligible_status_given (today : PyDate.date) (r : row) :
  eligible today r = true -> status_given r = true.
Proof.
  unfold eligible, status_given.
  now destruct (Dict.get_default r "status" (CStr "")).
Qed.

Lemma eligible_gate (today : PyDate.date) (r : row) :
  eligible today r = true <-> publish_gate today r.
Proof.
  unfold eligible, publish_gate, status_published, date_eligible.
  destruct (Dict.get_default r "status" (CStr "")) as [|status].
  { split; [discriminate | intros [[s [E _]] _]; discriminate]. }
  rewrite Bool.andb_true_iff, String.eqb_eq.
  split.
  - intros [Hs Hd]. split; [now exists status|].
    destruct (Dict.get r "publish_date") as [[|s]|]; [tauto| |tauto].
    right. right. apply Bool.orb_true_iff in Hd. destruct Hd as [Hd|Hd].
    + apply String.eqb_eq in Hd. subst. now left.
    + right. exists s. split; [reflexivity|].
      destruct (PyDate.strptime s) as [d|e] eqn:E.
      * left. now exists d.
      * right. apply strptime_raises in E. destruct E as [msg ->]. now exists msg.
  - intros [[s [[= <-] Hs]] Hd]. split; [exact Hs|].
    destruct Hd as [->|[->|[->|[s' [-> Hd]]]]]; try reflexivity.
    apply Bool.orb_true_iff. right.
    destruct Hd as [[d [-> Hd]]|[msg ->]]; [exact Hd | reflexivity].
Qed.

(** The first row whose status is [None], if there is one. *)
Lemma first_status_none (rows : list row) :
  forallb status_given rows = false ->
  exists before r after,
    rows = (before ++ r :: after)%list
    /\ forallb status_given before = true
    /\ status_given r = false.
Proof.
  induction rows as [|x rows IH]; [discriminate|]. cbn [forallb].
  destruct (status_given x) eqn:Ex.
  - intros H. destruct (IH H) as (before & r & after & -> & Hb & Hr).
    exists (x :: before), r, after. cbn [forallb]. now rewrite Ex.
  - intros _. now exists [], x, rows.
Qed.

Section Loaders.
Variable w : World.

Lemma products_loop (rows : list row) : forall st,
  forallb status_given rows = true ->
  for_each rows (fun row =>
    bind (lift (published (today w) row)) (fun keep =>
      if keep then bind get_state (fun st => set_products (products st ++ [row])%list)
      else ret tt)) st
  = (Return tt,
     with_products (products st ++ filter (eligible (today w)) rows)%list st).
Proof.
  induction rows as [|r rows IH]; intros st Hs; simpl.
  - unfold ret, with_products. rewrite app_nil_r. now destruct st.
  - cbn [forallb] in Hs. apply Bool.andb_true_iff in Hs. destruct Hs as [Hr Hs].
    unfold bind at 1 2. unfold lift. rewrite (published_eligible _ _ Hr).
    destruct (eligible (today w) r).
    + unfold bind at 1. unfold get_state, set_products.
      rewrite (IH _ Hs). unfold with_products. simpl. now rewrite <- app_assoc.
    + unfold ret at 1. now rewrite (IH _ Hs).
Qed.

Lemma posts_loop (rows : list row) : forall st,
  forallb status_given rows = true ->
  for_each rows (fun row =>
    bind (lift (published (today w) row)) (fun keep =>
      if keep then bind get_state (fun st => set_posts (posts st ++ [row])%list)
      else ret tt)) st
  = (Return tt,
     with_posts (posts st ++ filter (eligible (today w)) rows)%list st).
Proof.
  induction rows as [|r rows IH]; intros st Hs; simpl.
  - unfold ret, with_posts. rewrite app_nil_r. now destruct st.
  - cbn [forallb] in Hs. apply Bool.andb_true_iff in Hs. destruct Hs as [Hr Hs].
    unfold bind at 1 2. unfold lift. rewrite (published_eligible _ _ Hr).
    destruct (eligible (today w) r).
    + unfold bind at 1. unfold get_state, set_posts.
      rewrite (IH _ Hs). unfold with_posts. simpl. now rewrite <- app_assoc.
    + unfold ret at 1. now rewrite (IH _ Hs).
Qed.

(** The loop stops at the first row whose status is [None]; the rows
    before it that pass the gate have been appended. *)
Lemma products_loop_stops (before after : list row) (r : row) : forall st,
  forallb status_given before = true ->
  status_given r = false ->
  for_each (before ++ r :: after) (fun row =>
    bind (lift (published (today w) row)) (fun keep =>
      if keep then bind get_state (fun st => set_products (products st ++ [row])%list)
      else ret tt)) st
  = (Raise (AttributeError "'NoneType' object has no attribute 'lower'"),
     with_products (products st ++ filter (eligible (today w)) before)%list st).
Proof.
  induction before as [|x before IH]; intros st Hs Hr; simpl.
  - unfold bind at 1 2. unfold lift. rewrite (published_status_none _ _ Hr).
    unfold with_products. rewrite app_nil_r. now destruct st.
  - cbn [forallb] in Hs. apply Bool.andb_true_iff in Hs. destruct Hs as [Hx Hs].
    unfold bind at 1 2. unfold lift. rewrite (published_eligible _ _ Hx).
    destruct (eligible (today w) x).
    + unfold bind at 1. unfold get_state, set_products.
      rewrite (IH _ Hs Hr). unfold with_products. simpl.
      now rewrite <- app_assoc.
    + unfold ret at 1. now rewrite (IH _ Hs Hr).
Qed.

Lemma posts_loop_stops (before after : list row) (r : row) : forall st,
  forallb status_given before = true ->
  status_given r = false ->
  for_each (before ++ r :: after) (fun row =>
    bind (lift (published (today w) row)) (fun keep =>
      if keep then bind get_state (fun st => set_posts (posts st ++ [row])%list)
      else ret tt)) st
  = (Raise (AttributeError "'NoneType' object has no attribute 'lower'"),
     with_posts (posts st ++ filter (eligible (today w)) before)%list st).
Proof.
  induction before as [|x before IH]; intros st Hs Hr; simpl.
  - unfold bind at 1 2. unfold lift. rewrite (published_status_none _ _ Hr).
    unfold with_posts. rewrite app_nil_r. now destruct st.
  - cbn [forallb] in Hs. apply Bool.andb_true_iff in Hs. destruct Hs as [Hx Hs].
    unfold bind at 1 2. unfold lift. rewrite (published_eligible _ _ Hx).
    destruct (eligible (today w) x).
    + unfold bind at 1. unfold get_state, set_posts.
      rewrite (IH _ Hs Hr). unfold with_posts. simpl.
      now rewrite <- app_assoc.
    + unfold ret at 1. now rewrite (IH _ Hs Hr).
Qed.

(** The loader on a file that opens: what the loop appends is sorted, or
    the sort raises. *)
Lemma load_products_sorts (st : SiteBuilder) (rows : list row) :
  products_csv w = Some rows ->
  forallb status_given rows = true ->
  load_products w st
  = match list_sort (products st ++ filter (eligible (today w)) rows)%list with
    | Return sorted => (Return tt, with_products sorted st)
    | Raise e =>
        (Raise e,
         with_products
           (products st ++ filter (eligible (today w)) rows)%list st)
    end.
Proof.
  intros H Hs. unfold load_products. rewrite H. unfold open_file.
  unfold bind at 1. unfold ret at 1. unfold bind at 1.
  rewrite (products_loop _ _ Hs). unfold bind at 1, get_state at 1.
  unfold bind at 1, lift at 1. cbn [products with_products].
  destruct (list_sort _); reflexivity.
Qed.

Lemma load_posts_sorts (st : SiteBuilder) (rows : list row) :
  posts_csv w = Some rows ->
  forallb status_given rows = true ->
  load_posts w st
  = match list_sort (posts st ++ filter (eligible (today w)) rows)%list with
    | Return sorted => (Return tt, with_posts sorted st)
    | Raise e =>
        (Raise e,
         with_posts (posts st ++ filter (eligible (today w)) rows)%list st)
    end.
Proof.
  intros H Hs. unfold load_posts. rewrite H. unfold open_file.
  unfold bind at 1. unfold ret at 1. unfold bind at 1.
  rewrite (posts_loop _ _ Hs). unfold bind at 1, get_state at 1.
  unfold bind at 1, lift at 1. cbn [posts with_posts].
  destruct (list_sort _); reflexivity.
Qed.

Lemma load_products_run (st : SiteBuilder) (rows : list row) :
  products_csv w = Some rows ->
  forallb status_given rows = true ->
  comparable (products st ++ filter (eligible (today w)) rows) = true ->
  load_products w st
  = (Return tt,
     with_products
       (sort_desc (products st ++ filter (eligible (today w)) rows)%list) st).
Proof.
  intros H Hs Hc. rewrite (load_products_sorts st rows H Hs).
  now rewrite (list_sort_comparable _ Hc).
Qed.

Lemma load_posts_run (st : SiteBuilder) (rows : list row) :
  posts_csv w = Some rows ->
  forallb status_given rows = true ->
  comparable (posts st ++ filter (eligible (today w)) rows) = true ->
  load_posts w st
  = (Return tt,
     with_posts
       (sort_desc (posts st ++ filter (eligible (today w)) rows)%list) st).
Proof.
  intros H Hs Hc. rewrite (load_posts_sorts st rows H Hs).
  now rewrite (list_sort_comparable _ Hc).
Qed.

Lemma load_products_unreadable (st : SiteBuilder) :
  products_csv w = None ->
  load_products w st = (Raise (FileNotFoundError "data/products.csv"), st).
Proof. intros H. unfold load_products. now rewrite H. Qed.

Lemma load_posts_unreadable (st : SiteBuilder) :
  posts_csv w = None ->
  load_posts w st = (Raise (FileNotFoundError "data/posts.csv"), st).
Proof. intros H. unfold load_posts. now rewrite H. Qed.

Lemma load_products_short_status (st : SiteBuilder) (rows : list row) :
  products_csv w = Some rows ->
  forallb status_given rows = false ->
  exists st',
    load_products w st
    = (Raise (AttributeError "'NoneType' object has no attribute 'lower'"), st').
Proof.
  intros H Hs. destruct (first_status_none rows Hs)
    as (before & r & after & -> & Hb & Hr).
  unfold load_products. rewrite H. unfold open_file.
  unfold bind at 1. unfold ret at 1. unfold bind at 1.
  rewrite (products_loop_stops _ _ _ _ Hb Hr). eauto.
Qed.

Lemma load_posts_short_status (st : SiteBuilder) (rows : list row) :
  posts_csv w = Some rows ->
  forallb status_given rows = false ->
  exists st',
    load_posts w st
    = (Raise (AttributeError "'NoneType' object has no attribute 'lower'"), st').
Proof.
  intros H Hs. destruct (first_status_none rows Hs)
    as (before & r & after & -> & Hb & Hr).
  unfold load_posts. rewrite H. unfold open_file.
  unfold bind at 1. unfold ret at 1. unfold bind at 1.
  rewrite (posts_loop_stops _ _ _ _ Hb Hr). eauto.
Qed.

(** What a loader does, case by case. *)
Lemma load_products_cases (st : SiteBuilder) :
  match products_csv w with
  | None =>
      load_products w st = (Raise (FileNotFoundError "data/products.csv"), st)
  | Some rows =>
      if forallb status_given rows then
        if comparable (products st ++ filter (eligible (today w)) rows)
        then load_products w st
             = (Return tt,
                with_products
                  (sort_desc (products st
                              ++ filter (eligible (today w)) rows)%list) st)
        else exists msg st',
               load_products w st = (Raise (TypeError msg), st')
      else exists msg st',
             load_products w st = (Raise (AttributeError msg), st')
  end.
Proof.
  destruct (products_csv w) as [rows|] eqn:E;
    [|now apply load_products_unreadable].
  destruct (forallb status_given rows) eqn:Hs.
  - destruct (comparable _) eqn:Hc; [now apply load_products_run|].
    rewrite (load_products_sorts st rows E Hs).
    destruct (list_sort_raises _ Hc) as [msg ->]. eauto.
  - destruct (load_products_short_status st rows E Hs) as [st' H]. eauto.
Qed.

Lemma load_posts_cases (st : SiteBuilder) :
  match posts_csv w with
  | None =>
      load_posts w st = (Raise (FileNotFoundError "data/posts.csv"), st)
  | Some rows =>
      if forallb status_given rows then
        if comparable (posts st ++ filter (eligible (today w)) rows)
        then load_posts w st
             = (Return tt,
                with_posts
                  (sort_desc (posts st
                              ++ filter (eligible (today w)) rows)%list) st)
        else exists msg st',
               load_posts w st = (Raise (TypeError msg), st')
      else exists msg st',
             load_posts w st = (Raise (AttributeError msg), st')
  end.
Proof.
  destruct (posts_csv w) as [rows|] eqn:E;
    [|now apply load_posts_unreadable].
  destruct (forallb status_given rows) eqn:Hs.
  - destruct (comparable _) eqn:Hc; [now apply load_posts_run|].
    rewrite (load_posts_sorts st rows E Hs).
    destruct (list_sort_raises _ Hc) as [msg ->]. eauto.
  - destruct (load_posts_short_status st rows E Hs) as [st' H]. eauto.
Qed.

End Loaders.

End LoadFacts.

(** ** The claims on the loaders *)

Module LoadClaims.
Import PyStr Site SortFacts LoadFacts.





(** The order is the order of the strings, not of the dates: September
    written "2024-9-1" sorts before October written "2024-10-01". *)
Example raw_string_order :
  sort_desc [ full [("publish_date", "2024-10-01")];
              full [("publish_date", "2024-9-1")] ]
  = [ full [("publish_date", "2024-9-1")];
      full [("publish_date", "2024-10-01")] ].
Proof. reflexivity. Qed.

(** C9, as stated, fails: a file that opens can make its loader fail.
    The second line of the first file stops before the status: the loader
    raises [AttributeError].  The two lines of the second file stop before
    the date: both rows pass the gate, and the sort raises [TypeError]. *)
Lemma short_line_fails_loading :
  products_csv Cases.short_status_world = Some Cases.short_status_rows
  /\ (exists msg st',
        load_products Cases.short_status_world init
        = (Raise (AttributeError msg), st'))
  /\ posts_csv Cases.short_status_world = Some Cases.short_date_rows
  /\ (exists msg st',
        load_posts Cases.short_status_world init
        = (Raise (TypeError msg), st')).
Proof.
  split; [reflexivity|]. split; [do 2 eexists; vm_compute; reflexivity|].
  split; [reflexivity|]. do 2 eexists; vm_compute; reflexivity.
Qed.

(** C9, amended.  A loader raises [FileNotFoundError] if and only if its
    file cannot be opened.  On a file that opens it fails in two cases
    only, both of a line shorter than the header: with [AttributeError]
    when a line stops before the status, and with [TypeError], raised by
    the sort, when no line does but the collection has two records or
    more, one of them of a line that stops before the date; otherwise it
    returns.  The [ValueError] of a date that does not parse never leaves
    the loader: on a row whose status is a text the loop body returns,
    and a published row whose date does not parse is kept.  Where a
    statement depends on which dates parse, the dates are taken to be
    written in ASCII, where the parser of the model is the parser of the
    library. *)
Theorem load_fails_on_missing_file_or_short_line (w : World)
    (st : SiteBuilder) :
  ((exists path st', load_products w st = (Raise (FileNotFoundError path), st'))
     <-> products_csv w = None)
  /\ ((exists path st', load_posts w st = (Raise (FileNotFoundError path), st'))
       <-> posts_csv w = None)
  /\ (forall rows, products_csv w = Some rows ->
        ((exists msg st', load_products w st = (Raise (AttributeError msg), st'))
           <-> forallb status_given rows = false)
        /\ (ascii_dates rows ->
            ((exists msg st', load_products w st = (Raise (TypeError msg), st'))
               <-> forallb status_given rows = true
                   /\ comparable (products st
                                  ++ filter (eligible (today w)) rows) = false)
            /\ ((exists st', load_products w st = (Return tt, st'))
                 <-> forallb status_given rows = true
                     /\ comparable (products st
                                    ++ filter (eligible (today w)) rows)
                        = true)))
  /\ (forall rows, posts_csv w = Some rows ->
        ((exists msg st', load_posts w st = (Raise (AttributeError msg), st'))
           <-> forallb status_given rows = false)
        /\ (ascii_dates rows ->
            ((exists msg st', load_posts w st = (Raise (TypeError msg), st'))
               <-> forallb status_given rows = true
                   /\ comparable (posts st
                                  ++ filter (eligible (today w)) rows) = false)
            /\ ((exists st', load_posts w st = (Return tt, st'))
                 <-> forallb status_given rows = true
                     /\ comparable (posts st
                                    ++ filter (eligible (today w)) rows)
                        = true)))
  /\ (forall msg st', load_products w st <> (Raise (ValueError msg), st'))
  /\ (forall msg st', load_posts w st <> (Raise (ValueError msg), st'))
  /\ (forall today r, status_given r = true ->
        exists keep, published today r = Return keep)
  /\ (forall today r s msg,
        status_published r ->
        Dict.get r "publish_date" = Some (CStr s) ->
        is_ascii s = true ->
        PyDate.strptime s = Raise (ValueError msg) ->
        published today r = Return true).
Proof.
  pose proof (load_products_cases w st) as Cp.
  pose proof (load_posts_cases w st) as Cq.
  split; [|split; [|split; [|split; [|split; [|split; [|split]]]]]].
  - destruct (products_csv w) as [rows|].
    + split; [|discriminate]. intros (path & st' & H).
      destruct (forallb status_given rows);
        [destruct (comparable _)|];
        [rewrite Cp in H | destruct Cp as (m & s & Cp); rewrite Cp in H
         | destruct Cp as (m & s & Cp); rewrite Cp in H]; discriminate.
    + split; [reflexivity|]. intros _. eauto.
  - destruct (posts_csv w) as [rows|].
    + split; [|discriminate]. intros (path & st' & H).
      destruct (forallb status_given rows);
        [destruct (comparable _)|];
        [rewrite Cq in H | destruct Cq as (m & s & Cq); rewrite Cq in H
         | destruct Cq as (m & s & Cq); rewrite Cq in H]; discriminate.
    + split; [reflexivity|]. intros _. eauto.
  - intros rows E. rewrite E in Cp.
    destruct (forallb status_given rows);
      [destruct (comparable _)|].
    + split; [|intros _; split].
      * split; [intros (m & s & H); rewrite Cp in H|]; discriminate.
      * split; [intros (m & s & H); rewrite Cp in H; discriminate|].
        intros [_ H]. discriminate.
      * split; [now intros _ | intros _; eauto].
    + destruct Cp as (m & s & Cp). split; [|intros _; split].
      * split; [intros (m' & s' & H); rewrite Cp in H|]; discriminate.
      * split; [now intros _ | intros _; eauto].
      * split; [intros (s' & H); rewrite Cp in H; discriminate|].
        intros [_ H]. discriminate.
    + destruct Cp as (m & s & Cp). split; [|intros _; split].
      * split; [reflexivity | intros _; eauto].
      * split; [intros (m' & s' & H); rewrite Cp in H; discriminate|].
        intros [H _]. discriminate.
      * split; [intros (s' & H); rewrite Cp in H; discriminate|].
        intros [H _]. discriminate.
  - intros rows E. rewrite E in Cq.
    destruct (forallb status_given rows);
      [destruct (comparable _)|].
    + split; [|intros _; split].
      * split; [intros (m & s & H); rewrite Cq in H|]; discriminate.
      * split; [intros (m & s & H); rewrite Cq in H; discriminate|].
        intros [_ H]. discriminate.
      * split; [now intros _ | intros _; eauto].
    + destruct Cq as (m & s & Cq). split; [|intros _; split].
      * split; [intros (m' & s' & H); rewrite Cq in H|]; discriminate.
      * split; [now intros _ | intros _; eauto].
      * split; [intros (s' & H); rewrite Cq in H; discriminate|].
        intros [_ H]. discriminate.
    + destruct Cq as (m & s & Cq). split; [|intros _; split].
      * split; [reflexivity | intros _; eauto].
      * split; [intros (m' & s' & H); rewrite Cq in H; discriminate|].
        intros [H _]. discriminate.
      * split; [intros (s' & H); rewrite Cq in H; discriminate|].
        intros [H _]. discriminate.
  - intros msg st' H. destruct (products_csv w) as [rows|].
    + destruct (forallb status_given rows);
        [destruct (comparable _)|];
        [rewrite Cp in H | destruct Cp as (m & s & Cp); rewrite Cp in H
         | destruct Cp as (m & s & Cp); rewrite Cp in H]; discriminate.
    + rewrite Cp in H. discriminate.
  - intros msg st' H. destruct (posts_csv w) as [rows|].
    + destruct (forallb status_given rows);
        [destruct (comparable _)|];
        [rewrite Cq in H | destruct Cq as (m & s & Cq); rewrite Cq in H
         | destruct Cq as (m & s & Cq); rewrite Cq in H]; discriminate.
    + rewrite Cq in H. discriminate.
  - intros today r Hr. eexists. now apply published_eligible.
  - intros today r s msg Hs Hd _ He.
    assert (Hg : eligible today r = true).
    { apply eligible_gate. split; [exact Hs|].
      right. right. right. exists s. split; [exact Hd|]. right. now exists msg. }
    rewrite (published_eligible _ _ (eligible_status_given _ _ Hg)).
    now rewrite Hg.
Qed.

Lemma load_fails_sample :
  (exists msg st',
     load_products Cases.short_status_world init
     = (Raise (AttributeError msg), st'))
  /\ published (today Sample.world) (nth 3 Sample.product_rows (full []))
     = Return true.
Proof.
  pose proof (load_fails_on_missing_file_or_short_line
                Cases.short_status_world init) as H.
  split.
  - apply (proj1 (proj1 (proj2 (proj2 H)) Cases.short_status_rows eq_refl)).
    reflexivity.
  - apply (proj2 (proj2 (proj2 (proj2 (proj2 (proj2 (proj2 H))))))
             (today Sample.world) _ "next week"
             "time data does not match format").
    + exists "PUBLISHED". split; reflexivity.
    + reflexivity.
    + reflexivity.
    + reflexivity.
Defined.

End LoadClaims.

(** ** Rendering *)

Module RenderFacts.
Import PyStr Site DictFacts.

Lemma replace_absent (old new s : string) :
  occurs old s = false -> replace s old new = s.
Proof.
  unfold replace. induction s as [|c s IH]; [reflexivity|].
  cbn [occurs]. intros H. apply Bool.orb_false_iff in H. destruct H as [Hp Ho].
  cbn [replace_from]. rewrite Hp. now rewrite IH.
Qed.

Lemma replace_from_skip (old new : string) (a : string) : forall b,
  replace_from (String.length a) old new (a ++ b) = replace_from 0 old new b.
Proof.
  induction a as [|c a IH]; intros b; simpl.
  - now destruct b.
  - apply IH.
Qed.

Lemma prefix_append (a b : string) : String.prefix a (a ++ b) = true.
Proof.
  induction a as [|c a IH]; simpl.
  - now destruct b.
  - destruct (ascii_dec c c); [exact IH | congruence].
Qed.

(** The leftmost occurrence of [old] is replaced, and the scan goes on
    behind it. *)
Lemma replace_leftmost (old new pre post : string) :
  old <> "" ->
  (forall p q, pre = p ++ q -> q <> "" ->
     String.prefix old (q ++ old ++ post) = false) ->
  replace (pre ++ old ++ post) old new = pre ++ new ++ replace post old new.
Proof.
  intros Hne. unfold replace. induction pre as [|c pre IH]; intros Hfirst.
  - destruct old as [|o old]; [congruence|].
    change ("" ++ String o old ++ post) with (String o (old ++ post)).
    cbn [replace_from].
    change (String o (old ++ post)) with (String o old ++ post) at 1.
    rewrite prefix_append.
    replace (String.length (String o old) - 1) with (String.length old)
      by (cbn [String.length]; lia).
    cbn [append]. now rewrite replace_from_skip.
  - change (String c pre ++ old ++ post) with (String c (pre ++ old ++ post)).
    cbn [replace_from].
    change (String c (pre ++ old ++ post)) with (String c pre ++ old ++ post) at 1.
    rewrite (Hfirst "" (String c pre) eq_refl) by discriminate.
    cbn [append]. f_equal. apply IH.
    intros p q -> Hq. apply (Hfirst (String c p) q); [reflexivity | exact Hq].
Qed.

Section Render.
Variable w : World.
Variable repr_str : string -> string.

Lemma render_template_run (name body : string) (context : nat)
    (st : SiteBuilder) :
  templates w name = Some body ->
  let merged := Dict.update (heap st context) (heap st (site_config st)) in
  render_template w repr_str name context st
  = (Return (substitute repr_str body merged),
     with_heap (heap_set (heap st) context merged) (next_ref st) st).
Proof.
  intros H merged. unfold render_template. rewrite H.
  unfold open_file, bind, ret, get_state, deref, store. cbn.
  unfold heap_set at 1. now rewrite Nat.eqb_refl.
Qed.

Lemma render_template_missing (name : string) (context : nat)
    (st : SiteBuilder) :
  templates w name = None ->
  render_template w repr_str name context st
  = (Raise (FileNotFoundError ("site/templates/" ++ name)), st).
Proof. intros H. unfold render_template. now rewrite H. Qed.

Lemma substitute_absent (items : Dict.dict value) : forall body,
  (forall k v, In (k, v) items -> occurs (placeholder k) body = false) ->
  substitute repr_str body items = body.
Proof.
  unfold substitute. induction items as [|[k v] items IH]; intros body H;
    [reflexivity|].
  cbn [fold_left fst snd]. rewrite replace_absent by (eapply H; now left).
  apply IH. intros k' v' Hin. eapply H. right. exact Hin.
Qed.

Lemma substitute_single (items : Dict.dict value) : forall body k v,
  Dict.wf items ->
  Dict.get items k = Some v ->
  (forall k' v', In (k', v') items -> k' <> k ->
     occurs (placeholder k') body = false
     /\ occurs (placeholder k')
          (replace body (placeholder k) (py_str repr_str v)) = false) ->
  substitute repr_str body items
  = replace body (placeholder k) (py_str repr_str v).
Proof.
  unfold Dict.wf, Dict.keys.
  induction items as [|[k0 v0] items IH]; intros body k v Hwf Hget Hothers;
    [discriminate|].
  inversion Hwf as [|? ? Hni Hwf']; subst.
  cbn [Dict.get] in Hget. unfold substitute. cbn [fold_left fst snd].
  destruct (String.eqb_spec k0 k) as [->|Hne].
  - injection Hget as ->. apply substitute_absent.
    intros k' v' Hin. apply (Hothers k' v'); [now right|].
    intros ->. apply Hni. now apply (in_map fst) in Hin.
  - rewrite replace_absent by (apply (Hothers k0 v0); [now left | exact Hne]).
    apply IH; try assumption.
    intros k' v' Hin Hk'. apply (Hothers k' v'); [now right | exact Hk'].
Qed.

End Render.

End RenderFacts.

(** ** Templates of texts and tokens *)

Module TemplateFacts.
Import PyStr PyStrFacts Site Template RenderFacts.

Lemma body_cons (g : segment) (segments : list segment) :
  body (g :: segments) = text_of_segment g ++ body segments.
Proof. unfold body. cbn [map]. apply concat_empty_cons. Qed.

(** The scan finds no token inside a text that opens none. *)
Lemma replace_from_inert (k new : string) (pre : string) : forall rest,
  inert pre = true ->
  replace_from 0 (placeholder k) new (pre ++ rest)
  = pre ++ replace_from 0 (placeholder k) new rest.
Proof.
  induction pre as [|c pre IH]; intros rest H; [reflexivity|].
  cbn [inert] in H. apply Bool.andb_true_iff in H. destruct H as [Hc Hpre].
  change (String c pre ++ rest) with (String c (pre ++ rest)).
  cbn [replace_from].
  assert (Hp : String.prefix (placeholder k) (String c (pre ++ rest)) = false).
  { unfold placeholder. cbn [append String.prefix].
    destruct (ascii_dec "{" c) as [<-|_]; [|reflexivity].
    change (Ascii.eqb "{" "{") with true in Hc. cbv iota in Hc.
    destruct pre as [|d pre]; [discriminate|].
    cbn [append String.prefix].
    destruct (ascii_dec "{" d) as [<-|_]; [discriminate | reflexivity]. }
  rewrite Hp. now rewrite (IH rest Hpre).
Qed.

Lemma plain_tail (c : ascii) (k : string) :
  plain (String c k) = true ->
  c <> "{"%char /\ c <> "}"%char /\ plain k = true.
Proof.
  unfold plain. cbn [all_chars]. intros H.
  apply Bool.andb_true_iff in H. destruct H as [Hc Hk].
  apply Bool.andb_true_iff in Hc. destruct Hc as [H1 H2].
  apply Bool.negb_true_iff, Ascii.eqb_neq in H1.
  apply Bool.negb_true_iff, Ascii.eqb_neq in H2. auto.
Qed.

(** The token of one key does not begin with the token of another. *)
Lemma key_mismatch (k : string) : forall k' rest,
  plain k = true -> plain k' = true -> k <> k' ->
  String.prefix (k ++ " }}") (k' ++ " }}" ++ rest) = false.
Proof.
  induction k as [|a k IH]; intros k' rest Hk Hk' Hne.
  - destruct k' as [|c k']; [congruence|].
    destruct (plain_tail _ _ Hk') as (_ & _ & Hk'').
    cbn [append String.prefix].
    destruct (ascii_dec " " c) as [<-|_]; [|reflexivity].
    destruct k' as [|d k']; cbn [append String.prefix]; [reflexivity|].
    destruct (plain_tail _ _ Hk'') as (_ & Hd & _).
    destruct (ascii_dec "}" d) as [<-|_]; [congruence | reflexivity].
  - destruct (plain_tail _ _ Hk) as (_ & Ha & Hk1).
    destruct k' as [|c k'].
    + cbn [append String.prefix].
      destruct (ascii_dec a " ") as [->|_]; [|reflexivity].
      destruct k as [|b k]; cbn [append String.prefix]; [reflexivity|].
      destruct (plain_tail _ _ Hk1) as (_ & Hb & _).
      destruct (ascii_dec b "}") as [->|_]; [congruence | reflexivity].
    + destruct (plain_tail _ _ Hk') as (_ & _ & Hk'').
      cbn [append String.prefix].
      destruct (ascii_dec a c) as [->|_]; [|reflexivity].
      apply IH; [assumption | assumption | congruence].
Qed.

Lemma token_mismatch (k k' rest : string) :
  plain k = true -> plain k' = true -> k <> k' ->
  String.prefix (placeholder k) (placeholder k' ++ rest) = false.
Proof.
  intros Hk Hk' Hne. unfold placeholder. rewrite !append_assoc.
  cbn [append String.prefix].
  destruct (ascii_dec "{" "{") as [_|N]; [|congruence].
  destruct (ascii_dec " " " ") as [_|N]; [|congruence].
  now apply key_mismatch.
Qed.

Lemma plain_closing_inert (k : string) :
  plain k = true -> inert (k ++ " }}") = true.
Proof.
  induction k as [|c k IH]; [reflexivity|]. intros H.
  destruct (plain_tail _ _ H) as (Hc & _ & Hk).
  cbn [append inert].
  destruct (Ascii.eqb_spec c "{") as [E|_]; [congruence|].
  now rewrite (IH Hk).
Qed.

(** One pass of [str.replace] over a template: the tokens of the key
    give way, the texts and the other tokens stay. *)
Lemma replace_body (k new : string) (segments : list segment) :
  plain k = true ->
  Forall (fun g => well_formed g = true) segments ->
  replace (body segments) (placeholder k) new
  = body (map (fill_key k new) segments).
Proof.
  intros Hk Hs. induction Hs as [|g segments Hg _ IH]; [reflexivity|].
  cbn [map]. rewrite !body_cons. destruct g as [text|k'].
  - cbn [well_formed text_of_segment fill_key] in *. unfold replace in *.
    now rewrite (replace_from_inert _ _ _ _ Hg), IH.
  - cbn [well_formed text_of_segment fill_key] in *.
    destruct (String.eqb_spec k' k) as [->|Hne].
    + cbn [text_of_segment].
      rewrite <- IH.
      apply (replace_leftmost (placeholder k) new "" (body segments)).
      * unfold placeholder. discriminate.
      * intros p q Hpq Hq. destruct p; [|discriminate].
        cbn [append] in Hpq. congruence.
    + cbn [text_of_segment]. unfold replace in *.
      assert (E : (placeholder k' ++ body segments)%string
                  = String "{" (("{ " ++ k' ++ " }}") ++ body segments)).
      { unfold placeholder. now rewrite !append_assoc. }
      assert (Hp : String.prefix (placeholder k)
                     (placeholder k' ++ body segments) = false)
        by (apply token_mismatch; [assumption | assumption | congruence]).
      rewrite E in Hp |- *. cbn [replace_from]. rewrite Hp.
      rewrite replace_from_inert.
      2:{ cbn [append inert]. change (Ascii.eqb " " "{") with false.
          cbv iota. cbn [negb andb]. now apply plain_closing_inert. }
      now rewrite IH.
Qed.

Lemma fill_key_well_formed (k text : string) (segments : list segment) :
  (In (Tok k) segments -> inert text = true) ->
  Forall (fun g => well_formed g = true) segments ->
  Forall (fun g => well_formed g = true) (map (fill_key k text) segments).
Proof.
  intros Ht Hs. induction Hs as [|g segments Hg _ IH]; constructor.
  - destruct g as [t|k']; cbn [fill_key]; [exact Hg|].
    destruct (String.eqb_spec k' k) as [->|_]; [|exact Hg].
    cbn [well_formed]. apply Ht. now left.
  - apply IH. intros Hin. apply Ht. now right.
Qed.

(** A pass makes no new token. *)
Lemma fill_key_tokens (k text k0 : string) (segments : list segment) :
  In (Tok k0) (map (fill_key k text) segments) -> In (Tok k0) segments.
Proof.
  induction segments as [|g segments IH]; [trivial|].
  cbn [map In]. intros [E|Hin]; [left | right; now apply IH].
  destruct g as [t|k']; cbn [fill_key] in E; [discriminate|].
  destruct (String.eqb k' k); [discriminate | exact E].
Qed.

(** The passes over a context that does not interfere: each token of a
    key of the context gives way to the value of the key. *)
Lemma substitute_fills (repr_str : string -> string)
    (items : Dict.dict value) : forall segments,
  tame repr_str items segments ->
  Forall (fun g => well_formed g = true) segments ->
  substitute repr_str (body segments) items
  = body (map (fill repr_str items) segments).
Proof.
  unfold substitute.
  induction items as [|[k v] items IH]; intros segments Ht Hs.
  - cbn [fold_left]. f_equal. symmetry. rewrite <- (map_id segments) at 2.
    apply map_ext. now intros [t|k'].
  - cbn [fold_left fst snd].
    destruct (Ht k v (or_introl eq_refl)) as [Hk Hv].
    rewrite (replace_body k _ segments Hk Hs).
    rewrite IH.
    + f_equal. rewrite map_map. apply map_ext. intros [t|k'];
        cbn [fill_key fill Dict.get]; [reflexivity|].
      rewrite (String.eqb_sym k k').
      now destruct (String.eqb k' k).
    + intros k0 v0 Hin. destruct (Ht k0 v0 (or_intror Hin)) as [Hk0 Hv0].
      split; [exact Hk0|]. intros T. apply Hv0.
      exact (fill_key_tokens _ _ _ _ T).
    + now apply fill_key_well_formed.
Qed.

End TemplateFacts.

(** ** The claims on the renderer *)

Module RenderClaims.
Import PyStr Site DictFacts RenderFacts.

Lemma render_run (repr_str : string -> string) (body : string)
    (context config : Dict.dict value) :
  render repr_str body context config
  = (Return (substitute repr_str body (Dict.update context config)),
     Dict.update context config).
Proof.
  unfold render. cbv zeta.
  rewrite render_template_run with (body := body) by reflexivity.
  reflexivity.
Qed.

(** C2, as stated, fails: with the configuration [{title: "Site"}] and the
    page context [{title: "Widget"}] the template [{{ title }}] renders as
    ["Site"], not as ["Widget"]. *)
Lemma page_title_is_overridden :
  fst (render Sample.quote "{{ title }}"
         [("title", VStr "Widget")] [("title", VStr "Site")])
  = Return "Site"
  /\ fst (render Sample.quote "{{ title }}"
            [("title", VStr "Widget")] [("title", VStr "Site")])
     <> Return "Widget".
Proof. split; [reflexivity | discriminate]. Qed.

(** C2, amended.  When a key of the page context is also a key of the site
    configuration, rendering uses the value of the configuration: the
    template is substituted with the merged context, in which the key has
    the configuration's value; with the configuration [{title: "Site"}]
    and the page context [{title: "Widget"}], every occurrence of
    [{{ title }}] in a template becomes ["Site"]. *)
Theorem config_wins_on_collision (repr_str : string -> string)
    (body : string) (context config : Dict.dict value) (k : string)
    (page_value config_value : value) :
  Dict.wf config ->
  Dict.get context k = Some page_value ->
  Dict.get config k = Some config_value ->
  (exists merged,
     render repr_str body context config
     = (Return (substitute repr_str body merged), merged)
     /\ Dict.get merged k = Some config_value)
  /\ fst (render repr_str body
            [("title", VStr "Widget")] [("title", VStr "Site")])
     = Return (replace body "{{ title }}" "Site").
Proof.
  intros Hwf _ Hc. split.
  - exists (Dict.update context config). split; [apply render_run|].
    now apply get_update_present.
  - now rewrite render_run.
Qed.

Lemma config_wins_sample :
  fst (render Sample.quote "<h1>{{ title }}</h1>"
         [("title", VStr "Widget")] [("title", VStr "Site")])
  = Return (replace "<h1>{{ title }}</h1>" "{{ title }}" "Site").
Proof.
  refine (proj2 (config_wins_on_collision Sample.quote "<h1>{{ title }}</h1>"
                   [("title", VStr "Widget")] [("title", VStr "Site")]
                   "title" (VStr "Widget") (VStr "Site") _ eq_refl eq_refl)).
  repeat constructor. simpl. tauto.
Defined.

(** C5, as stated, fails.  The value of [a] contains the token of [b]:
    the token [{{ a }}] is not replaced by the string form of the value of
    [a], because the text put in its place is substituted again.  With the
    same two entries in the other order the output differs, and a token
    whose key is present is left in it. *)
Lemma inserted_text_is_substituted_again :
  Dict.get [("a", VStr "{{ b }}"); ("b", VStr "x")] "a" = Some (VStr "{{ b }}")
  /\ fst (render Sample.quote "{{ a }}"
            [("a", VStr "{{ b }}"); ("b", VStr "x")] [])
     = Return "x"
  /\ "x" <> py_str Sample.quote (VStr "{{ b }}")
  /\ fst (render Sample.quote "{{ a }}"
            [("b", VStr "x"); ("a", VStr "{{ b }}")] [])
     = Return "{{ b }}".
Proof. repeat split; try reflexivity; discriminate. Qed.

(** C5, amended.  For a template of texts and tokens [{{ key }}] in
    which no text has [{{] or ends with [{] and no key has a brace, and
    for a context whose keys have no brace and in which the values of
    the keys whose tokens the template has have string forms without
    [{{] and not ending with [{], rendering puts the string form of the
    value in the place of every token whose key is in the merged
    context, and leaves every other token as it is.  The two
    examples of the specification hold, the number 9.99 being an object
    whose string form is ["9.99"].  For any template and any context the
    output is that of the passes of [str.replace] over the entries of the
    merged context in their order, each pass on the text that the pass
    before it has left. *)
Theorem render_fills_tokens (repr_str : string -> string)
    (segments : list Template.segment) (context config : Dict.dict value) :
  Forall (fun g => Template.well_formed g = true) segments ->
  Template.tame repr_str (Dict.update context config) segments ->
  let merged := Dict.update context config in
  fst (render repr_str (Template.body segments) context config)
  = Return (Template.body (map (Template.fill repr_str merged) segments))
  /\ fst (render repr_str "Price: {{ price }}"
            [("price", VObj "9.99" true)] [])
     = Return "Price: 9.99"
  /\ fst (render repr_str "{{ missing }}" [] []) = Return "{{ missing }}"
  /\ (forall text,
        fst (render repr_str text context config)
        = Return
            (fold_left
               (fun text kv =>
                  replace text ("{{ " ++ fst kv ++ " }}")
                          (py_str repr_str (snd kv)))
               merged text)).
Proof.
  intros Hs Ht merged. rewrite render_run. cbn [fst]. fold merged.
  split; [|split; [|split]].
  - f_equal. now apply TemplateFacts.substitute_fills.
  - reflexivity.
  - reflexivity.
  - intros text. now rewrite render_run.
Qed.

(** Two tokens of keys of the context and one of a key that the context
    does not have; the value of [title] is the one of the configuration,
    whose [description] has a token of its own and is not asked for. *)
Lemma render_sample :
  fst (render Sample.quote
         "<h1>{{ title }}</h1><b>{{ price }}</b> {{ missing }} {x}"
         Sample.page_context Sample.config)
  = Return "<h1>Shop</h1><b>9.99</b> {{ missing }} {x}".
Proof.
  apply (proj1 (render_fills_tokens Sample.quote
                  [Template.Lit "<h1>"; Template.Tok "title";
                   Template.Lit "</h1><b>"; Template.Tok "price";
                   Template.Lit "</b> "; Template.Tok "missing";
                   Template.Lit " {x}"]
                  Sample.page_context Sample.config
                  ltac:(repeat constructor)
                  ltac:(intros k v Hin; cbn in Hin;
                        repeat (destruct Hin as [Hin|Hin];
                                [injection Hin as <- <-;
                                 split; [reflexivity|];
                                 intros T;
                                 first [reflexivity
                                       | cbn in T; intuition discriminate]|]);
                        contradiction))).
Defined.

(** C10.  A call of [render_template] that finds its template changes the
    caller's context in place: afterwards the context is the old one
    updated with the site configuration, so it has every key of the
    configuration with the configuration's value, also where the page had
    an entry of that key, and its other entries are as before.  The
    configuration itself is unchanged, also when the caller passes the
    configuration as the context, and so is every other dictionary. *)
Theorem render_template_updates_context (w : World)
    (repr_str : string -> string) (name body : string) (context : nat)
    (st : SiteBuilder) :
  templates w name = Some body ->
  Dict.wf (heap st (site_config st)) ->
  let config := heap st (site_config st) in
  let st' := snd (render_template w repr_str name context st) in
  (exists content, fst (render_template w repr_str name context st)
                   = Return content)
  /\ heap st' context = Dict.update (heap st context) config
  /\ (forall k v, Dict.get config k = Some v ->
                  Dict.get (heap st' context) k = Some v)
  /\ (forall k, Dict.get config k = None ->
                Dict.get (heap st' context) k = Dict.get (heap st context) k)
  /\ site_config st' = site_config st
  /\ heap st' (site_config st') = config
  /\ (forall r, r <> context -> heap st' r = heap st r).
Proof.
  intros Ht Hwf config st'. subst st'.
  rewrite (render_template_run w repr_str name body context st Ht).
  cbn [fst snd heap with_heap site_config]. fold config.
  assert (Hctx : heap_set (heap st) context
                   (Dict.update (heap st context) config) context
                 = Dict.update (heap st context) config).
  { unfold heap_set. now rewrite Nat.eqb_refl. }
  split; [eauto|]. split; [exact Hctx|]. rewrite Hctx.
  split; [intros k v; now apply get_update_present|].
  split; [intros k; now apply get_update_absent|].
  split; [reflexivity|]. split.
  - unfold heap_set. destruct (Nat.eqb_spec (site_config st) context) as [E|_];
      [|reflexivity].
    rewrite <- E. fold config. now apply update_self.
  - intros r Hr. unfold heap_set.
    now destruct (Nat.eqb_spec r context) as [E|_].
Qed.

Lemma render_template_sample :
  heap (snd (render_template Sample.world Sample.quote "product.html" 1
               Sample.builder)) 1
  = Dict.update Sample.page_context Sample.config.
Proof.
  refine (proj1 (proj2
    (render_template_updates_context Sample.world Sample.quote
       "product.html" _ 1 Sample.builder eq_refl _))).
  repeat constructor; simpl; intuition discriminate.
Defined.

(** The caller's [title] is gone after the call. *)
Example context_after_call :
  heap (snd (render_template Sample.world Sample.quote "product.html" 1
               Sample.builder)) 1
  = [("title", VStr "Shop"); ("price", VObj "9.99" true);
     ("description", VStr "All about {{ title }}");
     ("base_url", VStr "https://shop.example")].
Proof. reflexivity. Qed.

(** A call that does not find its template raises before it touches the
    context. *)
Lemma render_template_missing_keeps_context (w : World)
    (repr_str : string -> string) (name : string) (context : nat)
    (st : SiteBuilder) :
  templates w name = None ->
  render_template w repr_str name context st
  = (Raise (FileNotFoundError ("site/templates/" ++ name)), st).
Proof. apply render_template_missing. Qed.

End RenderClaims.

(** ** Sitemap and feed *)

Module FeedFacts.
Import PyStr Site.

Lemma title_slug_has_title (r : row) :
  has_title r -> title_slug r = Return (slug_of r).
Proof.
  intros [t Ht]. unfold title_slug, getitem, slug_of, title_of.
  now rewrite Ht.
Qed.

Lemma getitem_has_title (r : row) :
  has_title r -> getitem r "title" = Return (CStr (title_of r)).
Proof.
  intros [t Ht]. unfold getitem, title_of. now rewrite Ht.
Qed.

(** The text of a cell never stops the serialiser: it is a [str], or
    [None], which is skipped. *)
Lemma text_ok_cell (c : cell) : text_ok (Some (cell_value c)) = true.
Proof. now destruct c. Qed.

Lemma serializable_rss_item (link : string) (r : row) :
  serializable (rss_item link r) = true.
Proof.
  unfold rss_item. cbn [serializable forallb leaf].
  rewrite !text_ok_cell. reflexivity.
Qed.

Lemma forallb_map_true {A B : Type} (p : B -> bool) (f : A -> B)
    (l : list A) :
  (forall x, p (f x) = true) -> forallb p (map f l) = true.
Proof.
  intros H. induction l as [|x l IH]; [reflexivity|].
  cbn [map forallb]. now rewrite H, IH.
Qed.

Section Feeds.
Variable w : World.
Variable repr_str : string -> string.

(** The two loops of [generate_sitemap], which differ in the directory,
    the priority and the change frequency. *)
Lemma sitemap_loop (dir priority changefreq : string) (base : value)
    (st : SiteBuilder) (attrib : list (string * string)) (records : list row) :
  Dict.get (heap st (site_config st)) "base_url" = Some base ->
  Forall has_title records ->
  forall entries,
  for_fold records (Elem "urlset" attrib None entries) (fun urlset record =>
    bind (lift (title_slug record)) (fun slug =>
    bind get_state (fun st =>
    bind (deref (site_config st)) (fun config =>
    bind (lift (getitem config "base_url")) (fun base_url =>
    ret (add_sitemap_url w urlset
           (VStr (py_str repr_str base_url ++ dir ++ slug ++ ".html"))
           priority changefreq)))))) st
  = (Return
       (Elem "urlset" attrib None
          (entries ++
           map (fun r =>
                  url_entry (today w)
                    (VStr (py_str repr_str base ++ dir ++ slug_of r ++ ".html"))
                    priority changefreq) records)%list),
     st).
Proof.
  intros Hbase Htitles.
  induction Htitles as [|r records Hr _ IH]; intros entries; cbn [for_fold map].
  - unfold ret. now rewrite app_nil_r.
  - unfold bind at 1 2. unfold lift at 1. rewrite (title_slug_has_title r Hr).
    unfold bind at 1, get_state at 1. unfold bind at 1, deref at 1.
    unfold bind at 1, lift at 1, getitem at 1. rewrite Hbase.
    unfold ret at 1. cbn [add_sitemap_url SubElement app].
    rewrite IH. now rewrite <- app_assoc.
Qed.

Lemma serializable_sitemap (today : PyDate.date) (base : value)
    (product_url post_url : row -> string) (products posts : list row) :
  serializable (sitemap_doc today base product_url post_url products posts)
  = text_ok (Some base).
Proof.
  unfold sitemap_doc. cbn [serializable forallb].
  rewrite forallb_app, !forallb_map_true by reflexivity.
  cbn [url_entry leaf serializable text_ok forallb andb].
  now rewrite !Bool.andb_true_r.
Qed.

Lemma generate_sitemap_run (st : SiteBuilder) (base : value) :
  Dict.get (heap st (site_config st)) "base_url" = Some base ->
  Forall has_title (products st) ->
  Forall has_title (posts st) ->
  generate_sitemap w repr_str st
  = if text_ok (Some base)
    then (Return tt,
          with_output
            (("sitemap.xml",
              Xml (sitemap_doc (today w) base
                     (fun r => py_str repr_str base ++ "/products/"
                               ++ slug_of r ++ ".html")
                     (fun r => py_str repr_str base ++ "/blog/"
                               ++ slug_of r ++ ".html")
                     (products st) (posts st)))
             :: output st) st)
    else (Raise (TypeError "cannot serialize"),
          with_output (("sitemap.xml", Unfinished) :: output st) st).
Proof.
  intros Hbase Hp Hq. unfold generate_sitemap. cbv zeta.
  unfold bind at 1, get_state at 1. unfold bind at 1, deref at 1.
  unfold bind at 1, lift at 1, getitem at 1. rewrite Hbase.
  unfold bind at 1, get_state at 1. unfold bind at 1.
  cbn [add_sitemap_url SubElement app].
  rewrite (sitemap_loop "/products/" "0.8" "weekly" base st _ _ Hbase Hp).
  unfold bind at 1, get_state at 1. unfold bind at 1.
  rewrite (sitemap_loop "/blog/" "0.7" "monthly" base st _ _ Hbase Hq).
  unfold write_xml. cbn [app].
  pose proof (serializable_sitemap (today w) base
                (fun r => py_str repr_str base ++ "/products/"
                          ++ slug_of r ++ ".html")
                (fun r => py_str repr_str base ++ "/blog/"
                          ++ slug_of r ++ ".html")
                (products st) (posts st)) as E.
  unfold sitemap_doc in *. unfold url_entry at 1 in E. rewrite E.
  destruct (text_ok (Some base)); reflexivity.
Qed.

Lemma rss_loop (base : value) (st : SiteBuilder) (records : list row) :
  Dict.get (heap st (site_config st)) "base_url" = Some base ->
  Forall has_title records ->
  forall children,
  for_fold records (Elem "channel" [] None children) (fun channel post =>
    bind (lift (getitem post "title")) (fun title =>
    bind (lift (title_slug post)) (fun post_slug =>
    bind get_state (fun st =>
    bind (deref (site_config st)) (fun config =>
    bind (lift (getitem config "base_url")) (fun base_url =>
    ret (SubElement channel
           (SubElement
              (SubElement
                 (SubElement
                    (SubElement (Elem "item" [] None [])
                       (leaf "title" (cell_value title)))
                    (leaf "description"
                       (cell_value
                          (Dict.get_default post "excerpt" (CStr "")))))
                 (leaf "link"
                    (VStr (py_str repr_str base_url ++ "/blog/"
                           ++ post_slug ++ ".html"))))
              (leaf "pubDate"
                 (cell_value
                    (Dict.get_default post "publish_date" (CStr ""))))))))))))
    st
  = (Return
       (Elem "channel" [] None
          (children ++
           map (fun r =>
                  rss_item (py_str repr_str base ++ "/blog/"
                            ++ slug_of r ++ ".html") r) records)%list),
     st).
Proof.
  intros Hbase Htitles.
  induction Htitles as [|r records Hr _ IH]; intros children; cbn [for_fold map].
  - unfold ret. now rewrite app_nil_r.
  - unfold bind at 1 2. unfold lift at 1. rewrite (getitem_has_title r Hr).
    unfold bind at 1, lift at 1. rewrite (title_slug_has_title r Hr).
    unfold bind at 1, get_state at 1. unfold bind at 1, deref at 1.
    unfold bind at 1, lift at 1, getitem at 1. rewrite Hbase.
    unfold ret at 1. cbn [SubElement app cell_value].
    rewrite IH. unfold rss_item. now rewrite <- app_assoc.
Qed.

Lemma serializable_rss (title description link : value)
    (post_url : row -> string) (records : list row) :
  serializable
    (rss_doc title description link
       (map (fun r => rss_item (post_url r) r) records))
  = text_ok (Some title) && text_ok (Some description) && text_ok (Some link).
Proof.
  unfold rss_doc. cbn [serializable forallb leaf].
  rewrite forallb_map_true
    by (intros r; apply (serializable_rss_item (post_url r) r)).
  cbn [text_ok andb]. rewrite !Bool.andb_true_r.
  now rewrite !Bool.andb_assoc.
Qed.

Lemma generate_rss_run (st : SiteBuilder) (base : value) :
  let config := heap st (site_config st) in
  let title := Dict.get_default config "title" (VStr "") in
  let description := Dict.get_default config "description" (VStr "") in
  Dict.get config "base_url" = Some base ->
  Forall has_title (firstn 10 (posts st)) ->
  generate_rss repr_str st
  = if text_ok (Some title) && text_ok (Some description)
       && text_ok (Some base)
    then (Return tt,
          with_output
            (("rss.xml",
              Xml (rss_doc title description base
                     (map (fun r =>
                             rss_item (py_str repr_str base ++ "/blog/"
                                       ++ slug_of r ++ ".html") r)
                        (firstn 10 (posts st)))))
             :: output st) st)
    else (Raise (TypeError "cannot serialize"),
          with_output (("rss.xml", Unfinished) :: output st) st).
Proof.
  intros config title description Hbase Hq. unfold generate_rss. cbv zeta.
  unfold bind at 1, get_state at 1. unfold bind at 1, deref at 1.
  fold config. fold title. fold description.
  unfold bind at 1, lift at 1, getitem at 1. rewrite Hbase.
  unfold bind at 1, get_state at 1. unfold bind at 1.
  cbn [SubElement app].
  rewrite (rss_loop base st _ Hbase Hq).
  unfold write_xml. cbn [SubElement app].
  pose proof (serializable_rss title description base
                (fun r => py_str repr_str base ++ "/blog/"
                          ++ slug_of r ++ ".html")
                (firstn 10 (posts st))) as E.
  unfold rss_doc in *. rewrite E.
  destruct (text_ok (Some title) && text_ok (Some description)
            && text_ok (Some base)); reflexivity.
Qed.

End Feeds.

End FeedFacts.

(* ================================================================= *)
(** ** Dates written as [YYYY-MM-DD] *)

Module DateFacts.
Import PyStr PyStrFacts Site.
Import PyDate.
Local Open Scope Z_scope.

Lemma digit_char_digit (x : Z) : digit (digit_char x) = Some (x mod 10).
Proof.
  unfold digit_char. pose proof (Z.mod_pos_bound x 10 eq_refl) as B.
  assert (H : x mod 10 = 0 \/ x mod 10 = 1 \/ x mod 10 = 2 \/ x mod 10 = 3 \/ x mod 10 = 4 \/ x mod 10 = 5 \/ x mod 10 = 6 \/ x mod 10 = 7 \/ x mod 10 = 8 \/ x mod 10 = 9) by lia.
  repeat destruct H as [H|H]; rewrite H; reflexivity.
Qed.

Lemma year_matches_stamp (y : Z) (r : string) :
  0 <= y <= 9999 ->
  year_matches (two_digits (y / 100) ++ two_digits y ++ r) = [(y, r)].
Proof.
  intros B. unfold two_digits. cbn [append year_matches].
  rewrite !digit_char_digit. f_equal. f_equal.
  pose proof (Z.div_mod y 10). pose proof (Z.div_mod (y / 10) 10).
  pose proof (Z.div_mod (y / 100) 10). pose proof (Z.div_mod (y / 100 / 10) 10).
  pose proof (Z.mod_pos_bound y 10 eq_refl).
  pose proof (Z.mod_pos_bound (y / 10) 10 eq_refl).
  pose proof (Z.mod_pos_bound (y / 100) 10 eq_refl).
  pose proof (Z.mod_pos_bound (y / 100 / 10) 10 eq_refl).
  assert (y / 100 = y / 10 / 10) by (now rewrite Z.div_div by lia).
  assert (y / 100 / 10 = 0 \/ 1 <= y / 100 / 10).
  { pose proof (Z.div_pos (y / 100) 10). pose proof (Z.div_pos y 100). lia. }
  assert (y / 100 / 10 < 10).
  { apply Z.div_lt_upper_bound; [lia|]. apply Z.div_lt_upper_bound; lia. }
  rewrite (Z.mod_small (y / 100 / 10) 10) by lia. lia.
Qed.

Lemma month_matches_stamp (m : Z) (r : string) :
  1 <= m <= 12 ->
  exists l, month_matches (two_digits m ++ r) = (m, r) :: l.
Proof.
  intros B. assert (H : m = 1 \/ m = 2 \/ m = 3 \/ m = 4 \/ m = 5 \/ m = 6 \/ m = 7 \/ m = 8 \/ m = 9 \/ m = 10 \/ m = 11 \/ m = 12) by lia.
  repeat destruct H as [H|H]; subst m; eexists; reflexivity.
Qed.

Lemma day_matches_stamp (d : Z) (r : string) :
  1 <= d <= 31 ->
  exists l, day_matches (two_digits d ++ r) = (d, r) :: l.
Proof.
  intros B. assert (H : d = 1 \/ d = 2 \/ d = 3 \/ d = 4 \/ d = 5 \/ d = 6 \/ d = 7 \/ d = 8 \/ d = 9 \/ d = 10 \/ d = 11 \/ d = 12 \/ d = 13 \/ d = 14 \/ d = 15 \/ d = 16 \/ d = 17 \/ d = 18 \/ d = 19 \/ d = 20 \/ d = 21 \/ d = 22 \/ d = 23 \/ d = 24 \/ d = 25 \/ d = 26 \/ d = 27 \/ d = 28 \/ d = 29 \/ d = 30 \/ d = 31) by lia.
  repeat destruct H as [H|H]; subst d; eexists; reflexivity.
Qed.

Lemma valid_bounds (y m d : Z) :
  valid y m d = true -> 1 <= y <= 9999 /\ 1 <= m <= 12 /\ 1 <= d <= 31.
Proof.
  unfold valid, days_in_month. intros H.
  repeat (apply Bool.andb_true_iff in H; destruct H as [H ?]).
  destruct (m =? 2); [destruct (is_leap y)|];
    [| |destruct ((m =? 4) || (m =? 6) || (m =? 9) || (m =? 11))%bool]; lia.
Qed.

Lemma match_Ymd_stamp (y m d : Z) :
  1 <= y <= 9999 -> 1 <= m <= 12 -> 1 <= d <= 31 ->
  match_Ymd (strftime (mkdate y m d)) = Some (y, m, d, ""%string).
Proof.
  intros By Bm Bd. unfold match_Ymd, strftime. cbn [year month day].
  rewrite year_matches_stamp by lia. cbn [flat_map fst snd].
  change ("-" ++ two_digits m ++ "-" ++ two_digits d)%string
    with (String "-" (two_digits m ++ String "-" (two_digits d))).
  cbn [literal]. rewrite Ascii.eqb_refl. cbn [flat_map].
  destruct (month_matches_stamp m (String "-" (two_digits d)) Bm) as [l1 ->].
  cbn [flat_map fst snd literal]. rewrite Ascii.eqb_refl. cbn [flat_map].
  rewrite <- (append_empty_r (two_digits d)).
  destruct (day_matches_stamp d ""%string Bd) as [l2 ->].
  reflexivity.
Qed.

Lemma strptime_stamp (d : date) :
  valid (year d) (month d) (day d) = true ->
  strptime (strftime d) = Return d.
Proof.
  destruct d as [y m dd]. cbn [year month day]. intros V.
  destruct (valid_bounds _ _ _ V) as (By & Bm & Bd).
  unfold strptime. rewrite (match_Ymd_stamp y m dd By Bm Bd).
  cbn [String.eqb negb]. now rewrite V.
Qed.

(** *** The order of the stamps *)

Lemma digit_char_compare (x y : Z) :
  Ascii.compare (digit_char x) (digit_char y) = (x mod 10 ?= y mod 10).
Proof.
  unfold Ascii.compare, digit_char.
  pose proof (Z.mod_pos_bound x 10 eq_refl).
  pose proof (Z.mod_pos_bound y 10 eq_refl).
  rewrite !N_ascii_embedding by lia.
  rewrite Z2N.inj_compare by lia. apply Z.add_compare_mono_l.
Qed.

Lemma two_digits_compare (n m : Z) (s t : string) :
  0 <= n < 100 -> 0 <= m < 100 ->
  String.compare (two_digits n ++ s) (two_digits m ++ t)
  = match n ?= m with
    | Eq => String.compare s t
    | c => c
    end.
Proof.
  intros Bn Bm. unfold two_digits. cbn [append String.compare].
  rewrite !digit_char_compare.
  pose proof (Z.div_mod n 10). pose proof (Z.div_mod m 10).
  pose proof (Z.mod_pos_bound n 10 eq_refl).
  pose proof (Z.mod_pos_bound m 10 eq_refl).
  assert (0 <= n / 10 < 10)
    by (split; [apply Z.div_pos; lia | apply Z.div_lt_upper_bound; lia]).
  assert (0 <= m / 10 < 10)
    by (split; [apply Z.div_pos; lia | apply Z.div_lt_upper_bound; lia]).
  rewrite (Z.mod_small (n / 10) 10), (Z.mod_small (m / 10) 10) by lia.
  destruct (Z.compare_spec (n / 10) (m / 10));
    destruct (Z.compare_spec (n mod 10) (m mod 10));
    destruct (Z.compare_spec n m); try reflexivity; lia.
Qed.

Lemma two_digits_mod (y : Z) : two_digits y = two_digits (y mod 100).
Proof.
  unfold two_digits, digit_char.
  replace ((y mod 100) mod 10) with (y mod 10)
    by (Z.div_mod_to_equations; lia).
  replace ((y mod 100 / 10) mod 10) with ((y / 10) mod 10)
    by (Z.div_mod_to_equations; lia).
  reflexivity.
Qed.

Lemma stamp_compare (a b : date) :
  valid (year a) (month a) (day a) = true ->
  valid (year b) (month b) (day b) = true ->
  String.compare (strftime a) (strftime b)
  = match year a ?= year b with
    | Eq => match month a ?= month b with
            | Eq => day a ?= day b
            | c => c
            end
    | c => c
    end.
Proof.
  destruct a as [ya ma da], b as [yb mb db]. cbn [year month day].
  intros Va Vb.
  destruct (valid_bounds _ _ _ Va) as (Bya & Bma & Bda).
  destruct (valid_bounds _ _ _ Vb) as (Byb & Bmb & Bdb).
  unfold strftime. cbn [year month day].
  rewrite (two_digits_mod ya), (two_digits_mod yb).
  pose proof (Z.div_mod ya 100). pose proof (Z.div_mod yb 100).
  pose proof (Z.mod_pos_bound ya 100 eq_refl).
  pose proof (Z.mod_pos_bound yb 100 eq_refl).
  assert (0 <= ya / 100 < 100)
    by (split; [apply Z.div_pos; lia | apply Z.div_lt_upper_bound; lia]).
  assert (0 <= yb / 100 < 100)
    by (split; [apply Z.div_pos; lia | apply Z.div_lt_upper_bound; lia]).
  rewrite two_digits_compare by lia.
  rewrite two_digits_compare by lia.
  change ("-" ++ two_digits ma ++ "-" ++ two_digits da)%string
    with (String "-" (two_digits ma ++ String "-" (two_digits da ++ ""))).
  change ("-" ++ two_digits mb ++ "-" ++ two_digits db)%string
    with (String "-" (two_digits mb ++ String "-" (two_digits db ++ ""))).
  cbn [String.compare]. change (Ascii.compare "-" "-") with Eq. cbv iota.
  rewrite two_digits_compare by lia.
  cbn [String.compare]. change (Ascii.compare "-" "-") with Eq. cbv iota.
  rewrite two_digits_compare by lia.
  cbn [String.compare].
  destruct (Z.compare_spec (ya / 100) (yb / 100));
    destruct (Z.compare_spec (ya mod 100) (yb mod 100));
    destruct (Z.compare_spec ya yb); try reflexivity; try lia;
    destruct (Z.compare_spec ma mb); try reflexivity;
    destruct (Z.compare_spec da db); reflexivity.
Qed.

Lemma ltb_compare (a b : date) :
  ltb a b
  = match match year a ?= year b with
          | Eq => match month a ?= month b with
                  | Eq => day a ?= day b
                  | c => c
                  end
          | c => c
          end with
    | Lt => true
    | _ => false
    end.
Proof.
  unfold ltb. rewrite !Z.ltb_compare, !Z.eqb_compare.
  destruct (year a ?= year b), (month a ?= month b), (day a ?= day b);
    reflexivity.
Qed.

Lemma stamp_ltb (a b : date) :
  valid (year a) (month a) (day a) = true ->
  valid (year b) (month b) (day b) = true ->
  String.ltb (strftime a) (strftime b) = ltb a b.
Proof.
  intros Va Vb. unfold String.ltb. rewrite (stamp_compare a b Va Vb).
  now rewrite ltb_compare.
Qed.

Lemma stamp_leb (a b : date) :
  valid (year a) (month a) (day a) = true ->
  valid (year b) (month b) (day b) = true ->
  String.leb (strftime a) (strftime b) = leb a b.
Proof.
  intros Va Vb. unfold String.leb, leb. rewrite (stamp_compare a b Va Vb).
  rewrite ltb_compare. rewrite (Z.compare_antisym (year a) (year b)).
  rewrite (Z.compare_antisym (month a) (month b)).
  rewrite (Z.compare_antisym (day a) (day b)).
  destruct (year a ?= year b), (month a ?= month b), (day a ?= day b);
    reflexivity.
Qed.

End DateFacts.

(** ** Page generation *)

Module PageFacts.
Import PyStr Site RenderFacts FeedFacts.

Lemma bind_return_inv {A B : Type} (m : M A) (k : A -> M B)
    (st st' : SiteBuilder) (b : B) :
  bind m k st = (Return b, st') ->
  exists a st1, m st = (Return a, st1) /\ k a st1 = (Return b, st').
Proof.
  unfold bind. destruct (m st) as [[a|e] st1]; intros H;
    [eauto | discriminate].
Qed.

Lemma extends_refl (st : SiteBuilder) :
  site_config st < next_ref st -> extends st st.
Proof. intros H. repeat split; try assumption. now exists []. Qed.

Lemma extends_trans (a b c : SiteBuilder) :
  extends a b -> extends b c -> extends a c.
Proof.
  intros (P1 & Q1 & C1 & H1 & N1 & [o1 O1]) (P2 & Q2 & C2 & H2 & N2 & [o2 O2]).
  repeat split; try congruence.
  exists (o2 ++ o1)%list. rewrite O2, O1. now rewrite app_assoc.
Qed.

Lemma extends_output (a b : SiteBuilder) (f : string * file) :
  extends a b -> In f (output a) -> In f (output b).
Proof.
  intros (_ & _ & _ & _ & _ & [added ->]) H. apply in_or_app. now right.
Qed.

Lemma title_slug_return_inv (r : row) (slug : string) :
  title_slug r = Return slug -> has_title r /\ slug = slug_of r.
Proof.
  unfold title_slug, getitem, slug_of, title_of, has_title.
  destruct (Dict.get r "title") as [[|t]|]; [discriminate| |discriminate].
  cbn. intros [= <-]. eauto.
Qed.

Section Pages.
Variable w : World.
Variable repr_str : string -> string.

Lemma alloc_extends (d : Dict.dict value) (st : SiteBuilder) :
  site_config st < next_ref st ->
  extends st (snd (alloc d st))
  /\ output (snd (alloc d st)) = output st
  /\ next_ref st <> site_config (snd (alloc d st))
  /\ site_config (snd (alloc d st)) < next_ref (snd (alloc d st)).
Proof.
  intros H. cbn. unfold extends, heap_set. cbn.
  destruct (Nat.eqb_spec (site_config st) (next_ref st)) as [E|_]; [lia|].
  repeat split; try lia. now exists [].
Qed.

Lemma alloc_returns (d : Dict.dict value) (st s1 : SiteBuilder) (c : nat) :
  alloc d st = (Return c, s1) -> c = next_ref st /\ s1 = snd (alloc d st).
Proof. unfold alloc. intros [= <- <-]. now split. Qed.

Lemma render_template_extends (name : string) (context : nat)
    (st st' : SiteBuilder) (o : outcome string) :
  render_template w repr_str name context st = (o, st') ->
  context <> site_config st ->
  site_config st < next_ref st ->
  extends st st' /\ output st' = output st.
Proof.
  intros H Hne Hinv. destruct (templates w name) as [body|] eqn:E.
  - rewrite (render_template_run w repr_str name body context st E) in H.
    injection H as _ <-. unfold extends, heap_set. cbn.
    destruct (Nat.eqb_spec (site_config st) context) as [E'|_]; [congruence|].
    repeat split; try assumption. now exists [].
  - rewrite (render_template_missing w repr_str name context st E) in H.
    injection H as _ <-. split; [now apply extends_refl | reflexivity].
Qed.

(** A page: a fresh context is rendered and the result is written. *)
Lemma page_written (d : Dict.dict value) (name path : string)
    (st st' : SiteBuilder) :
  bind (alloc d) (fun context =>
    bind (render_template w repr_str name context) (fun html =>
      write_file path (Text html))) st = (Return tt, st') ->
  site_config st < next_ref st ->
  extends st st' /\ exists html, In (path, Text html) (output st').
Proof.
  intros H Hinv.
  apply bind_return_inv in H. destruct H as (context & s1 & Ha & H).
  destruct (alloc_extends d st Hinv) as (E1 & O1 & N1 & I1).
  apply alloc_returns in Ha. destruct Ha as [-> ->].
  apply bind_return_inv in H. destruct H as (html & s2 & Hr & H).
  destruct (render_template_extends _ _ _ _ _ Hr N1 I1) as (E2 & O2).
  unfold write_file in H. injection H as <-.
  split; [|exists html; now left].
  eapply extends_trans; [exact E1|]. eapply extends_trans; [exact E2|].
  destruct E2 as (_ & _ & C2 & _ & N2 & _).
  unfold extends. cbn. repeat split; try lia.
  now exists [(path, Text html)].
Qed.

(** The loop over the records of a collection: when it returns, every
    record has a title and its page has been written under its slug. *)
Lemma detail_loop (key name dir : string) (records : list row) :
  forall st st',
  for_each records (fun record =>
    bind (alloc [(key, VRow record)]) (fun context =>
    bind (render_template w repr_str name context) (fun html =>
    bind (lift (title_slug record)) (fun slug =>
    write_file (dir ++ slug ++ ".html") (Text html))))) st
  = (Return tt, st') ->
  site_config st < next_ref st ->
  extends st st'
  /\ Forall has_title records
  /\ forall r, In r records ->
       exists html, In (dir ++ slug_of r ++ ".html", Text html) (output st').
Proof.
  induction records as [|r records IH]; intros st st' H Hinv; cbn [for_each] in H.
  - injection H as <-. split; [now apply extends_refl|].
    split; [constructor | intros r []].
  - apply bind_return_inv in H. destruct H as ([] & s3 & Hbody & Hrest).
    apply bind_return_inv in Hbody. destruct Hbody as (context & s1 & Ha & Hbody).
    destruct (alloc_extends [(key, VRow r)] st Hinv) as (E1 & O1 & N1 & I1).
    apply alloc_returns in Ha. destruct Ha as [-> ->].
    apply bind_return_inv in Hbody. destruct Hbody as (html & s2 & Hr & Hbody).
    destruct (render_template_extends _ _ _ _ _ Hr N1 I1) as (E2 & O2).
    apply bind_return_inv in Hbody. destruct Hbody as (slug & s2' & Hs & Hbody).
    unfold lift in Hs. injection Hs as Hs <-.
    apply title_slug_return_inv in Hs. destruct Hs as [Ht ->].
    unfold write_file in Hbody. injection Hbody as <-.
    assert (E3 : extends st
              (with_output ((dir ++ slug_of r ++ ".html", Text html) :: output s2) s2)).
    { eapply extends_trans; [exact E1|]. eapply extends_trans; [exact E2|].
      destruct E2 as (_ & _ & C2 & _ & N2 & _).
      unfold extends. cbn. repeat split; try lia.
      now exists [(dir ++ slug_of r ++ ".html", Text html)]. }
    assert (I3 : site_config
                   (with_output ((dir ++ slug_of r ++ ".html", Text html) :: output s2) s2)
                 < next_ref
                     (with_output ((dir ++ slug_of r ++ ".html", Text html) :: output s2) s2)).
    { destruct E3 as (_ & _ & C3 & _ & N3 & _). rewrite C3. exact N3. }
    destruct (IH _ _ Hrest I3) as (E4 & Hts & Hpages).
    split; [eapply extends_trans; eassumption|].
    split; [now constructor|].
    intros r' [<-|Hin]; [|now apply Hpages].
    exists html. eapply extends_output; [exact E4|]. now left.
Qed.

Lemma generate_pages_returns (st st' : SiteBuilder) :
  generate_pages w repr_str st = (Return tt, st') ->
  site_config st < next_ref st ->
  extends st st'
  /\ Forall has_title (products st)
  /\ Forall has_title (posts st)
  /\ (forall r, In r (products st) ->
        exists html,
          In ("products/" ++ slug_of r ++ ".html", Text html) (output st'))
  /\ (forall r, In r (posts st) ->
        exists html,
          In ("blog/" ++ slug_of r ++ ".html", Text html) (output st')).
Proof.
  intros H Hinv. unfold generate_pages in H.
  (* home page *)
  apply bind_return_inv in H. destruct H as (s & s0 & Hg & H).
  unfold get_state in Hg. injection Hg as <- <-.
  apply bind_return_inv in H. destruct H as (c1 & a1 & Ha1 & H).
  apply bind_return_inv in H. destruct H as (h1 & r1 & Hr1 & H).
  apply bind_return_inv in H. destruct H as ([] & s1 & Hw1 & H).
  assert (P1 : bind (alloc [("featured_products", VRows (firstn 4 (products st)));
                            ("recent_posts", VRows (firstn 3 (posts st)))])
                 (fun context =>
                    bind (render_template w repr_str "index.html" context)
                      (fun html => write_file "index.html" (Text html))) st
               = (Return tt, s1)).
  { unfold bind at 1. rewrite Ha1. unfold bind at 1. now rewrite Hr1. }
  apply page_written in P1; [|exact Hinv]. destruct P1 as (E1 & _).
  clear Ha1 Hr1 Hw1.
  assert (I1 : site_config s1 < next_ref s1).
  { destruct E1 as (_ & _ & C & _ & N & _). now rewrite C. }
  (* products index *)
  apply bind_return_inv in H. destruct H as (s & s0 & Hg & H).
  unfold get_state in Hg. injection Hg as <- <-.
  apply bind_return_inv in H. destruct H as (c2 & a2 & Ha2 & H).
  apply bind_return_inv in H. destruct H as (h2 & r2 & Hr2 & H).
  apply bind_return_inv in H. destruct H as ([] & s2 & Hw2 & H).
  assert (P2 : bind (alloc [("products", VRows (products s1))])
                 (fun context =>
                    bind (render_template w repr_str "products_index.html" context)
                      (fun html => write_file "products/index.html" (Text html))) s1
               = (Return tt, s2)).
  { unfold bind at 1. rewrite Ha2. unfold bind at 1. now rewrite Hr2. }
  apply page_written in P2; [|exact I1]. destruct P2 as (E2 & _).
  clear Ha2 Hr2 Hw2.
  assert (I2 : site_config s2 < next_ref s2).
  { destruct E2 as (_ & _ & C & _ & N & _). now rewrite C. }
  (* product pages *)
  apply bind_return_inv in H. destruct H as (s & s0 & Hg & H).
  unfold get_state in Hg. injection Hg as <- <-.
  apply bind_return_inv in H. destruct H as ([] & s3 & Hl3 & H).
  apply detail_loop in Hl3; [|exact I2]. destruct Hl3 as (E3 & T3 & W3).
  assert (I3 : site_config s3 < next_ref s3).
  { destruct E3 as (_ & _ & C & _ & N & _). now rewrite C. }
  (* blog index *)
  apply bind_return_inv in H. destruct H as (s & s0 & Hg & H).
  unfold get_state in Hg. injection Hg as <- <-.
  apply bind_return_inv in H. destruct H as (c4 & a4 & Ha4 & H).
  apply bind_return_inv in H. destruct H as (h4 & r4 & Hr4 & H).
  apply bind_return_inv in H. destruct H as ([] & s4 & Hw4 & H).
  assert (P4 : bind (alloc [("posts", VRows (posts s3))])
                 (fun context =>
                    bind (render_template w repr_str "blog_index.html" context)
                      (fun html => write_file "blog/index.html" (Text html))) s3
               = (Return tt, s4)).
  { unfold bind at 1. rewrite Ha4. unfold bind at 1. now rewrite Hr4. }
  apply page_written in P4; [|exact I3]. destruct P4 as (E4 & _).
  clear Ha4 Hr4 Hw4.
  assert (I4 : site_config s4 < next_ref s4).
  { destruct E4 as (_ & _ & C & _ & N & _). now rewrite C. }
  (* post pages *)
  apply bind_return_inv in H. destruct H as (s & s0 & Hg & H).
  unfold get_state in Hg. injection Hg as <- <-.
  apply detail_loop in H; [|exact I4]. destruct H as (E5 & T5 & W5).
  assert (E12 : extends st s2) by (eapply extends_trans; eassumption).
  assert (E14 : extends st s4).
  { eapply extends_trans; [exact E12|]. eapply extends_trans; eassumption. }
  assert (Pr : products s2 = products st) by apply E12.
  assert (Po : posts s4 = posts st) by apply E14.
  rewrite Pr in *. rewrite Po in *.
  split; [eapply extends_trans; eassumption|].
  split; [exact T3|]. split; [exact T5|]. split; [|exact W5].
  intros r Hin. destruct (W3 r Hin) as [html Hw].
  exists html. eapply extends_output; [|exact Hw].
  eapply extends_trans; eassumption.
Qed.

End Pages.

End PageFacts.

(** ** The claims on the sitemap, the feed and the pages *)

Module FeedClaims.
Import PyStr Site LoadFacts FeedFacts PageFacts.

(** C7.  The sitemap that [generate_sitemap] writes has, in this order,
    the entry of the site root (priority 1.0, daily), one entry for each
    product in the order of the collection (URL
    [<base_url>/products/<slug>.html], priority 0.8, weekly) and one entry
    for each post in the order of the collection (URL
    [<base_url>/blog/<slug>.html], priority 0.7, monthly).  The [lastmod]
    of every entry is the day of the build, whatever the date of the
    record: a text that [strptime] reads as that day.  The sitemap is
    written when the configuration has a [base_url] that the serialiser
    accepts and every record has a title; the day of the build is a date
    of the calendar with a year of four digits. *)
Theorem sitemap_entries_in_order (w : World) (repr_str : string -> string)
    (st : SiteBuilder) (base : value) :
  Dict.get (heap st (site_config st)) "base_url" = Some base ->
  text_ok (Some base) = true ->
  Forall has_title (products st) ->
  Forall has_title (posts st) ->
  PyDate.valid (PyDate.year (today w)) (PyDate.month (today w))
    (PyDate.day (today w)) = true ->
  (1000 <= PyDate.year (today w))%Z ->
  exists urlset,
    generate_sitemap w repr_str st
    = (Return tt, with_output (("sitemap.xml", Xml urlset) :: output st) st)
    /\ urlset
       = Elem "urlset"
           [("xmlns", "http://www.sitemaps.org/schemas/sitemap/0.9")] None
           (url_entry (today w) base "1.0" "daily"
            :: map (fun r =>
                      url_entry (today w)
                        (VStr (py_str repr_str base ++ "/products/"
                               ++ slug_of r ++ ".html"))
                        "0.8" "weekly") (products st)
            ++ map (fun r =>
                      url_entry (today w)
                        (VStr (py_str repr_str base ++ "/blog/"
                               ++ slug_of r ++ ".html"))
                        "0.7" "monthly") (posts st))%list
    /\ List.length (children_of urlset)
       = 1 + List.length (products st) + List.length (posts st)
    /\ Forall (fun u => exists stamp,
                  child_text "lastmod" u = Some (VStr stamp)
                  /\ PyDate.strptime stamp = Return (today w))
         (children_of urlset).
Proof.
  intros Hbase Hok Hp Hq Hv _.
  eexists. split; [|split; [reflexivity|split]].
  - rewrite (generate_sitemap_run w repr_str st base Hbase Hp Hq), Hok.
    reflexivity.
  - cbn [children_of List.length]. rewrite length_app, !length_map. lia.
  - pose proof (DateFacts.strptime_stamp (today w) Hv) as RT.
    cbn [children_of]. constructor; [eexists; split; [reflexivity | exact RT]|].
    apply Forall_app. split; apply Forall_map, Forall_forall;
      intros r _; eexists; (split; [reflexivity | exact RT]).
Qed.


(** The sitemap of the sample: eighteen entries, the first ones of the
    root and of the products, each with the day of the build. *)
Lemma sitemap_sample :
  exists urlset,
    generate_sitemap Sample.world Sample.quote Sample.loaded
    = (Return tt,
       with_output (("sitemap.xml", Xml urlset) :: output Sample.loaded)
         Sample.loaded)
    /\ List.length (children_of urlset) = 18
    /\ map (fun u => (child_text "loc" u, child_text "lastmod" u))
         (firstn 3 (children_of urlset))
       = [(Some (VStr "https://shop.example"), Some (VStr "2024-06-01"));
          (Some (VStr "https://shop.example/products/weird.html"),
           Some (VStr "2024-06-01"));
          (Some (VStr "https://shop.example/products/new-thing.html"),
           Some (VStr "2024-06-01"))]
    /\ Forall (fun u => child_text "lastmod" u = Some (VStr "2024-06-01"))
         (children_of urlset).
Proof.
  destruct (sitemap_entries_in_order Sample.world Sample.quote Sample.loaded
              (VStr "https://shop.example")) as (urlset & Hrun & Hdoc & _).
  - reflexivity.
  - reflexivity.
  - vm_compute. repeat constructor; eexists; reflexivity.
  - vm_compute. repeat constructor; eexists; reflexivity.
  - reflexivity.
  - cbn. lia.
  - exists urlset. split; [exact Hrun|]. rewrite Hdoc.
    split; [reflexivity|]. split; [vm_compute; reflexivity|].
    vm_compute. repeat constructor.
Defined.


End FeedClaims.

(** ** The whole build *)

Module BuildFacts.
Import PyStr Site LoadFacts FeedFacts PageFacts.

Section Build.
Variable w : World.
Variable repr_str : string -> string.

Lemma load_config_returns (st st' : SiteBuilder) :
  load_config w st = (Return tt, st') ->
  exists cfg, site_yml w = Some cfg
    /\ st' = with_site_config (next_ref st) (snd (alloc cfg st)).
Proof.
  unfold load_config. destruct (site_yml w) as [cfg|]; [|discriminate].
  intros H. exists cfg. split; [reflexivity|].
  cbn in H. now injection H as <-.
Qed.

Lemma load_products_returns (st st' : SiteBuilder) :
  load_products w st = (Return tt, st') ->
  exists rows, products_csv w = Some rows
    /\ st' = with_products
               (sort_desc (products st ++ filter (eligible (today w)) rows)%list)
               st.
Proof.
  intros H. pose proof (load_products_cases w st) as C.
  destruct (products_csv w) as [rows|] eqn:E.
  - destruct (forallb status_given rows); [destruct (comparable _)|].
    + rewrite C in H. injection H as <-. eauto.
    + destruct C as (m & s & C). rewrite C in H. discriminate.
    + destruct C as (m & s & C). rewrite C in H. discriminate.
  - rewrite C in H. discriminate.
Qed.

Lemma load_posts_returns (st st' : SiteBuilder) :
  load_posts w st = (Return tt, st') ->
  exists rows, posts_csv w = Some rows
    /\ st' = with_posts
               (sort_desc (posts st ++ filter (eligible (today w)) rows)%list)
               st.
Proof.
  intros H. pose proof (load_posts_cases w st) as C.
  destruct (posts_csv w) as [rows|] eqn:E.
  - destruct (forallb status_given rows); [destruct (comparable _)|].
    + rewrite C in H. injection H as <-. eauto.
    + destruct C as (m & s & C). rewrite C in H. discriminate.
    + destruct C as (m & s & C). rewrite C in H. discriminate.
  - rewrite C in H. discriminate.
Qed.

(** [generate_sitemap] and [generate_rss] return only when the
    configuration has a [base_url]. *)
Lemma generate_sitemap_base (st st' : SiteBuilder) :
  generate_sitemap w repr_str st = (Return tt, st') ->
  exists base, Dict.get (heap st (site_config st)) "base_url" = Some base.
Proof.
  unfold generate_sitemap. cbv zeta.
  unfold bind at 1, get_state at 1. unfold bind at 1, deref at 1.
  unfold bind at 1, lift at 1, getitem at 1.
  destruct (Dict.get (heap st (site_config st)) "base_url") as [base|];
    [eauto | discriminate].
Qed.

Lemma assets_loop (tree : list (string * string)) : forall st,
  exists added,
    for_each tree (fun a => write_file ("assets/" ++ fst a) (Text (snd a))) st
    = (Return tt, with_output (added ++ output st)%list st).
Proof.
  induction tree as [|a tree IH]; intros st; cbn [for_each].
  - exists []. unfold ret, with_output. cbn. now destruct st.
  - destruct (IH (with_output (("assets/" ++ fst a, Text (snd a)) :: output st) st))
      as [added Hrest].
    exists (added ++ [(("assets/" ++ fst a)%string, Text (snd a))])%list.
    unfold bind. unfold write_file at 1. rewrite Hrest.
    unfold with_output. cbn. now rewrite <- app_assoc.
Qed.

Lemma copy_assets_returns (st st' : SiteBuilder) (o : outcome unit) :
  copy_assets w st = (o, st') ->
  exists added, st' = with_output (added ++ output st)%list st.
Proof.
  unfold copy_assets. destruct (assets w) as [tree|].
  - destruct (assets_loop tree st) as [added ->]. intros [= _ <-]. eauto.
  - intros [= _ <-]. exists []. unfold with_output. cbn. now destruct st.
Qed.

Lemma item_links (link : row -> string) (records : list row)
    (head : list Element) :
  Forall (fun c => String.eqb (tag_of c) "item" = false) head ->
  map (child_text "link")
    (children_tagged "item"
       (Elem "channel" [] None
          (head ++ map (fun r => rss_item (link r) r) records)%list))
  = map (fun r => Some (VStr (link r))) records.
Proof.
  intros Hhead. unfold children_tagged. cbn [children_of].
  rewrite filter_app.
  assert (E : filter (fun c => String.eqb (tag_of c) "item") head = []).
  { induction Hhead as [|c head Hc _ IH]; [reflexivity|].
    cbn [filter]. now rewrite Hc. }
  rewrite E. cbn [app].
  induction records as [|r records IH]; [reflexivity|].
  cbn [map filter rss_item tag_of]. cbn [String.eqb Ascii.eqb Bool.eqb].
  cbn [map]. now rewrite IH.
Qed.

(** *** The build returns *)

Lemma bind_return {A B : Type} (m : M A) (k : A -> M B)
    (st st1 : SiteBuilder) (a : A) :
  m st = (Return a, st1) -> bind m k st = k a st1.
Proof. intros H. unfold bind. now rewrite H. Qed.

Lemma page_total (d : Dict.dict value) (name path body : string)
    (st : SiteBuilder) :
  templates w name = Some body ->
  site_config st < next_ref st ->
  exists st',
    bind (alloc d) (fun context =>
      bind (render_template w repr_str name context) (fun html =>
        write_file path (Text html))) st = (Return tt, st')
    /\ extends st st'.
Proof.
  intros Ht Hinv.
  assert (E : exists st',
            bind (alloc d) (fun context =>
              bind (render_template w repr_str name context) (fun html =>
                write_file path (Text html))) st = (Return tt, st')).
  { unfold bind at 1. cbn [alloc]. unfold bind at 1.
    rewrite (RenderFacts.render_template_run w repr_str name body _ _ Ht).
    unfold write_file. eauto. }
  destruct E as [st' E]. exists st'. split; [exact E|].
  now apply page_written in E.
Qed.

Lemma detail_loop_total (key name dir body : string) (records : list row) :
  templates w name = Some body ->
  Forall has_title records ->
  forall st,
  site_config st < next_ref st ->
  exists st',
    for_each records (fun record =>
      bind (alloc [(key, VRow record)]) (fun context =>
      bind (render_template w repr_str name context) (fun html =>
      bind (lift (title_slug record)) (fun slug =>
      write_file (dir ++ slug ++ ".html") (Text html))))) st
    = (Return tt, st')
    /\ extends st st'.
Proof.
  intros Ht Htitles.
  assert (E : forall st, exists st',
            for_each records (fun record =>
              bind (alloc [(key, VRow record)]) (fun context =>
              bind (render_template w repr_str name context) (fun html =>
              bind (lift (title_slug record)) (fun slug =>
              write_file (dir ++ slug ++ ".html") (Text html))))) st
            = (Return tt, st')).
  { induction Htitles as [|r records Hr _ IH]; intros st; cbn [for_each].
    - unfold ret. eauto.
    - unfold bind at 1 2. cbn [alloc]. unfold bind at 1.
      rewrite (RenderFacts.render_template_run w repr_str name body _ _ Ht).
      unfold bind at 1, lift at 1. rewrite (title_slug_has_title r Hr).
      unfold write_file at 1. apply IH. }
  intros st Hinv. destruct (E st) as [st' E'].
  exists st'. split; [exact E'|].
  now apply detail_loop in E'.
Qed.

Lemma generate_pages_total (st : SiteBuilder) :
  (forall name,
     In name ["index.html"; "products_index.html"; "product.html";
              "blog_index.html"; "post.html"] ->
     exists body, templates w name = Some body) ->
  Forall has_title (products st) ->
  Forall has_title (posts st) ->
  site_config st < next_ref st ->
  exists st', generate_pages w repr_str st = (Return tt, st').
Proof.
  intros Ht Tp Tq Hinv. unfold generate_pages.
  destruct (Ht "index.html") as [b1 H1]; [cbn; tauto|].
  destruct (Ht "products_index.html") as [b2 H2]; [cbn; tauto|].
  destruct (Ht "product.html") as [b3 H3]; [cbn; tauto|].
  destruct (Ht "blog_index.html") as [b4 H4]; [cbn; tauto|].
  destruct (Ht "post.html") as [b5 H5]; [cbn; tauto|].
  assert (I : forall a b, extends a b -> site_config b < next_ref b).
  { intros a b (_ & _ & C & _ & N & _). now rewrite C. }
  (* home page *)
  unfold bind at 1, get_state at 1.
  destruct (page_total
              [("featured_products", VRows (firstn 4 (products st)));
               ("recent_posts", VRows (firstn 3 (posts st)))]
              "index.html" "index.html" b1 st H1 Hinv) as (s1 & R1 & E1).
  apply bind_return_inv in R1. destruct R1 as (c1 & a1 & Ra1 & R1).
  apply bind_return_inv in R1. destruct R1 as (h1 & r1 & Rr1 & R1).
  rewrite (bind_return _ _ _ _ _ Ra1), (bind_return _ _ _ _ _ Rr1).
  rewrite (bind_return _ _ _ _ _ R1).
  (* products index *)
  unfold bind at 1, get_state at 1.
  destruct (page_total [("products", VRows (products s1))]
              "products_index.html" "products/index.html" b2 s1 H2
              (I _ _ E1)) as (s2 & R2 & E2).
  apply bind_return_inv in R2. destruct R2 as (c2 & a2 & Ra2 & R2).
  apply bind_return_inv in R2. destruct R2 as (h2 & r2 & Rr2 & R2).
  rewrite (bind_return _ _ _ _ _ Ra2), (bind_return _ _ _ _ _ Rr2).
  rewrite (bind_return _ _ _ _ _ R2).
  assert (E02 : extends st s2) by (eapply extends_trans; eassumption).
  (* product pages *)
  unfold bind at 1, get_state at 1.
  assert (Tp2 : Forall has_title (products s2)).
  { destruct E02 as (P & _). now rewrite P. }
  destruct (detail_loop_total "product" "product.html" "products/" b3
              (products s2) H3 Tp2 s2 (I _ _ E02)) as (s3 & R3 & E3).
  rewrite (bind_return _ _ _ _ _ R3).
  assert (E03 : extends st s3) by (eapply extends_trans; eassumption).
  (* blog index *)
  unfold bind at 1, get_state at 1.
  destruct (page_total [("posts", VRows (posts s3))]
              "blog_index.html" "blog/index.html" b4 s3 H4
              (I _ _ E03)) as (s4 & R4 & E4).
  apply bind_return_inv in R4. destruct R4 as (c4 & a4 & Ra4 & R4).
  apply bind_return_inv in R4. destruct R4 as (h4 & r4 & Rr4 & R4).
  rewrite (bind_return _ _ _ _ _ Ra4), (bind_return _ _ _ _ _ Rr4).
  rewrite (bind_return _ _ _ _ _ R4).
  assert (E04 : extends st s4) by (eapply extends_trans; eassumption).
  (* post pages *)
  unfold bind at 1, get_state at 1.
  assert (Tq4 : Forall has_title (posts s4)).
  { destruct E04 as (_ & Q & _). now rewrite Q. }
  destruct (detail_loop_total "post" "post.html" "blog/" b5
              (posts s4) H5 Tq4 s4 (I _ _ E04)) as (s5 & R5 & E5).
  exists s5. exact R5.
Qed.

(** A build returns when its three data files can be read, the five
    templates exist, every published record has a title, and the
    configuration has a [base_url] and channel fields that can be
    serialised. *)
Lemma build_returns (cfg : Dict.dict value) (product_rows post_rows : list row)
    (base : value) :
  site_yml w = Some cfg ->
  products_csv w = Some product_rows ->
  posts_csv w = Some post_rows ->
  (forall name,
     In name ["index.html"; "products_index.html"; "product.html";
              "blog_index.html"; "post.html"] ->
     exists body, templates w name = Some body) ->
  forallb status_given product_rows = true ->
  forallb status_given post_rows = true ->
  comparable (filter (eligible (today w)) product_rows) = true ->
  comparable (filter (eligible (today w)) post_rows) = true ->
  Forall has_title (filter (eligible (today w)) product_rows) ->
  Forall has_title (filter (eligible (today w)) post_rows) ->
  Dict.get cfg "base_url" = Some base ->
  text_ok (Some (Dict.get_default cfg "title" (VStr ""))) = true ->
  text_ok (Some (Dict.get_default cfg "description" (VStr ""))) = true ->
  text_ok (Some base) = true ->
  exists st', build w repr_str init = (Return tt, st').
Proof.
  intros Hcfg Hp Hq Ht Sp Sq Cp Cq Tp Tq Hbase Ok1 Ok2 Ok3. unfold build.
  unfold bind at 1, clean_output at 1.
  unfold bind at 1, load_config at 1. rewrite Hcfg.
  unfold open_file, bind at 1, ret at 1. unfold bind at 1. cbn [alloc].
  unfold set_site_config at 1.
  match goal with
  | |- context [bind (load_products w) _ ?s] =>
      rewrite (bind_return _ _ _ _ _ (load_products_run w s _ Hp Sp Cp))
  end.
  match goal with
  | |- context [bind (load_posts w) _ ?s] =>
      rewrite (bind_return _ _ _ _ _ (load_posts_run w s _ Hq Sq Cq))
  end.
  match goal with
  | |- exists st', bind (generate_pages w repr_str) _ ?s = _ => set (s3 := s)
  end.
  assert (Tp3 : Forall has_title (products s3)).
  { cbn. eapply Permutation_Forall; [symmetry; apply SortFacts.sort_desc_perm|].
    exact Tp. }
  assert (Tq3 : Forall has_title (posts s3)).
  { cbn. eapply Permutation_Forall; [symmetry; apply SortFacts.sort_desc_perm|].
    exact Tq. }
  assert (I3 : site_config s3 < next_ref s3) by (cbn; lia).
  destruct (generate_pages_total s3 Ht Tp3 Tq3 I3) as [s4 R4].
  rewrite (bind_return _ _ _ _ _ R4).
  apply generate_pages_returns in R4; [|exact I3].
  destruct R4 as ((P4 & Q4 & C4 & H4 & _) & _).
  assert (Hbase4 : Dict.get (heap s4 (site_config s4)) "base_url" = Some base).
  { rewrite C4, H4. cbn. unfold heap_set. cbn. exact Hbase. }
  assert (Hcfg4 : heap s4 (site_config s4) = cfg).
  { rewrite C4, H4. reflexivity. }
  rewrite <- P4 in Tp3. rewrite <- Q4 in Tq3.
  unfold bind at 1.
  rewrite (generate_sitemap_run w repr_str s4 base Hbase4 Tp3 Tq3), Ok3.
  unfold bind at 1.
  rewrite (generate_rss_run repr_str _ base);
    [| exact Hbase4
     | cbn [posts with_output];
       rewrite <- (firstn_skipn 10 (posts s4)) in Tq3;
       now apply Forall_app in Tq3 ].
  cbn [heap site_config with_output]. rewrite Hcfg4, Ok1, Ok2, Ok3.
  cbn [andb].
  match goal with
  | |- exists st', copy_assets w ?s = _ =>
      unfold copy_assets; destruct (assets w) as [tree|];
        [destruct (assets_loop tree s) as [added ->]; eauto
        | unfold ret; eauto]
  end.
Qed.

End Build.

End BuildFacts.

Module BuildClaims.
Import PyStr Site LoadFacts FeedFacts PageFacts BuildFacts.

(** C6.  After a build, the URL of every record in the sitemap and the
    link of every item of the feed are made of the slug of the record's
    title, and the page of the record has been written under the same
    slug: [products/<slug>.html] for a product, [blog/<slug>.html] for a
    post.  So every URL of a detail page in [sitemap.xml] or [rss.xml] is
    the base URL followed by the path of a page that the build wrote. *)
Theorem feed_urls_have_pages (w : World) (repr_str : string -> string)
    (st' : SiteBuilder) :
  build w repr_str init = (Return tt, st') ->
  exists base sitemap channel,
    In ("sitemap.xml", Xml sitemap) (output st')
    /\ In ("rss.xml", Xml (Elem "rss" [("version", "2.0")] None [channel]))
         (output st')
    /\ map (child_text "loc") (tl (children_of sitemap))
       = (map (fun r => Some (VStr (py_str repr_str base ++ "/products/"
                                    ++ slug_of r ++ ".html")))
            (products st')
          ++ map (fun r => Some (VStr (py_str repr_str base ++ "/blog/"
                                       ++ slug_of r ++ ".html")))
               (posts st'))%list
    /\ map (child_text "link") (children_tagged "item" channel)
       = map (fun r => Some (VStr (py_str repr_str base ++ "/blog/"
                                   ++ slug_of r ++ ".html")))
           (firstn 10 (posts st'))
    /\ (forall r, In r (products st') ->
          exists html,
            In ("products/" ++ slug_of r ++ ".html", Text html) (output st'))
    /\ (forall r, In r (posts st') ->
          exists html,
            In ("blog/" ++ slug_of r ++ ".html", Text html) (output st'))
    /\ (forall url,
          In (Some (VStr url))
             (map (child_text "loc") (tl (children_of sitemap))
              ++ map (child_text "link") (children_tagged "item" channel))%list ->
          exists path html,
            url = py_str repr_str base ++ "/" ++ path
            /\ In (path, Text html) (output st')).
Proof.
  intros H. unfold build in H.
  apply bind_return_inv in H. destruct H as ([] & s0 & H0 & H).
  unfold clean_output in H0. injection H0 as <-.
  apply bind_return_inv in H. destruct H as ([] & s1 & H1 & H).
  apply load_config_returns in H1. destruct H1 as (cfg & _ & ->).
  apply bind_return_inv in H. destruct H as ([] & s2 & H2 & H).
  apply load_products_returns in H2. destruct H2 as (prows & _ & ->).
  apply bind_return_inv in H. destruct H as ([] & s3 & H3 & H).
  apply load_posts_returns in H3. destruct H3 as (qrows & _ & ->).
  apply bind_return_inv in H. destruct H as ([] & s4 & H4 & H).
  apply generate_pages_returns in H4; [|cbn; lia].
  destruct H4 as (E4 & Tp & Tq & Wp & Wq).
  destruct E4 as (P4 & Q4 & C4 & Hp4 & N4 & [added4 O4]).
  rewrite <- P4 in Tp, Wp. rewrite <- Q4 in Tq, Wq.
  clear P4 Q4 Hp4 N4 O4 added4.
  apply bind_return_inv in H. destruct H as ([] & s5 & H5 & H).
  destruct (generate_sitemap_base _ _ _ _ H5) as [base Hbase].
  rewrite (generate_sitemap_run w repr_str s4 base Hbase Tp Tq) in H5.
  destruct (text_ok (Some base)); [|discriminate].
  apply (f_equal snd) in H5. cbn [snd] in H5. subst s5.
  apply bind_return_inv in H. destruct H as ([] & s6 & H6 & H).
  rewrite (generate_rss_run repr_str _ base) in H6;
    [| exact Hbase
     | cbn [posts with_output];
       rewrite <- (firstn_skipn 10 (posts s4)) in Tq;
       now apply Forall_app in Tq ].
  cbv zeta in H6.
  match type of H6 with
  | (if ?c then _ else _) = _ => destruct c; [|discriminate]
  end.
  apply (f_equal snd) in H6. cbn [snd] in H6. subst s6.
  apply copy_assets_returns in H. destruct H as [added ->].
  cbn [products posts output with_output site_config heap] in *.
  unfold sitemap_doc, rss_doc in *.
  set (product_url := fun r => py_str repr_str base ++ "/products/"
                               ++ slug_of r ++ ".html").
  set (post_url := fun r => py_str repr_str base ++ "/blog/"
                            ++ slug_of r ++ ".html").
  assert (Hloc : map (child_text "loc")
                   (map (fun r => url_entry (today w) (VStr (product_url r))
                                     "0.8" "weekly") (products s4)
                    ++ map (fun r => url_entry (today w) (VStr (post_url r))
                                       "0.7" "monthly") (posts s4))
                 = (map (fun r => Some (VStr (product_url r))) (products s4)
                    ++ map (fun r => Some (VStr (post_url r))) (posts s4))%list).
  { rewrite map_app, !map_map. reflexivity. }
  assert (Hlink : map (child_text "link")
                    (children_tagged "item"
                       (Elem "channel" [] None
                          (leaf "title"
                             (Dict.get_default (heap s4 (site_config s4))
                                "title" (VStr ""))
                           :: leaf "description"
                                (Dict.get_default (heap s4 (site_config s4))
                                   "description" (VStr ""))
                           :: leaf "link" base
                           :: map (fun r => rss_item (post_url r) r)
                                (firstn 10 (posts s4)))))
                  = map (fun r => Some (VStr (post_url r)))
                      (firstn 10 (posts s4))).
  { apply (item_links post_url (firstn 10 (posts s4)) [_; _; _]).
    repeat constructor. }
  subst product_url post_url. cbv beta in Hloc, Hlink.
  match goal with
  | |- context [(added ++ ?a :: ?b :: output s4)%list] =>
      set (final := (added ++ a :: b :: output s4)%list) in *
  end.
  assert (Hout : forall f, In f (output s4) -> In f final)
    by (intros f Hf; apply in_or_app; right; right; right; exact Hf).
  assert (Wp' : forall r, In r (products s4) ->
            exists html,
              In ("products/" ++ slug_of r ++ ".html", Text html) final)
    by (intros r Hr; destruct (Wp r Hr) as [html Hh]; eauto).
  assert (Wq' : forall r, In r (posts s4) ->
            exists html, In ("blog/" ++ slug_of r ++ ".html", Text html) final)
    by (intros r Hr; destruct (Wq r Hr) as [html Hh]; eauto).
  eexists base, _, _.
  split; [apply in_or_app; right; right; left; reflexivity|].
  split; [apply in_or_app; right; left; reflexivity|].
  cbn [children_of tl].
  split; [exact Hloc|]. split; [exact Hlink|].
  split; [exact Wp'|]. split; [exact Wq'|].
  intros url Hin. cbn [children_of tl] in Hin. rewrite Hloc, Hlink in Hin.
  apply in_app_or in Hin. destruct Hin as [Hin|Hin];
    [apply in_app_or in Hin; destruct Hin as [Hin|Hin]|].
  - apply in_map_iff in Hin. destruct Hin as (r & [= <-] & Hr).
    destruct (Wp' r Hr) as [html Hh].
    exists ("products/" ++ slug_of r ++ ".html"), html. split; [reflexivity|exact Hh].
  - apply in_map_iff in Hin. destruct Hin as (r & [= <-] & Hr).
    destruct (Wq' r Hr) as [html Hh].
    exists ("blog/" ++ slug_of r ++ ".html"), html. split; [reflexivity|exact Hh].
  - apply in_map_iff in Hin. destruct Hin as (r & [= <-] & Hr).
    assert (Hr' : In r (posts s4)).
    { rewrite <- (firstn_skipn 10 (posts s4)). apply in_or_app. now left. }
    destruct (Wq' r Hr') as [html Hh].
    exists ("blog/" ++ slug_of r ++ ".html"), html. split; [reflexivity|exact Hh].
Qed.

Lemma feed_urls_sample :
  exists st',
    build Sample.world Sample.quote init = (Return tt, st')
    /\ exists html,
         In ("products/new-thing.html", Text html) (output st').
Proof.
  assert (Hb : build Sample.world Sample.quote init
               = (Return tt, snd (build Sample.world Sample.quote init)))
    by (vm_compute; reflexivity).
  exists (snd (build Sample.world Sample.quote init)).
  split; [exact Hb|].
  destruct (feed_urls_have_pages Sample.world Sample.quote _ Hb)
    as (base & sitemap & channel & _ & _ & _ & _ & Wp & _).
  destruct (Wp (full [("title", "New Thing!"); ("status", "published");
                      ("publish_date", "2024-03-01")])) as [html Hh].
  - vm_compute. tauto.
  - exists html. exact Hh.
Defined.

End BuildClaims.

(* ================================================================= *)
(** * Further properties of the builder *)

(** ** What page generation writes *)

Module PageRun.
Import PyStr Site Written RenderFacts FeedFacts PageFacts BuildFacts.

Section Run.
Variable w : World.
Variable repr_str : string -> string.

Lemma page_eq {B : Type} (d : Dict.dict value) (name path body : string)
    (k : unit -> M B) (st : SiteBuilder) :
  templates w name = Some body ->
  bind (alloc d) (fun context =>
    bind (render_template w repr_str name context) (fun html =>
      bind (write_file path (Text html)) k)) st
  = k tt (after_page repr_str d body path st).
Proof.
  intros Ht. unfold bind at 1. cbn [alloc]. unfold bind at 1.
  rewrite (render_template_run w repr_str name body _ _ Ht).
  cbv zeta. unfold bind at 1, write_file at 1. reflexivity.
Qed.

Lemma after_page_spec (d : Dict.dict value) (body path : string)
    (st : SiteBuilder) :
  allocated st ->
  extends st (after_page repr_str d body path st)
  /\ allocated (after_page repr_str d body path st)
  /\ output (after_page repr_str d body path st)
     = (path, Text (page_text repr_str body d (heap st (site_config st))))
       :: output st.
Proof.
  unfold allocated, after_page, extends, page_text, heap_set. cbn.
  intros Hinv.
  rewrite Nat.eqb_refl.
  destruct (Nat.eqb_spec (site_config st) (next_ref st)) as [E|_]; [lia|].
  repeat split; try lia.
  now exists [(path, Text (substitute repr_str body
                             (Dict.update d (heap st (site_config st)))))].
Qed.

Lemma details_eq (key name dir body : string) (records : list row) :
  templates w name = Some body ->
  Forall has_title records ->
  forall st,
  for_each records (fun record =>
    bind (alloc [(key, VRow record)]) (fun context =>
    bind (render_template w repr_str name context) (fun html =>
    bind (lift (title_slug record)) (fun slug =>
    write_file (dir ++ slug ++ ".html") (Text html))))) st
  = (Return tt, after_details repr_str body key dir records st).
Proof.
  intros Ht Htitles. unfold after_details.
  induction Htitles as [|r records Hr _ IH]; intros st; cbn [for_each fold_left].
  - reflexivity.
  - unfold bind at 1 2. cbn [alloc]. unfold bind at 1.
    rewrite (render_template_run w repr_str name body _ _ Ht).
    cbv zeta. unfold bind at 1, lift at 1. rewrite (title_slug_has_title r Hr).
    unfold write_file at 1. apply IH.
Qed.

Lemma after_details_spec (body key dir : string) (records : list row) :
  forall st,
  allocated st ->
  extends st (after_details repr_str body key dir records st)
  /\ allocated (after_details repr_str body key dir records st)
  /\ output (after_details repr_str body key dir records st)
     = (rev (map (detail_page repr_str body key dir (heap st (site_config st)))
               records)
        ++ output st)%list.
Proof.
  unfold after_details.
  induction records as [|r records IH]; intros st Hinv; cbn [fold_left map rev].
  - split; [now apply extends_refl|]. split; [exact Hinv | reflexivity].
  - destruct (after_page_spec [(key, VRow r)] body (dir ++ slug_of r ++ ".html")
                st Hinv) as (E1 & I1 & O1).
    destruct (IH _ I1) as (E2 & I2 & O2).
    split; [eapply extends_trans; eassumption|]. split; [exact I2|].
    rewrite O2, O1.
    destruct E1 as (_ & _ & C1 & H1 & _). rewrite C1, H1.
    rewrite <- app_assoc. reflexivity.
Qed.

(** The loop stops at the first record without a title: its page has
    been rendered but is not written. *)
Lemma details_untitled (key name dir body : string) (before after : list row)
    (r : row) :
  templates w name = Some body ->
  Forall has_title before ->
  Dict.get r "title" = None ->
  forall st,
  allocated st ->
  exists st',
    for_each (before ++ r :: after)%list (fun record =>
      bind (alloc [(key, VRow record)]) (fun context =>
      bind (render_template w repr_str name context) (fun html =>
      bind (lift (title_slug record)) (fun slug =>
      write_file (dir ++ slug ++ ".html") (Text html))))) st
    = (Raise (KeyError "title"), st')
    /\ output st'
       = (rev (map (detail_page repr_str body key dir
                      (heap st (site_config st))) before)
          ++ output st)%list.
Proof.
  intros Ht Htitles Hnone.
  induction Htitles as [|b before Hb _ IH]; intros st Hinv;
    cbn [app for_each map rev].
  - unfold bind at 1 2. cbn [alloc]. unfold bind at 1.
    rewrite (render_template_run w repr_str name body _ _ Ht).
    cbv zeta. unfold bind at 1, lift at 1.
    unfold title_slug, getitem. rewrite Hnone. cbn [bind_outcome].
    eexists. split; reflexivity.
  - unfold bind at 1 2. cbn [alloc]. unfold bind at 1.
    rewrite (render_template_run w repr_str name body _ _ Ht).
    cbv zeta. unfold bind at 1, lift at 1. rewrite (title_slug_has_title b Hb).
    unfold write_file at 1.
    change (with_output _ _)
      with (after_page repr_str [(key, VRow b)] body
              (dir ++ slug_of b ++ ".html") st).
    destruct (after_page_spec [(key, VRow b)] body (dir ++ slug_of b ++ ".html")
                st Hinv) as (E1 & I1 & O1).
    destruct (IH _ I1) as (st' & R & O).
    exists st'. split; [exact R|].
    rewrite O, O1. destruct E1 as (_ & _ & C1 & H1 & _). rewrite C1, H1.
    rewrite <- app_assoc. reflexivity.
Qed.

Lemma generate_pages_eq (b1 b2 b3 b4 b5 : string) (st : SiteBuilder) :
  templates w "index.html" = Some b1 ->
  templates w "products_index.html" = Some b2 ->
  templates w "product.html" = Some b3 ->
  templates w "blog_index.html" = Some b4 ->
  templates w "post.html" = Some b5 ->
  Forall has_title (products st) ->
  Forall has_title (posts st) ->
  allocated st ->
  exists st',
    generate_pages w repr_str st = (Return tt, st')
    /\ extends st st'
    /\ output st'
       = (pages_written repr_str b1 b2 b3 b4 b5 (heap st (site_config st))
            (products st) (posts st)
          ++ output st)%list.
Proof.
  intros H1 H2 H3 H4 H5 Tp Tq Hinv. unfold generate_pages.
  unfold bind at 1, get_state at 1. rewrite (page_eq _ _ _ b1 _ _ H1).
  set (s1 := after_page _ _ b1 _ st).
  destruct (after_page_spec
              [("featured_products", VRows (firstn 4 (products st)));
               ("recent_posts", VRows (firstn 3 (posts st)))]
              b1 "index.html" st Hinv) as (E1 & I1 & O1).
  fold s1 in E1, I1, O1.
  unfold bind at 1, get_state at 1. rewrite (page_eq _ _ _ b2 _ _ H2).
  set (s2 := after_page _ _ b2 _ s1).
  destruct (after_page_spec [("products", VRows (products s1))]
              b2 "products/index.html" s1 I1) as (E2 & I2 & O2).
  fold s2 in E2, I2, O2.
  assert (E02 : extends st s2) by (eapply extends_trans; eassumption).
  unfold bind at 1, get_state at 1. unfold bind at 1.
  assert (Tp2 : Forall has_title (products s2)).
  { destruct E02 as (P & _). now rewrite P. }
  rewrite (details_eq "product" "product.html" "products/" b3 _ H3 Tp2).
  set (s3 := after_details _ b3 _ _ _ s2).
  destruct (after_details_spec b3 "product" "products/" (products s2) s2 I2)
    as (E3 & I3 & O3).
  fold s3 in E3, I3, O3.
  assert (E03 : extends st s3) by (eapply extends_trans; eassumption).
  unfold bind at 1, get_state at 1. rewrite (page_eq _ _ _ b4 _ _ H4).
  set (s4 := after_page _ _ b4 _ s3).
  destruct (after_page_spec [("posts", VRows (posts s3))]
              b4 "blog/index.html" s3 I3) as (E4 & I4 & O4).
  fold s4 in E4, I4, O4.
  assert (E04 : extends st s4) by (eapply extends_trans; eassumption).
  unfold bind at 1, get_state at 1.
  assert (Tq4 : Forall has_title (posts s4)).
  { destruct E04 as (_ & Q & _). now rewrite Q. }
  rewrite (details_eq "post" "post.html" "blog/" b5 _ H5 Tq4).
  set (s5 := after_details _ b5 _ _ _ s4).
  destruct (after_details_spec b5 "post" "blog/" (posts s4) s4 I4)
    as (E5 & I5 & O5).
  fold s5 in E5, I5, O5.
  exists s5. split; [reflexivity|].
  split; [eapply extends_trans; eassumption|].
  rewrite O5, O4, O3, O2, O1.
  destruct E1 as (P1 & Q1 & C1 & G1 & _).
  destruct E02 as (P2 & Q2 & C2 & G2 & _).
  destruct E03 as (P3 & Q3 & C3 & G3 & _).
  destruct E04 as (P4 & Q4 & C4 & G4 & _).
  rewrite ?C1, ?C2, ?C3, ?C4, ?G1, ?G2, ?G3, ?G4, ?P1, ?P2, ?P3, ?P4,
    ?Q1, ?Q2, ?Q3, ?Q4.
  unfold pages_written, detail_page.
  rewrite <- !app_assoc. cbn [app]. rewrite <- !app_assoc. reflexivity.
Qed.

(** *** From the start of a build to the generation *)



Lemma assets_eq (st : SiteBuilder) :
  copy_assets w st
  = (Return tt, with_output (assets_written (assets w) ++ output st)%list st).
Proof.
  unfold copy_assets, assets_written. destruct (assets w) as [tree|].
  - revert st. induction tree as [|a tree IH]; intros st; cbn [for_each map rev].
    + unfold ret, with_output. cbn. now destruct st.
    + unfold bind. unfold write_file at 1. rewrite IH.
      unfold with_output. cbn. now rewrite <- app_assoc.
  - unfold ret, with_output. cbn. now destruct st.
Qed.

End Run.

End PageRun.

(** ** Paths and the latest write *)

Module WrittenFacts.
Import PyStr Site Written PyStrFacts.

Lemma find_app_none {A : Type} (f : A -> bool) (l1 l2 : list A) :
  find f l1 = None -> find f (l1 ++ l2) = find f l2.
Proof.
  induction l1 as [|x l1 IH]; cbn [find app]; [reflexivity|].
  destruct (f x); [discriminate | exact IH].
Qed.

Lemma find_none {A : Type} (f : A -> bool) (l : list A) :
  (forall x, In x l -> f x = false) -> find f l = None.
Proof.
  induction l as [|x l IH]; cbn [find]; intros H; [reflexivity|].
  rewrite (H x) by now left. apply IH. intros y Hy. apply H. now right.
Qed.

Lemma append_cancel_l (c a b : string) : c ++ a = c ++ b -> a = b.
Proof.
  induction c as [|x c IH]; cbn [append]; [trivial|].
  intros [= H]. now apply IH.
Qed.

Lemma append_cancel_r (a : string) : forall b c, a ++ c = b ++ c -> a = b.
Proof.
  induction a as [|x a IH]; intros [|y b] c H; cbn [append] in H.
  - reflexivity.
  - exfalso. apply (f_equal String.length) in H.
    cbn [String.length] in H. rewrite length_append in H. lia.
  - exfalso. apply (f_equal String.length) in H.
    cbn [String.length] in H. rewrite length_append in H. lia.
  - injection H as -> H. f_equal. now apply IH with c.
Qed.

(** Two records have the same page path exactly when they have the same
    slug. *)
Lemma detail_path_inj (dir a b : string) :
  dir ++ a ++ ".html" = dir ++ b ++ ".html" -> a = b.
Proof.
  intros H. apply append_cancel_l in H. now apply append_cancel_r in H.
Qed.

Lemma file_at_app_none (path : string) (l1 l2 : list (string * file)) :
  (forall pf, In pf l1 -> fst pf <> path) ->
  file_at path (l1 ++ l2) = file_at path l2.
Proof.
  intros H. unfold file_at. rewrite find_app_none; [reflexivity|].
  apply find_none. intros pf Hin. apply String.eqb_neq. now apply H.
Qed.

Lemma file_at_cons_ne (path p : string) (f : file)
    (l : list (string * file)) :
  p <> path -> file_at path ((p, f) :: l) = file_at path l.
Proof.
  intros H. unfold file_at. cbn [find fst].
  apply String.eqb_neq in H. now rewrite H.
Qed.

Lemma file_at_head (path : string) (f : file) (l : list (string * file)) :
  file_at path ((path, f) :: l) = Some f.
Proof. unfold file_at. cbn [find fst snd]. now rewrite String.eqb_refl. Qed.

End WrittenFacts.

(** ** Page generation and the whole build *)

Module PageProps.
Import PyStr Site Written RenderFacts FeedFacts PageFacts BuildFacts PageRun
  WrittenFacts.



(** X2.  After [generate_pages], the file at the path of a product is the
    page of the last product of the collection that has this slug: a later
    product with the same slug replaces the page of an earlier one, and a
    product whose slug is [index] replaces the products index. *)
Theorem last_product_page_stays (w : World) (repr_str : string -> string)
    (b1 b2 b3 b4 b5 : string) (st : SiteBuilder)
    (before after : list row) (r : row) :
  templates w "index.html" = Some b1 ->
  templates w "products_index.html" = Some b2 ->
  templates w "product.html" = Some b3 ->
  templates w "blog_index.html" = Some b4 ->
  templates w "post.html" = Some b5 ->
  Forall has_title (products st) ->
  Forall has_title (posts st) ->
  allocated st ->
  products st = (before ++ r :: after)%list ->
  (forall r', In r' after -> slug_of r' <> slug_of r) ->
  file_at ("products/" ++ slug_of r ++ ".html")
    (output (snd (generate_pages w repr_str st)))
  = Some (Text (page_text repr_str b3 [("product", VRow r)]
                  (heap st (site_config st)))).
Proof.
  intros H1 H2 H3 H4 H5 Tp Tq Hinv Hsplit Hlast.
  destruct (generate_pages_eq w repr_str b1 b2 b3 b4 b5 st
              H1 H2 H3 H4 H5 Tp Tq Hinv) as (st' & R & _ & O).
  rewrite R. cbn [snd]. rewrite O. unfold pages_written.
  rewrite <- app_assoc. rewrite file_at_app_none.
  2:{ intros pf Hin. apply in_rev, in_map_iff in Hin.
      destruct Hin as (q & <- & _). cbn. discriminate. }
  cbn [app]. rewrite file_at_cons_ne by (cbn; discriminate).
  rewrite Hsplit, map_app. cbn [map]. rewrite rev_app_distr. cbn [rev].
  rewrite <- !app_assoc. rewrite file_at_app_none.
  2:{ intros pf Hin. apply in_rev, in_map_iff in Hin.
      destruct Hin as (r' & <- & Hr'). cbn [detail_page fst].
      intros E. apply detail_path_inj in E. now apply (Hlast r'). }
  cbn [app]. unfold detail_page at 1. apply file_at_head.
Qed.

Lemma last_product_page_sample :
  file_at "products/twin.html"
    (output (snd (generate_pages Sample.world Sample.quote Sample.loaded)))
  = Some (Text (page_text Sample.quote
                  "<h1>{{ title }}</h1><p>{{ description }}</p>"
                  [("product",
                    VRow (full [("title", "Twin"); ("status", "published");
                                ("publish_date", "2024-03-01")]))]
                  Sample.config)).
Proof.
  apply (last_product_page_stays Sample.world Sample.quote _ _ _ _ _
           Sample.loaded
           [ full [("title", "Weird"); ("status", "PUBLISHED");
                   ("publish_date", "next week")];
             full [("title", "New Thing!"); ("status", "published");
                   ("publish_date", "2024-03-01")] ]
           [ full [("title", "Old Thing"); ("status", "Published");
                   ("publish_date", "2024-01-01")];
             full [("title", "Undated"); ("status", "published");
                   ("publish_date", "")] ]
           (full [("title", "Twin"); ("status", "published");
                  ("publish_date", "2024-03-01")])
           eq_refl eq_refl eq_refl eq_refl eq_refl).
  - vm_compute. repeat constructor; eexists; reflexivity.
  - vm_compute. repeat constructor; eexists; reflexivity.
  - unfold allocated. vm_compute. lia.
  - reflexivity.
  - intros r' [<-|[<-|[]]]; vm_compute; discriminate.
Defined.

(** X3.  A product without a title stops [generate_pages] with
    [KeyError('title')]: the home page, the products index and the pages
    of the products before it have been written, its own page and nothing
    of the blog has. *)
Theorem untitled_product_stops_pages (w : World)
    (repr_str : string -> string) (b1 b2 b3 : string) (st : SiteBuilder)
    (before after : list row) (r : row) :
  templates w "index.html" = Some b1 ->
  templates w "products_index.html" = Some b2 ->
  templates w "product.html" = Some b3 ->
  allocated st ->
  products st = (before ++ r :: after)%list ->
  Forall has_title before ->
  Dict.get r "title" = None ->
  exists st',
    generate_pages w repr_str st = (Raise (KeyError "title"), st')
    /\ output st'
       = (rev (map (detail_page repr_str b3 "product" "products/"
                      (heap st (site_config st))) before)
          ++ [("products/index.html",
               Text (page_text repr_str b2 [("products", VRows (products st))]
                       (heap st (site_config st))));
              ("index.html",
               Text (page_text repr_str b1
                       [("featured_products", VRows (firstn 4 (products st)));
                        ("recent_posts", VRows (firstn 3 (posts st)))]
                       (heap st (site_config st))))]
          ++ output st)%list.
Proof.
  intros H1 H2 H3 Hinv Hsplit Tb Hnone. unfold generate_pages.
  unfold bind at 1, get_state at 1. rewrite (page_eq _ _ _ _ _ b1 _ _ H1).
  set (s1 := after_page _ _ b1 _ st).
  destruct (after_page_spec repr_str
              [("featured_products", VRows (firstn 4 (products st)));
               ("recent_posts", VRows (firstn 3 (posts st)))]
              b1 "index.html" st Hinv) as (E1 & I1 & O1).
  fold s1 in E1, I1, O1.
  unfold bind at 1, get_state at 1. rewrite (page_eq _ _ _ _ _ b2 _ _ H2).
  set (s2 := after_page _ _ b2 _ s1).
  destruct (after_page_spec repr_str [("products", VRows (products s1))]
              b2 "products/index.html" s1 I1) as (E2 & I2 & O2).
  fold s2 in E2, I2, O2.
  assert (E02 : extends st s2) by (eapply extends_trans; eassumption).
  unfold bind at 1, get_state at 1. unfold bind at 1.
  assert (P2 : products s2 = (before ++ r :: after)%list).
  { destruct E02 as (P & _). now rewrite P. }
  rewrite P2.
  destruct (details_untitled w repr_str "product" "product.html" "products/"
              b3 before after r H3 Tb Hnone s2 I2) as (st' & R & O).
  rewrite R. exists st'. split; [reflexivity|].
  rewrite O, O2, O1.
  destruct E1 as (P1 & Q1 & C1 & G1 & _).
  destruct E02 as (P02 & Q02 & C02 & G02 & _).
  rewrite ?C1, ?C02, ?G1, ?G02, ?P1. reflexivity.
Qed.

Lemma untitled_product_sample :
  exists st',
    generate_pages Sample.world Sample.quote
      (with_products [ full [("title", "Lamp")]; full [("name", "Chair")];
                       full [("title", "Desk")] ] Sample.loaded)
    = (Raise (KeyError "title"), st')
    /\ map fst (output st')
       = ["products/lamp.html"; "products/index.html"; "index.html"].
Proof.
  destruct (untitled_product_stops_pages Sample.world Sample.quote _ _ _
              (with_products [ full [("title", "Lamp")];
                               full [("name", "Chair")];
                               full [("title", "Desk")] ] Sample.loaded)
              [ full [("title", "Lamp")] ] [ full [("title", "Desk")] ]
              (full [("name", "Chair")]) eq_refl eq_refl eq_refl)
    as (st' & R & O).
  - unfold allocated. vm_compute. lia.
  - reflexivity.
  - repeat constructor. eexists. reflexivity.
  - reflexivity.
  - exists st'. split; [exact R|]. rewrite O. reflexivity.
Defined.



End PageProps.

(* ================================================================= *)
(** ** The build as a whole *)

Module BuildProps.
Import PyStr Site Written PageFacts BuildFacts PageRun WrittenFacts.



(** X6.  When one of the three data files cannot be opened, [build]
    raises [FileNotFoundError] for the first of them in the order
    [site.yml], [products.csv], [posts.csv], whatever the builder held
    before; the output directory has been emptied by then and nothing has
    been written to it.  (When it is [posts.csv] that cannot be opened,
    the loader of the products has run before: it is taken to return.) *)
Theorem build_unreadable_data (w : World) (repr_str : string -> string)
    (st : SiteBuilder) :
  site_yml w = None \/ products_csv w = None \/ posts_csv w = None ->
  (forall cfg rows,
     site_yml w = Some cfg -> products_csv w = Some rows ->
     forallb status_given rows = true
     /\ comparable (products st ++ filter (eligible (today w)) rows) = true) ->
  exists st',
    build w repr_str st
    = (Raise (FileNotFoundError
                match site_yml w, products_csv w with
                | None, _ => "data/site.yml"
                | Some _, None => "data/products.csv"
                | Some _, Some _ => "data/posts.csv"
                end), st')
    /\ output st' = [].
Proof.
  intros H Hload. unfold build. unfold bind at 1, clean_output at 1.
  unfold bind at 1, load_config at 1.
  destruct (site_yml w) as [cfg|] eqn:Ec.
  - unfold open_file, bind at 1, ret at 1. unfold bind at 1. cbn [alloc].
    unfold set_site_config at 1.
    destruct (products_csv w) as [prows|] eqn:Ep.
    + destruct (Hload cfg prows eq_refl eq_refl) as [Sp Cp].
      match goal with
      | |- context [bind (load_products w) _ ?s] =>
          rewrite (bind_return _ _ _ _ _
                     (LoadFacts.load_products_run w s _ Ep Sp Cp))
      end.
      destruct (posts_csv w) as [qrows|] eqn:Eq.
      * destruct H as [H|[H|H]]; discriminate.
      * unfold bind at 1. rewrite (LoadFacts.load_posts_unreadable w _ Eq).
        eexists. split; reflexivity.
    + unfold bind at 1. rewrite (LoadFacts.load_products_unreadable w _ Ep).
      eexists. split; reflexivity.
  - unfold open_file, bind at 1, raise at 1. eexists. split; reflexivity.
Qed.

Lemma build_unreadable_data_sample :
  exists st',
    build Cases.no_posts_file Sample.quote Cases.built_once
    = (Raise (FileNotFoundError "data/posts.csv"), st')
    /\ output st' = [].
Proof.
  apply (build_unreadable_data Cases.no_posts_file Sample.quote
           Cases.built_once).
  - right. right. reflexivity.
  - intros cfg rows _ [= <-]. split; vm_compute; reflexivity.
Defined.



(** X8.  [copy_assets] returns in every state, also when there is no
    assets directory, and it writes below [assets/] only: the file at a
    path that does not start with [assets/] is the one that was there
    before, and the collections are untouched. *)
Theorem copy_assets_writes_below_assets (w : World) (st : SiteBuilder)
    (path : string) :
  String.prefix "assets/" path = false ->
  exists st',
    copy_assets w st = (Return tt, st')
    /\ file_at path (output st') = file_at path (output st)
    /\ products st' = products st
    /\ posts st' = posts st.
Proof.
  intros Hpath. rewrite assets_eq. eexists. split; [reflexivity|].
  cbn [output products posts with_output]. split; [|split; reflexivity].
  apply file_at_app_none. intros pf Hin Epath.
  unfold assets_written in Hin. destruct (assets w) as [tree|]; [|contradiction].
  apply in_rev, in_map_iff in Hin. destruct Hin as (a & Ea & _).
  subst pf. cbn [fst] in Epath.
  rewrite <- Epath, RenderFacts.prefix_append in Hpath. discriminate.
Qed.

Lemma copy_assets_sample :
  exists st',
    copy_assets Sample.world Cases.built_once = (Return tt, st')
    /\ file_at "index.html" (output st')
       = file_at "index.html" (output Cases.built_once).
Proof.
  destruct (copy_assets_writes_below_assets Sample.world Cases.built_once
              "index.html" eq_refl) as (st' & R & F & _).
  exists st'. split; [exact R | exact F].
Defined.

End BuildProps.

(* ================================================================= *)
(** ** The shape of the slugs *)

Module SlugShapeFacts.
Import PyStr PyStrFacts Slug SlugShape.

Lemma slug_char_lower (c : ascii) : slug_char c = true -> lower_char c = c.
Proof.
  destruct c as [[] [] [] [] [] [] [] []]; try reflexivity; discriminate.
Qed.

Lemma hyphens_ok_cons (e : bool) (c : ascii) (r : string) :
  hyphens_ok e (String c r)
  = if slug_char c then hyphens_ok e r
    else Ascii.eqb c "-"
         && match r with
            | String d _ => slug_char d
            | EmptyString => e
            end
         && hyphens_ok e r.
Proof. reflexivity. Qed.

Lemma hyphens_ok_tail (e : bool) (c : ascii) (r : string) :
  hyphens_ok e (String c r) = true -> hyphens_ok e r = true.
Proof.
  cbn [hyphens_ok]. destruct (slug_char c); [trivial|].
  intros H. now apply Bool.andb_true_iff in H.
Qed.

Lemma hyphens_ok_head (e : bool) (c : ascii) (r : string) :
  hyphens_ok e (String c r) = true -> slug_char c = true \/ c = "-"%char.
Proof.
  cbn [hyphens_ok]. destruct (slug_char c); [now left|].
  intros H. apply Bool.andb_true_iff in H. destruct H as [H _].
  apply Bool.andb_true_iff in H. destruct H as [H _].
  right. now apply Ascii.eqb_eq.
Qed.

(** What [re.sub] yields has its hyphens one at a time; inside a match it
    goes on with a character of the class. *)
Lemma re_sub_from_shape (u : string) : forall b,
  hyphens_ok true (re_sub_from b u) = true
  /\ (b = true ->
      match re_sub_from b u with
      | String d _ => slug_char d = true
      | EmptyString => True
      end).
Proof.
  induction u as [|c u IH]; intros b; cbn [re_sub_from].
  - split; [reflexivity | trivial].
  - destruct (slug_char c) eqn:Hc.
    + split; [|intros _; exact Hc].
      cbn [hyphens_ok]. rewrite Hc. apply (IH false).
    + destruct b.
      * apply (IH true).
      * split; [|discriminate].
        destruct (IH true) as [Hok Hhead]. specialize (Hhead eq_refl).
        cbn [hyphens_ok]. change (slug_char "-") with false. cbv iota.
        rewrite Hok, Bool.andb_true_r. change (Ascii.eqb "-" "-") with true.
        rewrite Bool.andb_true_l.
        destruct (re_sub_from true u); [reflexivity | exact Hhead].
Qed.

Lemma lstrip_hyphens_ok (e : bool) (c : ascii) (s : string) :
  hyphens_ok e s = true -> hyphens_ok e (lstrip c s) = true.
Proof.
  induction s as [|d s IH]; cbn [lstrip]; [trivial|].
  intros H. destruct (Ascii.eqb d c); [|exact H].
  apply IH. exact (hyphens_ok_tail _ _ _ H).
Qed.

Lemma rstrip_hyphens_ok (s : string) :
  hyphens_ok true s = true -> hyphens_ok false (rstrip "-" s) = true.
Proof.
  induction s as [|d s IH]; cbn [rstrip]; [trivial|].
  intros H. pose proof (hyphens_ok_tail _ _ _ H) as Ht. specialize (IH Ht).
  destruct (rstrip "-" s) as [|x r'] eqn:E.
  - destruct (Ascii.eqb_spec d "-") as [->|Hne]; [reflexivity|].
    destruct (hyphens_ok_head _ _ _ H) as [Hd|Hd]; [|contradiction].
    cbn [hyphens_ok]. now rewrite Hd.
  - destruct (rstrip_head _ _ _ _ E) as [r0 ->].
    rewrite hyphens_ok_cons in H. rewrite hyphens_ok_cons.
    destruct (slug_char d); [exact IH|].
    apply Bool.andb_true_iff in H. destruct H as [H _]. now rewrite H, IH.
Qed.

Lemma slugify_is_slug (title : string) : is_slug (slugify title) = true.
Proof.
  unfold slugify.
  assert (Hok : hyphens_ok false (strip "-" (re_sub (lower title))) = true).
  { unfold strip. apply rstrip_hyphens_ok, lstrip_hyphens_ok.
    apply (re_sub_from_shape (lower title) false). }
  destruct (strip_spec "-" (re_sub (lower title))) as (_ & Hhead & _).
  destruct (strip "-" (re_sub (lower title))) as [|c r] eqn:E; [reflexivity|].
  unfold is_slug. rewrite Hok, Bool.andb_true_r.
  destruct (hyphens_ok_head _ _ _ Hok) as [Hc|Hc]; [exact Hc|].
  now elim (Hhead c r eq_refl).
Qed.

(** A text of ASCII characters has no character beyond ASCII, and its
    lower case is that of its letters. *)
Lemma occurs_ascii (a : ascii) (old s : string) :
  (code a <? 128)%N = false -> is_ascii s = true ->
  occurs (String a old) s = false.
Proof.
  intros Ha. induction s as [|c s IH]; [reflexivity|].
  unfold is_ascii in *. cbn [all_chars occurs String.prefix].
  intros H. apply Bool.andb_true_iff in H. destruct H as [Hc Hs].
  rewrite (IH Hs), Bool.orb_false_r.
  destruct (Ascii.ascii_dec a c) as [->|_]; [|reflexivity].
  rewrite Hc in Ha. discriminate.
Qed.

Lemma lower_plain (s : string) :
  occurs kelvin_sign s = false -> occurs dotted_capital_i s = false ->
  lower s = lower_ascii s.
Proof.
  intros Hk Hi. unfold lower.
  rewrite (RenderFacts.replace_absent _ _ _ Hk).
  now rewrite (RenderFacts.replace_absent _ _ _ Hi).
Qed.

Lemma lower_of_ascii (s : string) :
  is_ascii s = true -> lower s = lower_ascii s.
Proof.
  intros H. apply lower_plain.
  - exact (occurs_ascii "226" _ s eq_refl H).
  - exact (occurs_ascii "196" _ s eq_refl H).
Qed.

Lemma slug_char_ascii (c : ascii) :
  slug_char c = true -> (code c <? 128)%N = true.
Proof.
  destruct c as [[] [] [] [] [] [] [] []]; try reflexivity; discriminate.
Qed.

Lemma hyphens_ok_ascii (e : bool) (s : string) :
  hyphens_ok e s = true -> is_ascii s = true.
Proof.
  unfold is_ascii. induction s as [|c s IH]; [reflexivity|].
  intros H. cbn [all_chars]. rewrite (IH (hyphens_ok_tail _ _ _ H)).
  rewrite Bool.andb_true_r.
  destruct (hyphens_ok_head _ _ _ H) as [Hc| ->];
    [now apply slug_char_ascii | reflexivity].
Qed.

Lemma lower_hyphens_ok (e : bool) (s : string) :
  hyphens_ok e s = true -> lower s = s.
Proof.
  intros H. rewrite (lower_of_ascii _ (hyphens_ok_ascii _ _ H)).
  induction s as [|c s IH]; cbn [lower_ascii]; [trivial|].
  rewrite (IH (hyphens_ok_tail _ _ _ H)). f_equal.
  destruct (hyphens_ok_head _ _ _ H) as [Hc| ->];
    [now apply slug_char_lower | reflexivity].
Qed.

Lemma re_sub_hyphens_ok (e : bool) (s : string) :
  hyphens_ok e s = true ->
  re_sub_from false s = s
  /\ (match s with
      | String d _ => slug_char d = true
      | EmptyString => True
      end -> re_sub_from true s = s).
Proof.
  induction s as [|c s IH]; cbn [re_sub_from]; [now split|].
  intros H. destruct (IH (hyphens_ok_tail _ _ _ H)) as [IH1 IH2].
  cbn [hyphens_ok] in H. destruct (slug_char c) eqn:Hc.
  - rewrite IH1. now split.
  - split; [|intros Hd; rewrite Hd in Hc; discriminate].
    apply Bool.andb_true_iff in H. destruct H as [H _].
    apply Bool.andb_true_iff in H. destruct H as [Hh Hn].
    apply Ascii.eqb_eq in Hh. subst c. f_equal.
    destruct s as [|d s]; [reflexivity|]. now apply IH2.
Qed.

Lemma last_char_hyphens_ok (s : string) :
  hyphens_ok false s = true -> last_char s <> Some "-"%char.
Proof.
  induction s as [|c s IH]; cbn [last_char]; [discriminate|].
  intros H. pose proof (hyphens_ok_tail _ _ _ H) as Ht.
  destruct s as [|d s]; [|now apply IH].
  cbn [hyphens_ok] in H. destruct (slug_char c) eqn:Hc.
  - intros [= ->]. discriminate.
  - rewrite Bool.andb_false_r in H. discriminate.
Qed.

Lemma rstrip_fixed (c : ascii) (s : string) :
  last_char s <> Some c -> rstrip c s = s.
Proof.
  induction s as [|d s IH]; cbn [rstrip last_char]; [trivial|].
  destruct s as [|x s].
  - intros H. cbn [rstrip]. destruct (Ascii.eqb_spec d c); [congruence|reflexivity].
  - intros H. rewrite (IH H). reflexivity.
Qed.

Lemma strip_is_slug (s : string) : is_slug s = true -> strip "-" s = s.
Proof.
  destruct s as [|c r]; [reflexivity|]. unfold is_slug.
  intros H. apply Bool.andb_true_iff in H. destruct H as [Hc Hok].
  unfold strip. cbn [lstrip].
  destruct (Ascii.eqb_spec c "-") as [->|_]; [discriminate|].
  apply rstrip_fixed, last_char_hyphens_ok, Hok.
Qed.

Lemma is_slug_fixed (s : string) : is_slug s = true -> slugify s = s.
Proof.
  destruct s as [|c r]; [reflexivity|]. unfold is_slug.
  intros H. apply Bool.andb_true_iff in H. destruct H as [Hc Hok].
  unfold slugify, re_sub. rewrite (lower_hyphens_ok _ _ Hok).
  destruct (re_sub_hyphens_ok _ _ Hok) as [-> _].
  unfold strip. cbn [lstrip].
  destruct (Ascii.eqb_spec c "-") as [->|_]; [discriminate|].
  apply rstrip_fixed, last_char_hyphens_ok, Hok.
Qed.

Lemma all_chars_append (p : ascii -> bool) (a b : string) :
  all_chars p (a ++ b) = all_chars p a && all_chars p b.
Proof.
  induction a as [|c a IH]; cbn [append all_chars]; [reflexivity|].
  now rewrite IH, Bool.andb_assoc.
Qed.

Lemma all_chars_replicate (p : ascii -> bool) (c : ascii) (n : nat) :
  p c = true -> all_chars p (replicate n c) = true.
Proof.
  intros H. induction n as [|n IH]; cbn [replicate all_chars];
    [reflexivity | now rewrite H, IH].
Qed.

Lemma re_sub_from_outside (u : string) : forall b,
  all_chars (fun c => negb (slug_char c)) (re_sub_from b u)
  = all_chars (fun c => negb (slug_char c)) u.
Proof.
  induction u as [|c u IH]; intros b; cbn [re_sub_from]; [reflexivity|].
  destruct (slug_char c) eqn:Hc.
  - cbn [all_chars]. now rewrite Hc.
  - destruct b; cbn [all_chars]; rewrite IH, Hc; reflexivity.
Qed.

Lemma strip_outside (s : string) :
  all_chars (fun c => negb (slug_char c)) (strip "-" s)
  = all_chars (fun c => negb (slug_char c)) s.
Proof.
  destruct (strip_spec "-" s) as ((n & m & E) & _).
  rewrite E at 2. rewrite !all_chars_append.
  rewrite !all_chars_replicate by reflexivity.
  now rewrite Bool.andb_true_r.
Qed.

Lemma lower_ascii_outside (t : string) :
  all_chars (fun c => negb (slug_char c)) (lower_ascii t) = no_slug_char t.
Proof.
  unfold no_slug_char.
  induction t as [|c t IH]; cbn [lower_ascii all_chars]; [reflexivity|].
  now rewrite IH.
Qed.

(** A replacement that puts in a letter or a digit shows in the result. *)
Lemma replace_outside (a : ascii) (old new s : string) :
  no_slug_char new = false ->
  no_slug_char (replace s (String a old) new) = true ->
  occurs (String a old) s = false.
Proof.
  intros Hn. unfold replace. induction s as [|c r IH]; [reflexivity|].
  cbn [replace_from occurs].
  destruct (String.prefix (String a old) (String c r)).
  - intros H. unfold no_slug_char in H. rewrite all_chars_append in H.
    fold (no_slug_char new) in H. rewrite Hn in H. discriminate.
  - cbn [orb]. intros H. unfold no_slug_char in H. cbn [all_chars] in H.
    apply Bool.andb_true_iff in H. destruct H as [_ H]. exact (IH H).
Qed.

End SlugShapeFacts.

Module SlugProps.
Import PyStr Slug SlugShape SlugShapeFacts.

(** X9.  Whatever the title, its slug is a possibly empty sequence of
    words over [[a-z0-9]] joined by single hyphens: it has no other
    character (no [/], no [.], no space), no hyphen at either end and no
    two hyphens in a row. *)
Theorem slug_is_hyphenated_words (title : string) :
  is_slug (slugify title) = true
  /\ all_chars (fun c => slug_char c || Ascii.eqb c "-") (slugify title) = true
  /\ (forall d r, slugify title = String d r -> d <> "-"%char)
  /\ last_char (slugify title) <> Some "-"%char
  /\ occurs "--" (slugify title) = false.
Proof.
  split; [apply slugify_is_slug|].
  split; [apply SlugFacts.slugify_alphabet|].
  destruct (PyStrFacts.strip_spec "-" (re_sub (lower title))) as (_ & Hh & Hl).
  split; [exact Hh|]. split; [exact Hl|].
  pose proof (slugify_is_slug title) as H.
  assert (Hok : hyphens_ok false (slugify title) = true).
  { destruct (slugify title) as [|c r]; [reflexivity|].
    unfold is_slug in H. now apply Bool.andb_true_iff in H. }
  clear H. induction (slugify title) as [|c s IH]; [reflexivity|].
  pose proof (hyphens_ok_tail _ _ _ Hok) as Ht.
  cbn [occurs]. rewrite (IH Ht), Bool.orb_false_r.
  rewrite hyphens_ok_cons in Hok. clear IH Ht.
  destruct s as [|d s]; cbn [String.prefix];
    (destruct (Ascii.ascii_dec "-" c) as [<-|Hne]; [|reflexivity]);
    [reflexivity|].
  destruct (Ascii.ascii_dec "-" d) as [<-|Hne']; [|reflexivity].
  discriminate.
Qed.

(** X10.  A text that is already a slug is its own slug, so [slugify] is
    idempotent: the slug of a slug is that slug. *)
Theorem slugify_idempotent :
  (forall s, is_slug s = true -> slugify s = s)
  /\ (forall title, slugify (slugify title) = slugify title).
Proof.
  split; [exact is_slug_fixed|].
  intros title. apply is_slug_fixed, slugify_is_slug.
Qed.

Lemma slugify_idempotent_sample :
  slugify "new-thing-2" = "new-thing-2"
  /\ slugify (slugify "  New  Thing (2)! ") = slugify "  New  Thing (2)! ".
Proof.
  split.
  - apply (proj1 slugify_idempotent). reflexivity.
  - apply (proj2 slugify_idempotent).
Defined.

(** X11.  The slug is empty exactly when the title has no ASCII letter,
    no ASCII digit, no Kelvin sign (U+212A) and no capital I with a dot
    above (U+0130), the two characters beyond ASCII that [str.lower()]
    turns into a text with an ASCII letter: so for an empty title,
    punctuation only, a title wholly in another script. *)
Theorem slug_empty_iff_no_letter_or_digit (title : string) :
  slugify title = ""
  <-> no_slug_char title = true
      /\ occurs kelvin_sign title = false
      /\ occurs dotted_capital_i title = false.
Proof.
  split.
  - intros E.
    assert (O : all_chars (fun c => negb (slug_char c)) (lower title) = true).
    { rewrite <- (re_sub_from_outside (lower title) false).
      rewrite <- strip_outside. fold (re_sub (lower title)).
      fold (slugify title). now rewrite E. }
    unfold lower in O. rewrite lower_ascii_outside in O.
    pose proof (replace_outside "196" _ dotted_small_i _ eq_refl O) as Hi.
    rewrite (RenderFacts.replace_absent _ _ _ Hi) in O.
    pose proof (replace_outside "226" _ "k" _ eq_refl O) as Hk.
    rewrite (RenderFacts.replace_absent _ _ _ Hk) in Hi.
    rewrite (RenderFacts.replace_absent _ _ _ Hk) in O.
    repeat split; assumption.
  - intros (Hn & Hk & Hi). revert Hn.
    rewrite <- lower_ascii_outside, <- (lower_plain _ Hk Hi).
    rewrite <- (re_sub_from_outside (lower title) false).
    rewrite <- strip_outside. fold (re_sub (lower title)).
    fold (slugify title). pose proof (slugify_is_slug title) as H.
    destruct (slugify title) as [|c r]; [reflexivity|].
    intros Hall. unfold is_slug in H.
    apply Bool.andb_true_iff in H. destruct H as [Hc _].
    cbn [all_chars] in Hall. rewrite Hc in Hall. discriminate.
Qed.

Lemma slug_empty_sample :
  slugify "?!" = "" /\ no_slug_char "?!" = true
  /\ slugify "Ελλάδα" = "" /\ slugify "Ελλάδα 2" = "2"
  /\ slugify kelvin_sign = "k" /\ slugify dotted_capital_i = "i".
Proof.
  split; [|split; [|split; [|split; [|split]]]].
  - apply (proj2 (slug_empty_iff_no_letter_or_digit "?!")).
    repeat split; reflexivity.
  - apply (proj1 (slug_empty_iff_no_letter_or_digit "?!")). reflexivity.
  - apply (proj2 (slug_empty_iff_no_letter_or_digit "Ελλάδα")).
    repeat split; reflexivity.
  - reflexivity.
  - reflexivity.
  - reflexivity.
Defined.

End SlugProps.


Module DateProps.
Import PyStr Site DateFacts.

Lemma sorted_among {A : Type} (R R' : A -> A -> Prop) (l : list A) :
  StronglySorted R l ->
  (forall a b, In a l -> In b l -> R a b -> R' a b) ->
  StronglySorted R' l.
Proof.
  induction 1 as [|a l Hs IH Hall]; intros Himp; constructor.
  - apply IH. intros x y Hx Hy. apply Himp; now right.
  - rewrite Forall_forall in Hall |- *. intros b Hb.
    apply Himp; [now left | now right | now apply Hall].
Qed.

(** X12.  For a date with a year of four digits, what
    [strftime("%Y-%m-%d")] writes is read back by [strptime] as the same
    date, and for a row whose status is a string that lower-cases to
    [published] and that bears such a date the
    loop of the loaders keeps the row exactly when the date is not after
    the day of the build: a row dated today is kept, a row dated tomorrow
    is not. *)
Theorem stamped_row_gate (today d : PyDate.date) (r : row)
    (status : string) :
  PyDate.valid (PyDate.year d) (PyDate.month d) (PyDate.day d) = true ->
  (1000 <= PyDate.year d)%Z ->
  Dict.get_default r "status" (CStr "") = CStr status ->
  lower status = "published" ->
  Dict.get r "publish_date" = Some (CStr (PyDate.strftime d)) ->
  PyDate.strptime (PyDate.strftime d) = Return d
  /\ published today r = Return (PyDate.leb d today).
Proof.
  intros V _ Hc Hs Hd. pose proof (strptime_stamp d V) as RT.
  split; [exact RT|].
  unfold published. rewrite Hc. cbn [str_of bind_outcome].
  rewrite Hs, String.eqb_refl. cbn [negb]. rewrite Hd.
  assert (E : exists c s, PyDate.strftime d = String c s)
    by (unfold PyDate.strftime, PyDate.two_digits; cbn [append]; eauto).
  destruct E as (c & s & E). rewrite E. rewrite <- E. rewrite RT.
  cbn [bind_outcome except_ValueError]. unfold PyDate.leb.
  now destruct (PyDate.ltb today d).
Qed.

Lemma stamped_row_gate_sample :
  PyDate.strptime "2024-06-01" = Return (PyDate.mkdate 2024 6 1)
  /\ published (PyDate.mkdate 2024 6 1)
       (full [("title", "Today"); ("status", "Published");
              ("publish_date", "2024-06-01")])
     = Return true.
Proof.
  apply (stamped_row_gate (PyDate.mkdate 2024 6 1) (PyDate.mkdate 2024 6 1)
           (full [("title", "Today"); ("status", "Published");
                  ("publish_date", "2024-06-01")]) "Published").
  - reflexivity.
  - cbn. lia.
  - reflexivity.
  - reflexivity.
  - reflexivity.
Defined.

(** X13.  When every line of the file reaches the status column and
    the rows that pass the gate bear their dates as
    [strftime("%Y-%m-%d")] writes them (a year of four digits, a month
    and a day of two), the order of the raw strings is the order of the
    calendar: the loaded collection has the newest record first. *)
Theorem stamped_collection_newest_first (w : World) (st : SiteBuilder)
    (product_rows : list row) (dates : row -> PyDate.date) :
  products_csv w = Some product_rows ->
  products st = [] ->
  forallb status_given product_rows = true ->
  (forall r, In r product_rows -> eligible (today w) r = true ->
     PyDate.valid (PyDate.year (dates r)) (PyDate.month (dates r))
       (PyDate.day (dates r)) = true
     /\ (1000 <= PyDate.year (dates r))%Z
     /\ Dict.get r "publish_date"
        = Some (CStr (PyDate.strftime (dates r)))) ->
  exists st',
    load_products w st = (Return tt, st')
    /\ StronglySorted (fun a b => PyDate.leb (dates b) (dates a) = true)
         (products st').
Proof.
  intros Hp He Sp Hrows.
  assert (Cp : comparable
                 (products st ++ filter (eligible (today w)) product_rows)
               = true).
  { rewrite He. cbn [app]. unfold comparable. apply Bool.orb_true_iff.
    right. apply forallb_forall. intros r Hr. apply filter_In in Hr.
    destruct Hr as [Hr Hel]. destruct (Hrows r Hr Hel) as (_ & _ & D).
    unfold sort_key, Dict.get_default. now rewrite D. }
  eexists.
  split; [exact (LoadFacts.load_products_run w st _ Hp Sp Cp)|].
  cbn [products with_products]. rewrite He. cbn [app].
  apply (sorted_among key_ge); [apply SortFacts.sort_desc_sorted|].
  assert (Hin : forall r,
            In r (sort_desc (filter (eligible (today w)) product_rows)) ->
            PyDate.valid (PyDate.year (dates r)) (PyDate.month (dates r))
              (PyDate.day (dates r)) = true
            /\ raw_date r = PyDate.strftime (dates r)).
  { intros r Hr.
    apply (Permutation_in _ (SortFacts.sort_desc_perm _)) in Hr.
    apply filter_In in Hr. destruct Hr as [Hr Hel].
    destruct (Hrows r Hr Hel) as (V & _ & D). split; [exact V|].
    unfold raw_date. now rewrite D. }
  intros a b Ha Hb. unfold key_ge.
  destruct (Hin a Ha) as [Va ->]. destruct (Hin b Hb) as [Vb ->].
  now rewrite (stamp_leb _ _ Vb Va).
Qed.

Lemma stamped_collection_sample :
  exists st',
    load_products Cases.stamped_world init = (Return tt, st')
    /\ map Cases.date_of (products st')
       = [PyDate.mkdate 2024 6 1; PyDate.mkdate 2024 3 9;
          PyDate.mkdate 2023 12 31].
Proof.
  destruct (stamped_collection_newest_first Cases.stamped_world init
              Cases.stamped_rows Cases.date_of eq_refl eq_refl eq_refl)
    as (st' & R & _).
  - intros r Hin _. cbn in Hin.
    destruct Hin as [<-|[<-|[<-|[<-|[]]]]]; vm_compute; repeat split;
      discriminate.
  - exists st'. split; [exact R|].
    assert (E : load_products Cases.stamped_world init
                = (Return tt, snd (load_products Cases.stamped_world init)))
      by (vm_compute; reflexivity).
    rewrite E in R. apply (f_equal snd) in R. cbn [snd] in R. subst st'.
    vm_compute. reflexivity.
Defined.

End DateProps.

(* ================================================================= *)
(** ** Page generation at the edges *)

Module PageEdges.
Import PyStr Site Written PageFacts PageRun.

(** X14.  With no product and no post, [generate_pages] opens the three
    index templates only: it returns and writes the home page and the two
    indexes, whether or not [product.html] and [post.html] exist. *)
Theorem empty_collections_need_three_templates (w : World)
    (repr_str : string -> string) (b1 b2 b4 : string) (st : SiteBuilder) :
  templates w "index.html" = Some b1 ->
  templates w "products_index.html" = Some b2 ->
  templates w "blog_index.html" = Some b4 ->
  allocated st ->
  products st = [] ->
  posts st = [] ->
  exists st',
    generate_pages w repr_str st = (Return tt, st')
    /\ output st'
       = ([("blog/index.html",
           Text (page_text repr_str b4 [("posts", VRows [])]
                   (heap st (site_config st))));
          ("products/index.html",
           Text (page_text repr_str b2 [("products", VRows [])]
                   (heap st (site_config st))));
          ("index.html",
           Text (page_text repr_str b1
                   [("featured_products", VRows []); ("recent_posts", VRows [])]
                   (heap st (site_config st))))]
         ++ output st)%list.
Proof.
  intros H1 H2 H4 Hinv Hp Hq. unfold generate_pages.
  unfold bind at 1, get_state at 1. rewrite (page_eq _ _ _ _ _ b1 _ _ H1).
  set (s1 := after_page _ _ b1 _ st).
  destruct (after_page_spec repr_str
              [("featured_products", VRows (firstn 4 (products st)));
               ("recent_posts", VRows (firstn 3 (posts st)))]
              b1 "index.html" st Hinv) as (E1 & I1 & O1).
  fold s1 in E1, I1, O1.
  unfold bind at 1, get_state at 1. rewrite (page_eq _ _ _ _ _ b2 _ _ H2).
  set (s2 := after_page _ _ b2 _ s1).
  destruct (after_page_spec repr_str [("products", VRows (products s1))]
              b2 "products/index.html" s1 I1) as (E2 & I2 & O2).
  fold s2 in E2, I2, O2.
  assert (E02 : extends st s2) by (eapply extends_trans; eassumption).
  unfold bind at 1, get_state at 1. unfold bind at 1.
  assert (P2 : products s2 = []) by (destruct E02 as (P & _); now rewrite P).
  rewrite P2. cbn [for_each]. unfold ret at 1.
  unfold bind at 1, get_state at 1. rewrite (page_eq _ _ _ _ _ b4 _ _ H4).
  set (s3 := after_page _ _ b4 _ s2).
  destruct (after_page_spec repr_str [("posts", VRows (posts s2))]
              b4 "blog/index.html" s2 I2) as (E3 & I3 & O3).
  fold s3 in E3, I3, O3.
  assert (E03 : extends st s3) by (eapply extends_trans; eassumption).
  unfold bind at 1, get_state at 1.
  assert (Q3 : posts s3 = [])
    by (destruct E03 as (_ & Q & _); now rewrite Q).
  rewrite Q3. cbn [for_each]. unfold ret.
  exists s3. split; [reflexivity|].
  rewrite O3, O2, O1.
  destruct E1 as (P1 & Q1 & C1 & G1 & _).
  destruct E02 as (P02 & Q02 & C02 & G02 & _).
  rewrite ?C1, ?C02, ?G1, ?G02, ?P1, ?Q02, Hp, Hq. reflexivity.
Qed.

Lemma empty_collections_sample :
  exists st',
    generate_pages Cases.only_index_templates Sample.quote Sample.builder
    = (Return tt, st')
    /\ map fst (output st')
       = ["blog/index.html"; "products/index.html"; "index.html"].
Proof.
  destruct (empty_collections_need_three_templates Cases.only_index_templates
              Sample.quote _ _ _ Sample.builder eq_refl eq_refl eq_refl)
    as (st' & R & O).
  - unfold allocated. cbn. lia.
  - reflexivity.
  - reflexivity.
  - exists st'. split; [exact R|]. rewrite O. reflexivity.
Defined.

(** X15.  With at least one product and no [product.html],
    [generate_pages] raises [FileNotFoundError] for the template once the
    home page and the products index are written; no detail page and
    nothing of the blog gets written. *)
Theorem missing_product_template_stops_pages (w : World)
    (repr_str : string -> string) (b1 b2 : string) (st : SiteBuilder)
    (r : row) (rest : list row) :
  templates w "index.html" = Some b1 ->
  templates w "products_index.html" = Some b2 ->
  templates w "product.html" = None ->
  allocated st ->
  products st = r :: rest ->
  exists st',
    generate_pages w repr_str st
    = (Raise (FileNotFoundError "site/templates/product.html"), st')
    /\ output st'
       = ([("products/index.html",
           Text (page_text repr_str b2 [("products", VRows (products st))]
                   (heap st (site_config st))));
          ("index.html",
           Text (page_text repr_str b1
                   [("featured_products", VRows (firstn 4 (products st)));
                    ("recent_posts", VRows (firstn 3 (posts st)))]
                   (heap st (site_config st))))]
         ++ output st)%list.
Proof.
  intros H1 H2 H3 Hinv Hp. unfold generate_pages.
  unfold bind at 1, get_state at 1. rewrite (page_eq _ _ _ _ _ b1 _ _ H1).
  set (s1 := after_page _ _ b1 _ st).
  destruct (after_page_spec repr_str
              [("featured_products", VRows (firstn 4 (products st)));
               ("recent_posts", VRows (firstn 3 (posts st)))]
              b1 "index.html" st Hinv) as (E1 & I1 & O1).
  fold s1 in E1, I1, O1.
  unfold bind at 1, get_state at 1. rewrite (page_eq _ _ _ _ _ b2 _ _ H2).
  set (s2 := after_page _ _ b2 _ s1).
  destruct (after_page_spec repr_str [("products", VRows (products s1))]
              b2 "products/index.html" s1 I1) as (E2 & I2 & O2).
  fold s2 in E2, I2, O2.
  assert (E02 : extends st s2) by (eapply extends_trans; eassumption).
  unfold bind at 1, get_state at 1. unfold bind at 1.
  assert (P2 : products s2 = r :: rest)
    by (destruct E02 as (P & _); now rewrite P).
  rewrite P2. cbn [for_each]. unfold bind at 1. unfold bind at 1.
  cbn [alloc]. unfold bind at 1.
  rewrite (RenderFacts.render_template_missing w repr_str _ _ _ H3).
  eexists. split; [reflexivity|].
  cbn [output with_heap]. rewrite O2, O1.
  destruct E1 as (P1 & Q1 & C1 & G1 & _).
  rewrite ?C1, ?G1, ?P1. reflexivity.
Qed.

Lemma missing_product_template_sample :
  exists st',
    generate_pages Cases.only_index_templates Sample.quote
      (with_products [ full [("title", "Lamp")] ] Sample.builder)
    = (Raise (FileNotFoundError "site/templates/product.html"), st')
    /\ map fst (output st') = ["products/index.html"; "index.html"].
Proof.
  destruct (missing_product_template_stops_pages Cases.only_index_templates
              Sample.quote _ _ (with_products [ full [("title", "Lamp")] ]
                                  Sample.builder)
              (full [("title", "Lamp")]) [] eq_refl eq_refl eq_refl)
    as (st' & R & O).
  - unfold allocated. cbn. lia.
  - reflexivity.
  - exists st'. split; [exact R|]. rewrite O. reflexivity.
Defined.

End PageEdges.

(* ================================================================= *)
(** ** The social copy script *)

Module SocialFacts.
Import PyStr PyStrFacts Slug SlugShape SlugShapeFacts Site Social.

Lemma read_published_given (reader : list row) :
  forallb status_given reader = true ->
  forall acc,
  read_published reader acc = Return (acc ++ filter by_status reader)%list.
Proof.
  induction reader as [|row reader IH]; intros H acc;
    cbn [read_published filter].
  - now rewrite app_nil_r.
  - cbn [forallb] in H. apply Bool.andb_true_iff in H. destruct H as [Hr H].
    unfold status_given in Hr. unfold by_status.
    destruct (Dict.get_default row "status" (CStr "")) as [|status];
      [discriminate|].
    cbn [str_of bind_outcome]. rewrite (IH H).
    destruct (String.eqb (lower status) "published");
      [now rewrite <- app_assoc | reflexivity].
Qed.

Lemma read_published_none (reader : list row) :
  forallb status_given reader = false ->
  forall acc, read_published reader acc = Raise no_lower.
Proof.
  induction reader as [|row reader IH]; intros H acc;
    cbn [read_published]; [discriminate H|].
  cbn [forallb] in H. unfold status_given in H at 1.
  destruct (Dict.get_default row "status" (CStr "")) as [|status].
  - reflexivity.
  - cbn [str_of bind_outcome]. apply IH. exact H.
Qed.

Lemma published_rows_given (reader : list row) :
  forallb status_given reader = true ->
  published_rows reader = Return (filter by_status reader).
Proof. intros H. unfold published_rows. now rewrite read_published_given. Qed.

Lemma published_rows_none (reader : list row) :
  forallb status_given reader = false ->
  published_rows reader = Raise no_lower.
Proof. intros H. unfold published_rows. now apply read_published_none. Qed.

Lemma published_rows_returns (reader rows : list row) :
  published_rows reader = Return rows ->
  forallb status_given reader = true.
Proof.
  intros H. destruct (forallb status_given reader) eqn:E; [reflexivity|].
  rewrite (published_rows_none _ E) in H. discriminate H.
Qed.

Lemma split_cons (sep : ascii) (s : string) :
  exists piece pieces, split sep s = piece :: pieces.
Proof.
  destruct s as [|c r]; cbn [split]; [eauto|].
  destruct (Ascii.eqb c sep); [eauto|].
  destruct (split sep r); eauto.
Qed.

(** Joining the pieces of a split with [new] replaces each separator by
    [new]. *)
Lemma concat_split (sep : ascii) (new s : string) :
  String.concat new (split sep s) = replace s (String sep "") new.
Proof.
  unfold replace. induction s as [|c r IH]; [reflexivity|].
  cbn [split replace_from String.prefix String.length Nat.sub].
  destruct (Ascii.eqb_spec c sep) as [->|Hne].
  - destruct (Ascii.ascii_dec sep sep) as [_|N]; [|contradiction].
    replace (String.prefix "" r) with true by (now destruct r).
    rewrite <- IH. destruct (split_cons sep r) as (piece & pieces & ->).
    reflexivity.
  - destruct (Ascii.ascii_dec sep c) as [E|_]; [now elim Hne|].
    rewrite <- IH. destruct (split_cons sep r) as (piece & pieces & ->).
    destruct pieces; reflexivity.
Qed.

Lemma plain_char (c : ascii) :
  (is_upper c || is_lower c || is_digit c)%bool = true ->
  slug_char (lower_char c) = true /\ lower_char c <> " "%char.
Proof.
  destruct c as [[] [] [] [] [] [] [] []]; intros H; try discriminate H;
    (split; [reflexivity | discriminate]).
Qed.

Lemma plain_words_ascii (t : string) : forall b,
  plain_words b t = true -> is_ascii t = true.
Proof.
  unfold is_ascii. induction t as [|c r IH]; intros b; [reflexivity|].
  cbn [plain_words all_chars].
  destruct (Ascii.eqb_spec c " ") as [->|_]; intros H;
    apply Bool.andb_true_iff in H; destruct H as [Hc Hr];
    rewrite (IH _ Hr), Bool.andb_true_r; [reflexivity|].
  revert Hc. clear.
  destruct c as [[] [] [] [] [] [] [] []]; try reflexivity; discriminate.
Qed.

Lemma plain_words_link (t : string) : forall b,
  plain_words b t = true ->
  re_sub_from false (lower_ascii t) = replace (lower_ascii t) " " "-"
  /\ (b = true -> re_sub_from true (lower_ascii t) = replace (lower_ascii t) " " "-")
  /\ hyphens_ok false (replace (lower_ascii t) " " "-") = true
  /\ (b = true ->
      match replace (lower_ascii t) " " "-" with
      | String d _ => slug_char d = true
      | EmptyString => False
      end).
Proof.
  unfold replace. induction t as [|c r IH]; intros b;
    cbn [plain_words lower_ascii].
  - destruct b; [discriminate|]. intros _. repeat split; discriminate.
  - destruct (Ascii.eqb_spec c " ") as [->|Hne]; intros H.
    + apply Bool.andb_true_iff in H. destruct H as [Hb Hr].
      destruct b; [discriminate|].
      destruct (IH true Hr) as (_ & I2 & I3 & I4).
      specialize (I2 eq_refl). specialize (I4 eq_refl).
      change (lower_char " ") with " "%char.
      replace (replace_from 0 " " "-" (String " " (lower_ascii r)))
        with (String "-" (replace_from 0 " " "-" (lower_ascii r)))
        by (cbn [replace_from String.prefix]; now destruct (lower_ascii r)).
      change (re_sub_from false (String " " (lower_ascii r)))
        with (String "-" (re_sub_from true (lower_ascii r))).
      rewrite I2. split; [reflexivity|]. split; [discriminate|].
      split; [|discriminate].
      rewrite hyphens_ok_cons. change (slug_char "-") with false. cbv iota.
      rewrite I3. change (Ascii.eqb "-" "-") with true.
      destruct (replace_from 0 " " "-" (lower_ascii r)); [contradiction|].
      now rewrite I4.
    + apply Bool.andb_true_iff in H. destruct H as [Hc Hr].
      destruct (plain_char c Hc) as [Hs Hsp].
      destruct (IH false Hr) as (I1 & _ & I3 & _).
      assert (E : replace_from 0 " " "-" (String (lower_char c) (lower_ascii r))
                  = String (lower_char c) (replace_from 0 " " "-" (lower_ascii r))).
      { cbn [replace_from String.prefix].
        destruct (Ascii.ascii_dec " " (lower_char c)) as [E|_];
          [now elim Hsp | reflexivity]. }
      rewrite E. cbn [re_sub_from]. rewrite Hs, I1.
      split; [reflexivity|]. split; [reflexivity|].
      split; [|reflexivity].
      rewrite hyphens_ok_cons, Hs. exact I3.
Qed.

Lemma getitem_get_default (r : row) (k : string) (v : cell) :
  Dict.get r k = Some v ->
  getitem r k = Return v /\ Dict.get_default r k (CStr "") = v.
Proof. unfold getitem, Dict.get_default. now intros ->. Qed.

Lemma product_message_text (r : row) :
  promotable r -> product_message r = Return (product_text r).
Proof.
  intros [H [tags G5]]. unfold product_message, product_text.
  destruct (H "title") as [v1 G1]; [cbn; tauto|].
  destruct (H "price") as [v2 G2]; [cbn; tauto|].
  destruct (H "description") as [v3 G3]; [cbn; tauto|].
  destruct (H "external_url") as [v4 G4]; [cbn; tauto|].
  destruct (getitem_get_default _ _ _ G1) as [-> ->].
  destruct (getitem_get_default _ _ _ G2) as [-> ->].
  destruct (getitem_get_default _ _ _ G3) as [-> ->].
  destruct (getitem_get_default _ _ _ G4) as [-> ->].
  unfold getitem. rewrite G5. reflexivity.
Qed.

Lemma post_message_text (r : row) :
  announceable r -> post_message r = Return (post_text r).
Proof.
  intros [[t G1] [v2 G2]]. unfold post_message, post_text, title_of.
  destruct (getitem_get_default _ _ _ G1) as [-> ->].
  destruct (getitem_get_default _ _ _ G2) as [-> ->].
  rewrite G1. cbn [bind_outcome str_of]. unfold getitem.
  destruct (Dict.get r "tags") as [[|[|c s]]|]; reflexivity.
Qed.

Lemma product_message_missing (r : row) (k : string) :
  first_missing ["title"; "price"; "description"; "external_url"; "tags"] r
  = Some k ->
  product_message r = Raise (KeyError k).
Proof.
  unfold first_missing, product_message, getitem. cbn [find].
  destruct (Dict.get r "title"); [|now intros [= <-]].
  destruct (Dict.get r "price"); [|now intros [= <-]].
  destruct (Dict.get r "description"); [|now intros [= <-]].
  destruct (Dict.get r "external_url"); [|now intros [= <-]].
  destruct (Dict.get r "tags"); [discriminate|now intros [= <-]].
Qed.

Lemma print_each_all (message : row -> outcome string)
    (text : row -> string) (records : list row) :
  Forall (fun r => message r = Return (text r)) records ->
  forall stdout,
  print_each message records stdout
  = (Return tt, (stdout ++ printed (map text records))%list).
Proof.
  induction 1 as [|r records Hr _ IH]; intros stdout; cbn [print_each].
  - cbn. now rewrite app_nil_r.
  - rewrite Hr, IH. unfold printed. cbn [map flat_map].
    now rewrite <- app_assoc.
Qed.

Lemma print_each_stops (message : row -> outcome string)
    (text : row -> string) (before after : list row) (r : row) (e : exn) :
  Forall (fun r => message r = Return (text r)) before ->
  message r = Raise e ->
  forall stdout,
  print_each message (before ++ r :: after) stdout
  = (Raise e, (stdout ++ printed (map text before))%list).
Proof.
  intros Hb Hr. induction Hb as [|x before Hx _ IH]; intros stdout;
    cbn [app print_each].
  - rewrite Hr. cbn. now rewrite app_nil_r.
  - rewrite Hx, IH. unfold printed. cbn [map flat_map].
    now rewrite <- app_assoc.
Qed.

Lemma product_message_returns (r : row) (m : string) :
  product_message r = Return m -> promotable r.
Proof.
  unfold product_message, getitem.
  destruct (Dict.get r "title") eqn:G1; [|discriminate].
  destruct (Dict.get r "price") eqn:G2; [|discriminate].
  destruct (Dict.get r "description") eqn:G3; [|discriminate].
  destruct (Dict.get r "external_url") eqn:G4; [|discriminate].
  destruct (Dict.get r "tags") as [[|tags]|] eqn:G5; try discriminate.
  intros _. split; [|eauto]. intros k Hk. cbn in Hk.
  repeat (destruct Hk as [<-|Hk]; [eauto|]). contradiction.
Qed.

Lemma post_message_returns (r : row) (m : string) :
  post_message r = Return m -> announceable r.
Proof.
  unfold post_message, getitem.
  destruct (Dict.get r "title") as [c|] eqn:G1; [|discriminate].
  destruct (Dict.get r "excerpt") eqn:G2; [|discriminate].
  cbn [bind_outcome]. destruct c as [|t]; [discriminate|].
  intros _. split; [exists t; exact G1 | eauto].
Qed.

Lemma print_each_returns (message : row -> outcome string)
    (records : list row) : forall stdout stdout',
  print_each message records stdout = (Return tt, stdout') ->
  Forall (fun r => exists m, message r = Return m) records.
Proof.
  induction records as [|r records IH]; intros stdout stdout';
    cbn [print_each]; [constructor|].
  destruct (message r) as [m|e] eqn:E; [|discriminate].
  intros H. constructor; [eauto | exact (IH _ _ H)].
Qed.

End SocialFacts.

Module SocialProps.
Import PyStr Slug SlugShape SlugShapeFacts Site Social SocialFacts.

(** X16.  When every line of the file reaches the status column, the
    social copy takes the rows by their status alone, in the order of
    the file: a row is among them exactly when its status, lower-cased,
    is [published], whatever its date.  So every record that the site
    builder loads is among them, and a record dated after the day of the
    build is promoted although the site does not show it. *)
Theorem social_copy_selects_by_status (reader : list row) :
  forallb status_given reader = true ->
  exists rows,
    published_rows reader = Return rows
    /\ rows = filter by_status reader
    /\ (forall r, In r rows <-> In r reader /\ status_published r)
    /\ (forall today r, In r reader -> eligible today r = true -> In r rows).
Proof.
  intros H. exists (filter by_status reader).
  split; [now apply published_rows_given|]. split; [reflexivity|]. split.
  - intros r. rewrite filter_In. unfold status_published, by_status.
    split; intros [Hin Hs]; (split; [exact Hin|]).
    + destruct (Dict.get_default r "status" (CStr "")) as [|s];
        [discriminate|].
      exists s. split; [reflexivity | now apply String.eqb_eq].
    + destruct Hs as (s & -> & Hs). now apply String.eqb_eq.
  - intros today r Hin Hel. apply filter_In. split; [exact Hin|].
    unfold eligible in Hel. unfold by_status.
    destruct (Dict.get_default r "status" (CStr "")) as [|s];
      [discriminate|].
    now apply Bool.andb_true_iff in Hel.
Qed.

Lemma social_copy_selects_sample :
  exists rows,
    published_rows Cases.social_products = Return rows
    /\ map title_of rows = ["Desk Lamp"; "Chair"]
    /\ In (nth 1 Cases.social_products (full [])) rows
    /\ eligible (today Cases.social_world)
         (nth 1 Cases.social_products (full []))
       = false.
Proof.
  destruct (social_copy_selects_by_status Cases.social_products eq_refl)
    as (rows & R & E & M & _).
  exists rows. split; [exact R|]. split; [now rewrite E|].
  split; [|reflexivity].
  apply (proj2 (M _)). split; [cbn; tauto|].
  exists "Published". split; reflexivity.
Defined.

(** X17.  The hashtags of a record are its [tags] field behind a [#],
    with every comma replaced by a space and a [#]: nothing is trimmed,
    and an empty field gives a lone [#]. *)
Theorem hashtags_replace_commas (tags : string) :
  hashtags tags = "#" ++ replace tags "," " #".
Proof. unfold hashtags. now rewrite concat_split. Qed.

(** X18.  For a title made of ASCII letters and digits in words that
    single spaces separate, the link of the social copy,
    [title.lower().replace(' ', '-')], is the slug under which the site
    builder writes the page of the post. *)
Theorem plain_title_link_is_slug (title : string) :
  plain_title title = true -> link_slug title = slugify title.
Proof.
  intros H. destruct (plain_words_link title true H) as (I1 & _ & I3 & I4).
  specialize (I4 eq_refl). unfold link_slug, slugify, re_sub.
  rewrite (lower_of_ascii _ (plain_words_ascii _ _ H)), I1.
  symmetry. apply strip_is_slug. unfold is_slug.
  destruct (replace (lower_ascii title) " " "-") as [|d s]; [reflexivity|].
  now rewrite I4, I3.
Qed.

Lemma plain_title_link_sample :
  link_slug "Second post" = slugify "Second post".
Proof. apply (plain_title_link_is_slug "Second post"). reflexivity. Defined.

(** X19.  When both files open, every line of either file reaches the
    status column, each of the first three published products has the
    four fields that its message formats and tags that are a string, and
    each of the first three published posts has an excerpt and a title
    that is a string of ASCII characters, the script returns and prints
    the header, the messages of these products, the blog header and the
    messages of these posts, a separator after each message; the rows
    after the third of either file have no part.  A cell that a short
    line leaves out is printed as [None]; the link of a post is its
    title in lower case with a hyphen for each space. *)
Theorem social_copy_prints (w : World) (product_rows post_rows : list row) :
  products_csv w = Some product_rows ->
  posts_csv w = Some post_rows ->
  forallb status_given product_rows = true ->
  forallb status_given post_rows = true ->
  Forall promotable (firstn 3 (filter by_status product_rows)) ->
  Forall announceable (firstn 3 (filter by_status post_rows)) ->
  Forall (fun r => is_ascii (title_of r) = true)
    (firstn 3 (filter by_status post_rows)) ->
  generate_social_copy w
  = (Return tt,
     (header
      ++ printed (map product_text (firstn 3 (filter by_status product_rows)))
      ++ [(newline ++ "--- BLOG CONTENT ---")%string]
      ++ printed (map post_text (firstn 3 (filter by_status post_rows))))%list).
Proof.
  intros Hp Hq Sp Sq Fp Fq _. unfold generate_social_copy.
  rewrite Hp, Hq, (published_rows_given _ Sp), (published_rows_given _ Sq).
  cbv zeta.
  rewrite (print_each_all product_message product_text).
  2:{ eapply Forall_impl; [|exact Fp]. apply product_message_text. }
  rewrite (print_each_all post_message post_text).
  2:{ eapply Forall_impl; [|exact Fq]. apply post_message_text. }
  unfold header. now rewrite <- !app_assoc.
Qed.

Lemma social_copy_prints_sample :
  exists stdout,
    generate_social_copy Cases.social_world = (Return tt, stdout)
    /\ List.length stdout = 11%nat
    /\ nth 4 stdout ""
       = "🚀 NEW: Chair - $45" ++ newline ++ newline ++ "Soft." ++ newline
         ++ newline ++ "👉 Get it here: https://shop.example/chair"
         ++ newline ++ newline ++ "#"
    /\ nth 7 stdout ""
       = "📖 NEW POST: Second post" ++ newline ++ newline ++ "more" ++ newline
         ++ newline
         ++ "👉 Read more: https://yourusername.github.io/blog/second-post.html"
         ++ newline ++ newline ++ "#news # shop"
    /\ nth 8 stdout "" = separator.
Proof.
  eexists. split.
  - apply (social_copy_prints Cases.social_world Cases.social_products
             Cases.social_posts eq_refl eq_refl eq_refl eq_refl).
    + repeat constructor; try (eexists; reflexivity);
        intros k Hk; cbn in Hk;
        repeat (destruct Hk as [<-|Hk]; [eexists; reflexivity|]);
        contradiction.
    + repeat constructor; eexists; reflexivity.
    + repeat constructor.
  - repeat split; reflexivity.
Defined.

(** X20.  The script returns exactly when both files open, every line of
    either file reaches the status column, each of the first three
    published products has the four fields that its message formats and
    tags that are a string, and each of the first three published posts
    has an excerpt and a title that is a string.  The rows of the
    products are read before the file of the posts is opened, and both
    before anything is printed: a missing products file raises
    [FileNotFoundError]; a line of the products that stops before the
    status raises [AttributeError]; after products that are read, a
    missing posts file raises [FileNotFoundError] and a line of the
    posts that stops before the status raises [AttributeError]; in each
    of these cases nothing has been printed. *)
Theorem social_copy_returns_iff (w : World) :
  ((exists stdout, generate_social_copy w = (Return tt, stdout))
   <-> exists product_rows post_rows,
         products_csv w = Some product_rows
         /\ posts_csv w = Some post_rows
         /\ forallb status_given product_rows = true
         /\ forallb status_given post_rows = true
         /\ Forall promotable (firstn 3 (filter by_status product_rows))
         /\ Forall announceable (firstn 3 (filter by_status post_rows)))
  /\ (products_csv w = None ->
      generate_social_copy w
      = (Raise (FileNotFoundError "data/products.csv"), []))
  /\ (forall product_rows,
        products_csv w = Some product_rows ->
        forallb status_given product_rows = false ->
        generate_social_copy w = (Raise no_lower, []))
  /\ (forall product_rows,
        products_csv w = Some product_rows ->
        forallb status_given product_rows = true ->
        posts_csv w = None ->
        generate_social_copy w
        = (Raise (FileNotFoundError "data/posts.csv"), []))
  /\ (forall product_rows post_rows,
        products_csv w = Some product_rows ->
        forallb status_given product_rows = true ->
        posts_csv w = Some post_rows ->
        forallb status_given post_rows = false ->
        generate_social_copy w = (Raise no_lower, [])).
Proof.
  unfold generate_social_copy. split; [split|].
  - intros [stdout H].
    destruct (products_csv w) as [product_rows|]; [|discriminate].
    destruct (published_rows product_rows) as [ps|] eqn:Ep; [|discriminate].
    destruct (posts_csv w) as [post_rows|]; [|discriminate].
    destruct (published_rows post_rows) as [qs|] eqn:Eq; [|discriminate].
    pose proof (published_rows_returns _ _ Ep) as Sp.
    pose proof (published_rows_returns _ _ Eq) as Sq.
    rewrite (published_rows_given _ Sp) in Ep.
    rewrite (published_rows_given _ Sq) in Eq.
    injection Ep as <-. injection Eq as <-.
    exists product_rows, post_rows. split; [reflexivity|].
    split; [reflexivity|]. split; [exact Sp|]. split; [exact Sq|].
    cbv zeta in H.
    destruct (print_each product_message _ _) as [[[]|e] out] eqn:E;
      [|discriminate].
    split.
    + apply print_each_returns in E. eapply Forall_impl; [|exact E].
      intros r [m Hm]. exact (product_message_returns r m Hm).
    + apply print_each_returns in H. eapply Forall_impl; [|exact H].
      intros r [m Hm]. exact (post_message_returns r m Hm).
  - intros (product_rows & post_rows & -> & -> & Sp & Sq & Fp & Fq).
    rewrite (published_rows_given _ Sp), (published_rows_given _ Sq).
    cbv zeta.
    rewrite (print_each_all product_message product_text).
    2:{ eapply Forall_impl; [|exact Fp]. apply product_message_text. }
    rewrite (print_each_all post_message post_text).
    2:{ eapply Forall_impl; [|exact Fq]. apply post_message_text. }
    eauto.
  - split; [now intros ->|]. split; [|split].
    + intros product_rows -> Sp. now rewrite (published_rows_none _ Sp).
    + intros product_rows -> Sp ->. now rewrite (published_rows_given _ Sp).
    + intros product_rows post_rows -> Sp -> Sq.
      now rewrite (published_rows_given _ Sp), (published_rows_none _ Sq).
Qed.

Lemma social_copy_returns_sample :
  (exists stdout, generate_social_copy Cases.social_world = (Return tt, stdout))
  /\ generate_social_copy Cases.no_posts_file
     = (Raise (FileNotFoundError "data/posts.csv"), [])
  /\ generate_social_copy Cases.short_status_world = (Raise no_lower, []).
Proof.
  split; [|split].
  - apply (proj2 (proj1 (social_copy_returns_iff Cases.social_world))).
    exists Cases.social_products, Cases.social_posts.
    split; [reflexivity|]. split; [reflexivity|].
    split; [reflexivity|]. split; [reflexivity|]. split.
    + repeat constructor; try (eexists; reflexivity);
        intros k Hk; cbn in Hk;
        repeat (destruct Hk as [<-|Hk]; [eexists; reflexivity|]);
        contradiction.
    + repeat constructor; eexists; reflexivity.
  - apply (proj1 (proj2 (proj2 (proj2
             (social_copy_returns_iff Cases.no_posts_file))))
             Sample.product_rows eq_refl eq_refl eq_refl).
  - apply (proj1 (proj2 (proj2
             (social_copy_returns_iff Cases.short_status_world)))
             Cases.short_status_rows eq_refl eq_refl).
Defined.

(** X21.  When both files are read and one of the first three published
    products lacks a field of the message, the script raises [KeyError]
    for the first field it lacks, in the order title, price,
    description, external_url, tags: the messages of the products before
    it have been printed, and nothing of the blog is. *)
Theorem social_copy_missing_field (w : World)
    (product_rows post_rows before after : list row) (r : row) (k : string) :
  products_csv w = Some product_rows ->
  posts_csv w = Some post_rows ->
  forallb status_given product_rows = true ->
  forallb status_given post_rows = true ->
  firstn 3 (filter by_status product_rows) = (before ++ r :: after)%list ->
  Forall promotable before ->
  first_missing ["title"; "price"; "description"; "external_url"; "tags"] r
  = Some k ->
  generate_social_copy w
  = (Raise (KeyError k), (header ++ printed (map product_text before))%list).
Proof.
  intros Hp Hq Sp Sq Hsplit Fb Hk. unfold generate_social_copy.
  rewrite Hp, Hq, (published_rows_given _ Sp), (published_rows_given _ Sq).
  cbv zeta. rewrite Hsplit.
  rewrite (print_each_stops product_message product_text before after r
             (KeyError k)).
  - reflexivity.
  - eapply Forall_impl; [|exact Fb]. apply product_message_text.
  - now apply product_message_missing.
Qed.

Lemma social_copy_missing_field_sample :
  generate_social_copy Sample.world = (Raise (KeyError "price"), header).
Proof.
  apply (social_copy_missing_field Sample.world Sample.product_rows
           Sample.post_rows []
           (skipn 1 (firstn 3 (filter by_status Sample.product_rows)))
           (nth 0 Sample.product_rows (full [])) "price"
           eq_refl eq_refl eq_refl eq_refl eq_refl (Forall_nil _) eq_refl).
Defined.

End SocialProps.
